(** * Marketing configuration validator and test-harness dataset names

    A shallow embedding of [src/config_validator.py] and of the dataset-name
    function of [src/common/py_libs/test_harness.py], with the properties
    their specification states about them.

    Python values are a small tagged union, dictionaries are finite maps
    with string keys, and the validator runs in a state monad whose state
    holds the configuration document, the collaborator's world and the trace
    of observable events (log records and collaborator calls).  Python's
    three ways of leaving a statement (falling through, [return], [raise])
    are the three constructors of [outcome]. *)

From stdpp Require Import gmap strings list fin_maps pretty.
From Stdlib Require Import ZArith Ascii String.

Open Scope string_scope.

(** ** Strings

    Text is a sequence of 8-bit characters; [str_lower] and [str_replace1]
    act on it as [str.lower] and [str.replace] do on ASCII text. *)

Module PyStr.

Definition is_upper (c : ascii) : bool :=
  (65 <=? nat_of_ascii c)%nat && (nat_of_ascii c <=? 90)%nat.

Definition char_lower (c : ascii) : ascii :=
  if is_upper c then ascii_of_nat (nat_of_ascii c + 32) else c.

(** [s.lower()] *)
Fixpoint str_lower (s : string) : string :=
  match s with
  | EmptyString => EmptyString
  | String c rest => String (char_lower c) (str_lower rest)
  end.

(** [s.replace(old, new)] for a pattern [old] of one character. *)
Fixpoint str_replace1 (old : ascii) (new : string) (s : string) : string :=
  match s with
  | EmptyString => EmptyString
  | String c rest =>
      if Ascii.eqb c old then new +:+ str_replace1 old new rest
      else String c (str_replace1 old new rest)
  end.

(** [s.startswith(p)] *)
Fixpoint startswith (s p : string) : bool :=
  match p, s with
  | EmptyString, _ => true
  | String _ _, EmptyString => false
  | String a p', String b s' => Ascii.eqb a b && startswith s' p'
  end.

(** [s.split(sep)] for a separator of one character: the pieces between
    the occurrences of [sep], at least one piece. *)
Fixpoint str_split1 (sep : ascii) (s : string) : list string :=
  match s with
  | EmptyString => [EmptyString]
  | String c rest =>
      if Ascii.eqb c sep then EmptyString :: str_split1 sep rest
      else match str_split1 sep rest with
           | [] => [String c EmptyString]
           | piece :: pieces => String c piece :: pieces
           end
  end.

(** [sep.join(pieces)] *)
Fixpoint str_join (sep : string) (pieces : list string) : string :=
  match pieces with
  | [] => EmptyString
  | [p] => p
  | p :: ps => p +:+ sep +:+ str_join sep ps
  end.

End PyStr.

(** ** test_harness.py *)

Module TestHarness.
Import PyStr.

Definition TEST_HARNESS_VERSION : string := "5_0".

(** [get_test_harness_dataset], lines 25-50. *)
Definition get_test_harness_dataset
    (workload_path target_dataset_type location : string) : string :=
  let workload_prefix := str_replace1 "." "__" workload_path in
  let location := str_replace1 "-" "_" location in
  let dataset_name :=
    workload_prefix +:+ "__" +:+ target_dataset_type +:+ "__" +:+
    TEST_HARNESS_VERSION +:+ "__" +:+ location in
  str_lower dataset_name.

(** The name as the specification words it: the four parts joined by a
    double underscore, the dots of the workload path and the dashes of the
    location replaced, the whole in lower case. *)
Definition dataset_name_spec (workloadPath datasetType location : string)
    : string :=
  str_lower
    (str_join "__"
       [ str_join "__" (str_split1 "." workloadPath);
         datasetType;
         "5_0";
         str_join "_" (str_split1 "-" location) ]).

End TestHarness.

(** ** Python values *)

Module Py.

(** The values a parsed configuration document holds: [None], booleans,
    integers, strings, lists and mappings with string keys.  Numbers with
    a fraction are left out. *)
#[warnings="-register-all"]
Inductive pyval : Type :=
| VNone
| VBool (b : bool)
| VInt (z : Z)
| VStr (s : string)
| VList (l : list pyval)
| VDict (d : gmap string pyval).

(** [bool(v)]: [None], [False], [0], the empty string and the empty
    containers are falsy. *)
Definition truthy (v : pyval) : bool :=
  match v with
  | VNone => false
  | VBool b => b
  | VInt z => negb (z =? 0)%Z
  | VStr s => negb (String.eqb s "")
  | VList l => negb (List.length l =? 0)%nat
  | VDict d => negb (size d =? 0)%nat
  end.

(** [v is None] *)
Definition is_none (v : pyval) : bool :=
  match v with VNone => true | _ => false end.

(** [v == ""] *)
Definition eq_empty_str (v : pyval) : bool :=
  match v with VStr s => String.eqb s "" | _ => false end.

(** Exceptions, by the classes the handlers tell apart.  [ValueError]
    stands for the class and its subclasses and carries [str(e)];
    [NonException] is a [BaseException] outside [Exception]
    ([KeyboardInterrupt], [SystemExit]). *)
Inductive exn : Type :=
| ValueError (msg : string)
| KeyError (key : string)
| AttributeError (attr : string)
| TypeError (msg : string)
| OtherException (name : string)
| NonException (name : string).

Definition is_Exception (e : exn) : bool :=
  match e with NonException _ => false | _ => true end.

(** [repr] of a list of attribute names; the names are identifiers, so
    each is quoted as it stands. *)
Definition repr_names (names : list string) : string :=
  "[" +:+ PyStr.str_join ", " (map (fun n => "'" +:+ n +:+ "'") names) +:+ "]".

End Py.

(** ** config_validator.py *)

Module ConfigValidator.
Import PyStr Py.

(** Modelled from the spec: the descriptor types of the
    [resource_validation_helper] module, which is not among the sources.
    A dataset constraint is a fully-qualified reference [project.dataset],
    [mustExist], [checkAccess] and a location; a bucket constraint is a
    name, [mustExist] and a location.  The validator stores whatever the
    configuration holds in the name and location fields. *)
Record DatasetConstraints : Type := mkDatasetConstraints {
  full_name : string;
  must_exist : bool;
  check_access : bool;
  location : pyval
}.

Record BucketConstraints : Type := mkBucketConstraints {
  bucket_name : pyval;
  bucket_must_exist : bool;
  bucket_location : pyval
}.

Inductive level : Type := INFO | ERROR.

(** The first argument of a logging call is a format string or, in
    [logging.error(e)], the exception itself. *)
Inductive logmsg : Type :=
| Msg (s : string)
| MsgExn (e : exn).

(** What a run lets the outside observe: log records (level, message,
    arguments, as [logging] keeps them) and calls of the collaborator. *)
Inductive event : Type :=
| Log (lvl : level) (msg : logmsg) (args : list pyval)
| Call (buckets : list BucketConstraints) (datasets : list DatasetConstraints).

(** What a call of the collaborator comes back with. *)
Inductive reply : Type :=
| Returns (v : pyval)
| Throws (e : exn).

Inductive outcome (A : Type) : Type :=
| Normal (a : A)
| Returned (v : pyval)
| Raised (e : exn).
Arguments Normal {A} a.
Arguments Returned {A} v.
Arguments Raised {A} e.

Section Validator.

(** The collaborator [resource_validation_helper.validate_resources] with
    the state of the world it inspects, and [repr] on lists and mappings
    (reached only when an f-string formats a container). *)
Variable World : Type.
Variable validate_resources :
  list BucketConstraints -> list DatasetConstraints -> World -> reply * World.
Variable repr_container : pyval -> string.

Record state : Type := mkState {
  cfg : gmap string pyval;
  world : World;
  trace : list event
}.

Definition M (A : Type) : Type := state -> outcome A * state.

Definition ret {A} (a : A) : M A := fun st => (Normal a, st).

Definition bind {A B} (m : M A) (k : A -> M B) : M B :=
  fun st =>
    match m st with
    | (Normal a, st') => k a st'
    | (Returned v, st') => (Returned v, st')
    | (Raised e, st') => (Raised e, st')
    end.

Local Notation "x ← y ; z" := (bind y (fun x => z))
  (at level 20, y at level 100, z at level 200, only parsing).
Local Notation "y ;; z" := (bind y (fun _ => z))
  (at level 100, z at level 200, only parsing, right associativity).

(** [raise e] and [return v] *)
Definition raise {A} (e : exn) : M A := fun st => (Raised e, st).
Definition return_ {A} (v : pyval) : M A := fun st => (Returned v, st).

(** [try: body except ...: handler] where [handler] tells, for the
    exception raised, the clause that takes it, if any. *)
Definition try_except {A} (body : M A) (handler : exn -> option (M A)) : M A :=
  fun st =>
    match body st with
    | (Raised e, st') =>
        match handler e with
        | Some h => h st'
        | None => (Raised e, st')
        end
    | r => r
    end.

(** A call of a function with the given body: its [return] value, or
    [None] when the body runs to its end. *)
Definition call_function (body : M unit) : M pyval :=
  fun st =>
    match body st with
    | (Normal _, st') => (Normal VNone, st')
    | (Returned v, st') => (Normal v, st')
    | (Raised e, st') => (Raised e, st')
    end.

Definition emit (ev : event) : M unit :=
  fun st =>
    (Normal tt, {| cfg := cfg st; world := world st; trace := trace st ++ [ev] |}).

Definition logging_info (msg : string) (args : list pyval) : M unit :=
  emit (Log INFO (Msg msg) args).
Definition logging_error (msg : string) (args : list pyval) : M unit :=
  emit (Log ERROR (Msg msg) args).
Definition logging_error_exn (e : exn) : M unit :=
  emit (Log ERROR (MsgExn e) []).

(** The variable [cfg]: the document the caller passed. *)
Definition load_cfg : M pyval := fun st => (Normal (VDict (cfg st)), st).

Definition call_validate_resources
    (buckets : list BucketConstraints) (datasets : list DatasetConstraints)
    : M pyval :=
  fun st =>
    let st1 := {| cfg := cfg st; world := world st;
                  trace := trace st ++ [Call buckets datasets] |} in
    match validate_resources buckets datasets (world st) with
    | (Returns v, w') =>
        (Normal v, {| cfg := cfg st1; world := w'; trace := trace st1 |})
    | (Throws e, w') =>
        (Raised e, {| cfg := cfg st1; world := w'; trace := trace st1 |})
    end.

(** [obj.get(key, dflt)] *)
Definition py_get (obj : pyval) (key : string) (dflt : pyval) : M pyval :=
  match obj with
  | VDict d => ret (default dflt (d !! key))
  | _ => raise (AttributeError "get")
  end.

(** [obj[key]] for a string [key] *)
Definition py_getitem (obj : pyval) (key : string) : M pyval :=
  match obj with
  | VDict d =>
      match d !! key with
      | Some v => ret v
      | None => raise (KeyError key)
      end
  | _ => raise (TypeError "subscript")
  end.

(** [obj.lower()] *)
Definition py_lower (obj : pyval) : M string :=
  match obj with
  | VStr s => ret (str_lower s)
  | _ => raise (AttributeError "lower")
  end.

(** [str(v)], as an f-string field formats it. *)
Definition py_str (v : pyval) : string :=
  match v with
  | VNone => "None"
  | VBool true => "True"
  | VBool false => "False"
  | VInt z => pretty z
  | VStr s => s
  | VList _ | VDict _ => repr_container v
  end.

(** The loop
    [for attr in attrs: if obj.get(attr) is None or obj.get(attr) == "":
    missing.append(attr)]. *)
Fixpoint collect_missing (obj : pyval) (attrs : list string)
    (missing : list string) : M (list string) :=
  match attrs with
  | [] => ret missing
  | attr :: rest =>
      v ← py_get obj attr VNone;
      absent ← (if is_none v then ret true
                else v' ← py_get obj attr VNone; ret (eq_empty_str v'));
      collect_missing obj rest (if absent then missing ++ [attr] else missing)
  end.

Definition nonempty {A} (l : list A) : bool :=
  match l with [] => false | _ => true end.

(** The three dataset constraints both sub-modules build (lines 55-65 and
    106-116). *)
Definition dataset_constraints (source target location datasets : pyval)
    : M (list DatasetConstraints) :=
  raw ← py_getitem datasets "raw";
  cdc ← py_getitem datasets "cdc";
  reporting ← py_getitem datasets "reporting";
  ret [ mkDatasetConstraints (py_str source +:+ "." +:+ py_str raw)
          true true location;
        mkDatasetConstraints (py_str source +:+ "." +:+ py_str cdc)
          true true location;
        mkDatasetConstraints (py_str target +:+ "." +:+ py_str reporting)
          false true location ].

(** [_validate_googleads], lines 24-70. *)
Definition _validate_googleads_body : M unit :=
  logging_info "Validating configuration for GoogleAds..." [];;
  c ← load_cfg;
  marketing ← py_getitem c "marketing";
  googleads ← py_getitem marketing "GoogleAds";
  missing_googleads_attrs ←
    collect_missing googleads ["deployCDC"; "datasets"; "lookbackDays"] [];
  (if nonempty missing_googleads_attrs then
     raise (ValueError
       ("Config file is missing some GoogleAds attributes or has empty "
        +:+ "values: " +:+ repr_names missing_googleads_attrs))
   else ret tt);;
  datasets ← py_getitem googleads "datasets";
  missing_datasets_attrs ←
    collect_missing datasets ["cdc"; "raw"; "reporting"] [];
  (if nonempty missing_datasets_attrs then
     raise (ValueError
       ("Config file is missing some GoogleAds datasets attributes "
        +:+ "or has empty value: " +:+ repr_names missing_datasets_attrs
        +:+ " "))
   else ret tt);;
  c ← load_cfg; source ← py_getitem c "projectIdSource";
  c ← load_cfg; target ← py_getitem c "projectIdTarget";
  c ← load_cfg; location ← py_getitem c "location";
  datasets ← dataset_constraints source target location datasets;
  ok ← call_validate_resources [] datasets;
  (if negb (truthy ok) then raise (ValueError "Resource validation failed.")
   else ret tt);;
  logging_info "✅ Config file validated for GoogleAds and is looking good." [].

Definition _validate_googleads : M pyval :=
  call_function _validate_googleads_body.

(** [_validate_cm360], lines 73-121. *)
Definition _validate_cm360_body : M unit :=
  logging_info "Validating Config file for CM360..." [];;
  c ← load_cfg;
  marketing ← py_getitem c "marketing";
  cm360 ← py_getitem marketing "CM360";
  missing_cm360_attrs ←
    collect_missing cm360 ["deployCDC"; "dataTransferBucket"; "datasets"] [];
  (if nonempty missing_cm360_attrs then
     raise (ValueError
       ("Config file is missing some CM360 attributes or "
        +:+ "has empty value: " +:+ repr_names missing_cm360_attrs))
   else ret tt);;
  datasets ← py_getitem cm360 "datasets";
  missing_datasets_attrs ←
    collect_missing datasets ["cdc"; "raw"; "reporting"] [];
  (if nonempty missing_datasets_attrs then
     raise (ValueError
       ("Config file is missing some CM360 datasets attributes "
        +:+ "or has empty value: " +:+ repr_names missing_datasets_attrs
        +:+ " "))
   else ret tt);;
  c ← load_cfg; source ← py_getitem c "projectIdSource";
  c ← load_cfg; target ← py_getitem c "projectIdTarget";
  c ← load_cfg; location ← py_getitem c "location";
  bucket ← py_getitem cm360 "dataTransferBucket";
  let buckets := [mkBucketConstraints bucket true location] in
  datasets ← dataset_constraints source target location datasets;
  ok ← call_validate_resources buckets datasets;
  (if negb (truthy ok) then raise (ValueError "Resource validation failed.")
   else ret tt);;
  logging_info "✅ Config file validated for GoogleAds and is looking good." [].

Definition _validate_cm360 : M pyval :=
  call_function _validate_cm360_body.

(** [validate], lines 134-136: the pass-through when the module is not
    deployed. *)
Definition skip_if_disabled : M unit :=
  c ← load_cfg;
  deploy ← py_get c "deployMarketing" (VBool false);
  if negb (truthy deploy) then
    logging_info "'marketing' is not being deployed. Skipping validation." [];;
    c ← load_cfg;
    return_ c
  else ret tt.

(** Lines 138-142; the value of [marketing] for the rest of the body. *)
Definition load_marketing : M pyval :=
  logging_info "Validating 'marketing' configuration..." [];;
  c ← load_cfg;
  marketing ← py_get c "marketing" VNone;
  if negb (truthy marketing) then
    logging_error "🛑 Missing 'marketing' values in the config file. 🛑" [];;
    return_ VNone
  else ret marketing.

Definition marketing_attrs : list string :=
  ["deployGoogleAds"; "deployCM360"; "dataflowRegion"].

Definition missing_marketing_msg : string :=
  "🛑 Config file is missing some Marketing attributes or "
  +:+ "has empty value: %s. 🛑".

(** Lines 144-154. *)
Definition check_marketing_attrs (marketing : pyval) : M unit :=
  missing_marketing_attr ← collect_missing marketing marketing_attrs [];
  if nonempty missing_marketing_attr then
    logging_error missing_marketing_msg
      [VList (map VStr missing_marketing_attr)];;
    return_ VNone
  else ret tt.

(** Lines 156-175. *)
Definition check_googleads (marketing : pyval) : M unit :=
  deploy_googleads ← py_get marketing "deployGoogleAds" VNone;
  if truthy deploy_googleads then
    googleads ← py_get marketing "GoogleAds" VNone;
    if negb (truthy googleads) then
      logging_error
        ("🛑 Missing 'marketing' 'GoogleAds' attribute "
         +:+ "in the config file. 🛑") [];;
      return_ VNone
    else
      try_except (_validate_googleads;; ret tt)
        (fun e =>
           match e with
           | ValueError msg =>
               Some (logging_error
                       "🛑 GoogleAds config validation failed: %s 🛑"
                       [VStr msg];;
                     return_ VNone)
           | NonException _ => None
           | _ =>
               Some (logging_error
                       "🛑 GoogleAds config validation failed. 🛑" [];;
                     logging_error_exn e;;
                     return_ VNone)
           end)
  else ret tt.

(** Lines 177-196. *)
Definition check_cm360 (marketing : pyval) : M unit :=
  deploy_cm360 ← py_get marketing "deployCM360" VNone;
  if truthy deploy_cm360 then
    cm360 ← py_get marketing "CM360" VNone;
    if negb (truthy cm360) then
      logging_error
        ("🛑 Missing 'marketing' 'CM360' attribute "
         +:+ "in the config file. 🛑") [];;
      return_ VNone
    else
      try_except (_validate_cm360;; ret tt)
        (fun e =>
           match e with
           | ValueError msg =>
               Some (logging_error
                       "🛑 CM360 config validation failed: %s 🛑"
                       [VStr msg];;
                     return_ VNone)
           | NonException _ => None
           | _ =>
               Some (logging_error
                       "🛑 CM360 config validation failed. 🛑" [];;
                     logging_error_exn e;;
                     return_ VNone)
           end)
  else ret tt.

Definition invalid_region_msg : string :=
  "🛑 Invalid `dataflowRegion`: `%s`. "
  +:+ "It's expected to be in `%s`. 🛑".

(** Lines 198-204. *)
Definition check_region (marketing : pyval) : M unit :=
  r ← py_getitem marketing "dataflowRegion";
  region ← py_lower r;
  c ← load_cfg;
  l ← py_getitem c "location";
  location ← py_lower l;
  if negb (String.eqb region location)
     && negb (startswith region (location +:+ "-")) then
    r' ← py_getitem marketing "dataflowRegion";
    c ← load_cfg;
    l' ← py_getitem c "location";
    logging_error invalid_region_msg [r'; l'];;
    return_ VNone
  else ret tt.

(** Lines 134-196: everything before the region check. *)
Definition validate_checks : M pyval :=
  skip_if_disabled;;
  marketing ← load_marketing;
  check_marketing_attrs marketing;;
  check_googleads marketing;;
  check_cm360 marketing;;
  ret marketing.

(** The body of [validate], lines 134-208. *)
Definition validate_body : M unit :=
  marketing ← validate_checks;
  check_region marketing;;
  logging_info "✅ 'marketing' config validated successfully. Looks good." [];;
  c ← load_cfg;
  return_ c.

Definition validate : M pyval := call_function validate_body.

(** A run of [validate(cfg)] in a world [w], from an empty trace. *)
Definition initial (c : gmap string pyval) (w : World) : state :=
  {| cfg := c; world := w; trace := [] |}.

Definition run_validate (c : gmap string pyval) (w : World)
    : outcome pyval * state :=
  validate (initial c w).

(** The calls of the collaborator in a trace, in order. *)
Definition calls_of (t : list event)
    : list (list BucketConstraints * list DatasetConstraints) :=
  omap (fun ev => match ev with
                  | Call b d => Some (b, d)
                  | Log _ _ _ => None
                  end) t.

End Validator.

Arguments mkState {World} _ _ _.
Arguments cfg {World} _.
Arguments world {World} _.
Arguments trace {World} _.
Arguments initial {World} _ _.
Arguments ret {World A}.
Arguments bind {World A B}.
Arguments raise {World A}.
Arguments return_ {World A}.
Arguments try_except {World A}.
Arguments call_function {World}.
Arguments emit {World}.
Arguments logging_info {World}.
Arguments logging_error {World}.
Arguments logging_error_exn {World}.
Arguments load_cfg {World}.
Arguments call_validate_resources {World}.
Arguments py_get {World}.
Arguments py_getitem {World}.
Arguments py_lower {World}.
Arguments collect_missing {World}.
Arguments dataset_constraints {World}.
Arguments _validate_googleads_body {World}.
Arguments _validate_googleads {World}.
Arguments _validate_cm360_body {World}.
Arguments _validate_cm360 {World}.
Arguments skip_if_disabled {World}.
Arguments load_marketing {World}.
Arguments check_marketing_attrs {World}.
Arguments check_googleads {World}.
Arguments check_cm360 {World}.
Arguments check_region {World}.
Arguments validate_checks {World}.
Arguments validate_body {World}.
Arguments validate {World}.
Arguments run_validate {World}.

(** Collaborators and documents to run the validator on. *)

(** A collaborator that gives the same reply to every call and has no
    state of its own. *)
Definition constant_collaborator (r : reply)
    : list BucketConstraints -> list DatasetConstraints -> unit -> reply * unit :=
  fun _ _ w => (r, w).

(** One that finds every resource, one whose calls fail with an error of
    the cloud client, one that finds nothing. *)
Definition accepting : list BucketConstraints -> list DatasetConstraints ->
                       unit -> reply * unit :=
  constant_collaborator (Returns (VBool true)).

Definition forbidding : list BucketConstraints -> list DatasetConstraints ->
                        unit -> reply * unit :=
  constant_collaborator (Throws (OtherException "Forbidden")).

Definition refusing : list BucketConstraints -> list DatasetConstraints ->
                      unit -> reply * unit :=
  constant_collaborator (Returns (VBool false)).

Definition plain_repr : pyval -> string := fun _ => "<container>".

Definition datasets_map : gmap string pyval :=
  <["cdc" := VStr "ads_cdc"]>
  (<["raw" := VStr "ads_raw"]>
  (<["reporting" := VStr "ads_rep"]> ∅)).

Definition googleads_map : gmap string pyval :=
  <["deployCDC" := VBool true]>
  (<["lookbackDays" := VInt 180]>
  (<["datasets" := VDict datasets_map]> ∅)).

Definition cm360_map : gmap string pyval :=
  <["deployCDC" := VBool true]>
  (<["dataTransferBucket" := VStr "cm360-bucket"]>
  (<["datasets" := VDict datasets_map]> ∅)).

Definition googleads_block : pyval := VDict googleads_map.
Definition cm360_block : pyval := VDict cm360_map.

(** A GoogleAds mapping without [lookbackDays], a CM360 mapping without
    its bucket and datasets. *)
Definition googleads_no_lookback : gmap string pyval :=
  delete "lookbackDays" googleads_map.

Definition cm360_broken : gmap string pyval :=
  <["deployCDC" := VBool true]> ∅.

(** [deployMarketing] on, both sub-modules switched off. *)
Definition marketing_flags_off (region : string) : gmap string pyval :=
  <["deployGoogleAds" := VBool false]>
  (<["deployCM360" := VBool false]>
  (<["dataflowRegion" := VStr region]> ∅)).

Definition cfg_flags_off (location region : string) : gmap string pyval :=
  <["deployMarketing" := VBool true]>
  (<["location" := VStr location]>
  (<["marketing" := VDict (marketing_flags_off region)]> ∅)).

(** [deployMarketing] on, the two sub-mappings and deploy flags as
    given. *)
Definition marketing_with (region : string)
    (deploy_googleads deploy_cm360 googleads cm360 : pyval)
    : gmap string pyval :=
  <["deployGoogleAds" := deploy_googleads]>
  (<["deployCM360" := deploy_cm360]>
  (<["dataflowRegion" := VStr region]>
  (<["GoogleAds" := googleads]>
  (<["CM360" := cm360]> ∅)))).

Definition cfg_with (location : string) (marketing : gmap string pyval)
    : gmap string pyval :=
  <["deployMarketing" := VBool true]>
  (<["projectIdSource" := VStr "src-project"]>
  (<["projectIdTarget" := VStr "tgt-project"]>
  (<["location" := VStr location]>
  (<["marketing" := VDict marketing]> ∅)))).

End ConfigValidator.

(** ** Vocabulary of the properties *)

Module ValidatorSpec.
Import PyStr Py ConfigValidator.

(** An attribute a batch check reports: no entry, [None] or the empty
    string. *)
Definition absent (d : gmap string pyval) (attr : string) : bool :=
  match d !! attr with
  | None => true
  | Some v => is_none v || eq_empty_str v
  end.

Definition missing_in (d : gmap string pyval) (attrs : list string)
    : list string :=
  List.filter (absent d) attrs.

(** The dataflow region lies in the location: equal to it, or the location
    followed by a dash and more, both in lower case. *)
Definition region_contained (region location : string) : Prop :=
  str_lower region = str_lower location
  \/ exists rest, str_lower region = str_lower location +:+ "-" +:+ rest.

(** The events only the CM360 part of a run produces: its log records and
    the collaborator call that carries a bucket. *)
Definition cm360_event (ev : event) : bool :=
  match ev with
  | Call (_ :: _) _ => true
  | Call [] _ => false
  | Log _ (Msg s) _ =>
      String.eqb s "Validating Config file for CM360..."
      || String.eqb s
           "🛑 Missing 'marketing' 'CM360' attribute in the config file. 🛑"
      || String.eqb s "🛑 CM360 config validation failed: %s 🛑"
      || String.eqb s "🛑 CM360 config validation failed. 🛑"
  | Log _ (MsgExn _) _ => false
  end.

(** The collaborator call of the GoogleAds part carries no bucket. *)
Definition googleads_call (ev : event) : bool :=
  match ev with
  | Call [] _ => true
  | _ => false
  end.

(** The collaborator call of the CM360 part carries a bucket. *)
Definition cm360_call (ev : event) : bool :=
  match ev with
  | Call (_ :: _) _ => true
  | _ => false
  end.

(** Every call without a bucket comes before every call with one. *)
Definition calls_in_order (t : list event) : Prop :=
  exists gs cs,
    calls_of t = (gs ++ cs)%list
    /\ Forall (fun call => fst call = []) gs
    /\ Forall (fun call => fst call <> []) cs.

Definition is_call (ev : event) : bool :=
  match ev with
  | Call _ _ => true
  | Log _ _ _ => false
  end.

Definition is_dict (v : pyval) : bool :=
  match v with VDict _ => true | _ => false end.

Definition is_str (v : pyval) : bool :=
  match v with VStr _ => true | _ => false end.

(** The exceptions the validator's own statements raise: a failed check, a
    missing key, a value of the wrong type. *)
Definition own_exn (e : exn) : bool :=
  match e with
  | ValueError _ | KeyError _ | AttributeError _ | TypeError _ => true
  | OtherException _ | NonException _ => false
  end.

(** The events each part of [validate] can add to the trace; [Q] accepts
    them all. *)
Definition accepts_prelude (Q : event -> Prop) : Prop :=
  Q (Log INFO
       (Msg "'marketing' is not being deployed. Skipping validation.") [])
  /\ Q (Log INFO (Msg "Validating 'marketing' configuration...") [])
  /\ Q (Log ERROR
          (Msg "🛑 Missing 'marketing' values in the config file. 🛑") [])
  /\ (forall names, Q (Log ERROR (Msg missing_marketing_msg) [VList names])).

Definition accepts_googleads (Q : event -> Prop) : Prop :=
  Q (Log INFO (Msg "Validating configuration for GoogleAds...") [])
  /\ (forall datasets, Q (Call [] datasets))
  /\ Q (Log INFO
          (Msg "✅ Config file validated for GoogleAds and is looking good.")
          [])
  /\ Q (Log ERROR
          (Msg "🛑 Missing 'marketing' 'GoogleAds' attribute in the config file. 🛑")
          [])
  /\ (forall msg,
        Q (Log ERROR (Msg "🛑 GoogleAds config validation failed: %s 🛑")
             [VStr msg]))
  /\ Q (Log ERROR (Msg "🛑 GoogleAds config validation failed. 🛑") [])
  /\ (forall e, Q (Log ERROR (MsgExn e) [])).

Definition accepts_cm360 (Q : event -> Prop) : Prop :=
  Q (Log INFO (Msg "Validating Config file for CM360...") [])
  /\ (forall bucket datasets, Q (Call [bucket] datasets))
  /\ Q (Log INFO
          (Msg "✅ Config file validated for GoogleAds and is looking good.")
          [])
  /\ Q (Log ERROR
          (Msg "🛑 Missing 'marketing' 'CM360' attribute in the config file. 🛑")
          [])
  /\ (forall msg,
        Q (Log ERROR (Msg "🛑 CM360 config validation failed: %s 🛑")
             [VStr msg]))
  /\ Q (Log ERROR (Msg "🛑 CM360 config validation failed. 🛑") [])
  /\ (forall e, Q (Log ERROR (MsgExn e) [])).

Definition accepts_region (Q : event -> Prop) : Prop :=
  (forall region location,
      Q (Log ERROR (Msg invalid_region_msg) [region; location]))
  /\ Q (Log INFO
          (Msg "✅ 'marketing' config validated successfully. Looks good.")
          []).

(** The shape of a document on which no statement of [validate] outside
    the [try] blocks can fail: [marketing] is a mapping unless it is falsy,
    its [dataflowRegion] is a string unless it is [None] or has no entry,
    and [location] is a string. *)
Definition marketing_is_mapping (c : gmap string pyval) : bool :=
  match c !! "marketing" with
  | Some v => negb (truthy v) || is_dict v
  | None => true
  end.

Definition region_is_string (c : gmap string pyval) : bool :=
  match c !! "marketing" with
  | Some (VDict md) =>
      match md !! "dataflowRegion" with
      | Some r => is_str r || is_none r
      | None => true
      end
  | _ => true
  end.

Definition location_is_string (c : gmap string pyval) : bool :=
  match c !! "location" with
  | Some l => is_str l
  | None => false
  end.

(** The test of lines 198-200 on the two strings of the document. *)
Definition region_rejected (region location : string) : bool :=
  negb (String.eqb (str_lower region) (str_lower location))
  && negb (startswith (str_lower region) (str_lower location +:+ "-")).

(** The marketing mapping a run holds once the checks before the region
    check are through. *)
Definition checked (c : gmap string pyval) (m : pyval) : Prop :=
  exists md,
    c !! "marketing" = Some (VDict md) /\ m = VDict md
    /\ truthy (default (VBool false) (c !! "deployMarketing")) = true
    /\ truthy m = true
    /\ missing_in md marketing_attrs = [].

Definition any_event : event -> Prop := fun _ => True.

Definition googleads_attrs : list string :=
  ["deployCDC"; "datasets"; "lookbackDays"].
Definition cm360_attrs : list string :=
  ["deployCDC"; "dataTransferBucket"; "datasets"].
Definition datasets_attrs : list string := ["cdc"; "raw"; "reporting"].

Definition entry (d : gmap string pyval) (key : string) : pyval :=
  default VNone (d !! key).

(** The constraints as the specification lists them: the raw and the cdc
    dataset in the source project, which must exist, and the reporting
    dataset in the target project, which need not; all three
    access-checked and at the configured location.  For CM360, one bucket
    that must exist. *)
Definition expected_datasets (repr_container : pyval -> string)
    (source target location : pyval) (datasets : gmap string pyval)
    : list DatasetConstraints :=
  [ {| full_name := py_str repr_container source +:+ "."
                    +:+ py_str repr_container (entry datasets "raw");
       must_exist := true; check_access := true; location := location |};
    {| full_name := py_str repr_container source +:+ "."
                    +:+ py_str repr_container (entry datasets "cdc");
       must_exist := true; check_access := true; location := location |};
    {| full_name := py_str repr_container target +:+ "."
                    +:+ py_str repr_container (entry datasets "reporting");
       must_exist := false; check_access := true; location := location |} ].

Definition expected_buckets (location : pyval) (cm360 : gmap string pyval)
    : list BucketConstraints :=
  [ {| bucket_name := entry cm360 "dataTransferBucket";
       bucket_must_exist := true; bucket_location := location |} ].

(** The diagnostic of the marketing-level batch check. *)
Definition missing_marketing_log (ev : event) : bool :=
  match ev with
  | Log ERROR (Msg s) _ => String.eqb s missing_marketing_msg
  | _ => false
  end.

(** What [validate] does once the marketing-level attributes are checked:
    the two sub-modules (lines 156-196), then the region check and the
    return (lines 198-208). *)
Definition after_attrs {World : Type}
    (validate_resources :
       list BucketConstraints -> list DatasetConstraints ->
       World -> reply * World)
    (repr_container : pyval -> string)
    (marketing : pyval) : M World unit :=
  bind
    (bind (check_googleads validate_resources repr_container marketing)
       (fun _ =>
          bind (check_cm360 validate_resources repr_container marketing)
            (fun _ => ret marketing)))
    (fun marketing =>
       bind (check_region marketing)
         (fun _ =>
            bind (logging_info
                    "✅ 'marketing' config validated successfully. Looks good."
                    [])
              (fun _ => bind load_cfg (fun c => return_ c)))).

Section Triples.
Context {World : Type}.

(** [triple c Q N R E m]: run from any state whose document is [c], the
    statement [m] leaves the document as it is, adds to the trace only
    events that satisfy [Q], and ends normally with a value in [N], by a
    [return] of a value in [R], or by raising an exception in [E]. *)
Definition triple {A} (c : gmap string pyval) (Q : event -> Prop)
    (N : A -> Prop) (R : pyval -> Prop) (E : exn -> Prop) (m : M World A)
    : Prop :=
  forall st, cfg st = c ->
    exists w' evs,
      snd (m st) = mkState c w' (trace st ++ evs)
      /\ Forall Q evs
      /\ match fst (m st) with
         | Normal a => N a
         | Returned v => R v
         | Raised e => E e
         end.

(** The exceptions a collaborator can throw, and those that leave a run
    of [validate] on the document [c]: from [marketing.get] when
    [marketing] is truthy and no mapping, from the region check when
    [dataflowRegion] or [location] is no string or [location] has no
    entry, and what the collaborator throws outside [Exception]. *)
Definition thrown_by
    (collaborator : list BucketConstraints -> list DatasetConstraints ->
                    World -> reply * World)
    (e : exn) : Prop :=
  exists b d w, fst (collaborator b d w) = Throws e.

Definition region_escapes (c md : gmap string pyval) (e : exn) : Prop :=
  (e = AttributeError "lower"
   /\ exists v, md !! "dataflowRegion" = Some v
               /\ is_str v = false /\ is_none v = false)
  \/ (e = KeyError "location" /\ c !! "location" = None)
  \/ (e = AttributeError "lower"
      /\ exists v, c !! "location" = Some v /\ is_str v = false).

Definition validate_escapes
    (collaborator : list BucketConstraints -> list DatasetConstraints ->
                    World -> reply * World)
    (c : gmap string pyval) (e : exn) : Prop :=
  (e = AttributeError "get"
   /\ exists v, c !! "marketing" = Some v
               /\ truthy v = true /\ is_dict v = false)
  \/ (is_Exception e = false /\ thrown_by collaborator e)
  \/ (exists md, c !! "marketing" = Some (VDict md)
                 /\ region_escapes c md e).

(** [emits c P m]: run from any state whose document is [c], the events
    the statement [m] adds to the trace, taken together, satisfy [P]. *)
Definition emits {A} (c : gmap string pyval) (P : list event -> Prop)
    (m : M World A) : Prop :=
  forall st, cfg st = c ->
    exists evs, trace (snd (m st)) = (trace st ++ evs)%list /\ P evs.

(** The events and the outcome of a sub-module validator whose attribute
    checks have passed, by the reply of the collaborator. *)
Definition resource_outcome (c : gmap string pyval) (t : list event)
    (start : string) (buckets : list BucketConstraints)
    (datasets : list DatasetConstraints) (r : reply * World)
    : outcome pyval * state World :=
  let t1 := (t ++ [Log INFO (Msg start) []; Call buckets datasets])%list in
  match r with
  | (Returns v, w') =>
      if truthy v then
        (Normal VNone,
         mkState c w'
           (t1 ++ [Log INFO
                     (Msg "✅ Config file validated for GoogleAds and is looking good.")
                     []])%list)
      else (Raised (ValueError "Resource validation failed."), mkState c w' t1)
  | (Throws e, w') => (Raised e, mkState c w' t1)
  end.

(** What the handlers of a [try] block (lines 168-175, 189-196) make of
    an exception [e] raised in the state [st]: a rejection with one or two
    log records, or [e] itself when it is outside [Exception]. *)
Definition handled (failed_with failed : string) (e : exn)
    (st : state World) : outcome unit * state World :=
  match e with
  | ValueError msg =>
      (Returned VNone,
       mkState (cfg st) (world st)
         (trace st ++ [Log ERROR (Msg failed_with) [VStr msg]])%list)
  | NonException _ => (Raised e, st)
  | _ =>
      (Returned VNone,
       mkState (cfg st) (world st)
         (trace st ++ [Log ERROR (Msg failed) []; Log ERROR (MsgExn e) []])%list)
  end.

(** The statement a sub-module block of [validate] comes to when its
    deploy flag and its sub-mapping are truthy: the validator, with its
    exceptions handled. *)
Definition guarded (failed_with failed : string)
    (r : outcome pyval * state World) : outcome unit * state World :=
  match r with
  | (Normal _, st') => (Normal tt, st')
  | (Returned v, st') => (Returned v, st')
  | (Raised e, st') => handled failed_with failed e st'
  end.

(** Two states that differ at most in the document they hold, [c] in one
    and [c'] in the other; and a statement that cannot tell them apart: it
    ends the same way in both and leaves them as alike as they were. *)
Definition agree (c c' : gmap string pyval) (st st' : state World) : Prop :=
  cfg st = c /\ cfg st' = c' /\ world st = world st' /\ trace st = trace st'.

Definition blind {A} (c c' : gmap string pyval) (m : M World A) : Prop :=
  forall st st', agree c c' st st' ->
    fst (m st) = fst (m st') /\ agree c c' (snd (m st)) (snd (m st')).

(** What two runs let the outside observe: outcome, world and trace. *)
Definition observed {A} (r : outcome A * state World)
    : outcome A * World * list event :=
  (fst r, world (snd r), trace (snd r)).

End Triples.

End ValidatorSpec.

(** ** More of test_harness.py *)

(** The characters of a dataset name. *)
Module NameChars.
Import PyStr.

Definition is_lower (c : ascii) : bool :=
  (97 <=? nat_of_ascii c)%nat && (nat_of_ascii c <=? 122)%nat.

Definition is_digit (c : ascii) : bool :=
  (48 <=? nat_of_ascii c)%nat && (nat_of_ascii c <=? 57)%nat.

(** Lower-case letters, digits and the underscore: what the comment of
    line 44 says a dataset name is made of. *)
Definition name_char (c : ascii) : bool :=
  is_lower c || is_digit c || Ascii.eqb c "_".

(** Letters of either case, digits and the underscore. *)
Definition word_char (c : ascii) : bool :=
  is_upper c || is_lower c || is_digit c || Ascii.eqb c "_".

Fixpoint all_chars (p : ascii -> bool) (s : string) : bool :=
  match s with
  | EmptyString => true
  | String c rest => p c && all_chars p rest
  end.

End NameChars.

Module TestHarnessLoader.
Import TestHarness Py.

Section Loader.

(** The BigQuery client and the collaborator [bq_helper.copy_dataset],
    which is not among the sources; a call of it returns ([None]) or
    raises, and changes the state of the projects. *)
Variable Client : Type.
Variable World : Type.
Variable copy_dataset :
  Client -> string -> string -> string -> string -> string ->
  World -> option exn * World.


End Loader.


End TestHarnessLoader.

(** ** More vocabulary for runs of the validator *)

Module RunSpec.
Import PyStr Py ConfigValidator ValidatorSpec.

(** The level of the last record of a trace, when the last event is a log
    record. *)
Definition last_level (t : list event) : option level :=
  match last t with
  | Some (Log lvl _ _) => Some lvl
  | _ => None
  end.

(** The calls a run of [validate] makes: none, the one of GoogleAds
    (no bucket), the one of CM360 (one bucket), or the two in this
    order. *)
Definition call_shape
    (calls : list (list BucketConstraints * list DatasetConstraints)) : bool :=
  match calls with
  | [] => true
  | [([], _)] => true
  | [([_], _)] => true
  | [([], _); ([_], _)] => true
  | _ => false
  end.

(** The records of the region check and of the acceptance that follows
    it (lines 201-206). *)
Definition region_event (ev : event) : bool :=
  match ev with
  | Log _ (Msg s) _ =>
      String.eqb s invalid_region_msg
      || String.eqb s
           "✅ 'marketing' config validated successfully. Looks good."
  | _ => false
  end.

(** A sub-module that is enabled and passes its attribute checks: the
    deploy flag is truthy, the sub-mapping holds every required attribute
    and its datasets mapping the three dataset names. *)
Definition submodule_ready (md : gmap string pyval) (flag key : string)
    (attrs : list string) (sub ds : gmap string pyval) : Prop :=
  truthy (entry md flag) = true
  /\ md !! key = Some (VDict sub)
  /\ missing_in sub attrs = []
  /\ sub !! "datasets" = Some (VDict ds)
  /\ missing_in ds datasets_attrs = [].

(** The first of the three root fields a sub-module validator reads
    (lines 52-54, 100-102) that the document does not hold. *)
Definition first_missing_root (c : gmap string pyval) (key : string) : Prop :=
  (key = "projectIdSource" /\ c !! "projectIdSource" = None)
  \/ (key = "projectIdTarget" /\ is_Some (c !! "projectIdSource")
      /\ c !! "projectIdTarget" = None)
  \/ (key = "location" /\ is_Some (c !! "projectIdSource")
      /\ is_Some (c !! "projectIdTarget") /\ c !! "location" = None).

(** No record of level [ERROR] in a trace. *)
Definition error_free (t : list event) : bool :=
  forallb (fun ev => match ev with
                     | Log ERROR _ _ => false
                     | _ => true
                     end) t.

(** What an accepted document is known to hold for a sub-module whose
    deploy flag is truthy: its sub-mapping with every required attribute,
    its datasets mapping with the three dataset names, the two project
    ids, and in the trace the call that handed the collaborator the
    constraints built from them. *)
Definition submodule_validated (repr_container : pyval -> string)
    (c md : gmap string pyval) (flag key : string) (attrs : list string)
    (buckets_of : gmap string pyval -> list BucketConstraints)
    (evs : list event) : Prop :=
  truthy (entry md flag) = true ->
  exists sub ds,
    md !! key = Some (VDict sub)
    /\ missing_in sub attrs = []
    /\ sub !! "datasets" = Some (VDict ds)
    /\ missing_in ds datasets_attrs = []
    /\ is_Some (c !! "projectIdSource")
    /\ is_Some (c !! "projectIdTarget")
    /\ In (Call (buckets_of sub)
             (expected_datasets repr_container (entry c "projectIdSource")
                (entry c "projectIdTarget") (entry c "location") ds))
          evs.

(** What an accepted document that deploys marketing is known to hold. *)
Definition accepted_sound (repr_container : pyval -> string)
    (c : gmap string pyval) (evs : list event) : Prop :=
  exists md region location,
    c !! "marketing" = Some (VDict md)
    /\ missing_in md marketing_attrs = []
    /\ md !! "dataflowRegion" = Some (VStr region)
    /\ c !! "location" = Some (VStr location)
    /\ region_rejected region location = false
    /\ submodule_validated repr_container c md "deployGoogleAds" "GoogleAds"
         googleads_attrs (fun _ => []) evs
    /\ submodule_validated repr_container c md "deployCM360" "CM360"
         cm360_attrs (expected_buckets (entry c "location")) evs.

(** Everything a run of [validate] on [c] is known to end with. *)
Definition verdict (repr_container : pyval -> string)
    (c : gmap string pyval) (o : outcome pyval) (evs : list event) : Prop :=
  call_shape (calls_of evs) = true
  /\ match o with
     | Normal VNone => last_level evs = Some ERROR
     | Normal v =>
         v = VDict c
         /\ last_level evs = Some INFO
         /\ error_free evs = true
         /\ (truthy (default (VBool false) (c !! "deployMarketing")) = true ->
             accepted_sound repr_container c evs)
     | Returned _ => False
     | Raised _ => error_free evs = true
     end.

Section RunSpec.
Context {World : Type}.

(** [hoare c post m]: run from any state whose document is [c], the
    statement [m] leaves the document as it is, and its outcome and the
    events it adds to the trace satisfy [post]. *)
Definition hoare {A} (c : gmap string pyval)
    (post : outcome A -> list event -> Prop) (m : M World A) : Prop :=
  forall st, cfg st = c ->
    exists w' evs,
      snd (m st) = mkState c w' (trace st ++ evs)%list
      /\ post (fst (m st)) evs.

End RunSpec.

End RunSpec.

(** * Properties *)

(** ** Dataset names *)

Module TestHarnessFacts.
Import PyStr TestHarness.

Lemma str_split1_nonempty sep s : str_split1 sep s <> [].
Proof.
  destruct s as [|c rest]; simpl; [discriminate|].
  destruct (Ascii.eqb c sep); [discriminate|].
  destruct (str_split1 sep rest); discriminate.
Qed.

(** Replacing a character is splitting at it and joining the pieces with
    the replacement. *)
Lemma str_replace1_split_join old new s :
  str_replace1 old new s = str_join new (str_split1 old s).
Proof.
  induction s as [|c rest IH]; [reflexivity|].
  simpl. pose proof (str_split1_nonempty old rest) as Hne.
  destruct (Ascii.eqb c old).
  - rewrite IH. destruct (str_split1 old rest) as [|p ps]; [congruence|].
    reflexivity.
  - rewrite IH. destruct (str_split1 old rest) as [|p ps]; [congruence|].
    destruct ps as [|q qs]; reflexivity.
Qed.

Lemma char_lower_not_upper c : is_upper (char_lower c) = false.
Proof.
  destruct c as [[] [] [] [] [] [] [] []]; reflexivity.
Qed.

Lemma str_lower_idempotent s : str_lower (str_lower s) = str_lower s.
Proof.
  induction s as [|c rest IH]; [reflexivity|].
  simpl. rewrite IH. f_equal.
  unfold char_lower at 1. now rewrite char_lower_not_upper.
Qed.

(** C7: the dataset name is the lower-cased join, by a double underscore,
    of the workload path with its dots replaced by double underscores, the
    dataset type, the tag 5_0 and the location with its dashes replaced by
    underscores; the two names the specification lists come out as stated,
    the result is in lower case already, and equal inputs give equal
    names. *)
Theorem get_test_harness_dataset_spec :
  (forall workloadPath datasetType location,
      get_test_harness_dataset workloadPath datasetType location
      = dataset_name_spec workloadPath datasetType location)
  /\ get_test_harness_dataset "marketing.GoogleAds" "raw" "us-central1"
     = "marketing__googleads__raw__5_0__us_central1"
  /\ get_test_harness_dataset "SAP" "rawECC" "US" = "sap__rawecc__5_0__us"
  /\ (forall workloadPath datasetType location,
         str_lower (get_test_harness_dataset workloadPath datasetType location)
         = get_test_harness_dataset workloadPath datasetType location)
  /\ (forall w1 t1 l1 w2 t2 l2,
         (w1, t1, l1) = (w2, t2, l2) ->
         get_test_harness_dataset w1 t1 l1 = get_test_harness_dataset w2 t2 l2).
Proof.
  split; [|split; [reflexivity|split; [reflexivity|split]]].
  - intros wp t loc. unfold get_test_harness_dataset, dataset_name_spec.
    rewrite !str_replace1_split_join. reflexivity.
  - intros wp t loc. unfold get_test_harness_dataset.
    apply str_lower_idempotent.
  - intros w1 t1 l1 w2 t2 l2 [= -> -> ->]. reflexivity.
Qed.

Lemma get_test_harness_dataset_spec_witness :
  get_test_harness_dataset "marketing.CM360" "cdc" "europe-west1"
  = get_test_harness_dataset "marketing.CM360" "cdc" "europe-west1"
  /\ get_test_harness_dataset "marketing.CM360" "cdc" "europe-west1"
     = "marketing__cm360__cdc__5_0__europe_west1".
Proof.
  destruct get_test_harness_dataset_spec as (Hspec & _ & _ & _ & Hdet).
  split; [now apply Hdet|]. rewrite Hspec. reflexivity.
Defined.

End TestHarnessFacts.

(** ** More on dataset names *)

Module TestHarnessMore.
Import PyStr TestHarness NameChars TestHarnessLoader.

Lemma str_lower_append a b :
  str_lower (a +:+ b) = str_lower a +:+ str_lower b.
Proof.
  induction a as [|c a IH]; [reflexivity|].
  change (String (char_lower c) (str_lower (a +:+ b))
          = String (char_lower c) (str_lower a +:+ str_lower b)).
  now rewrite IH.
Qed.

Lemma char_lower_eqb_dot c :
  Ascii.eqb (char_lower c) "." = Ascii.eqb c ".".
Proof. destruct c as [[] [] [] [] [] [] [] []]; reflexivity. Qed.

Lemma char_lower_eqb_dash c :
  Ascii.eqb (char_lower c) "-" = Ascii.eqb c "-".
Proof. destruct c as [[] [] [] [] [] [] [] []]; reflexivity. Qed.

Lemma str_lower_replace1 old new s :
  (forall c, Ascii.eqb (char_lower c) old = Ascii.eqb c old) ->
  str_lower (str_replace1 old new s)
  = str_replace1 old (str_lower new) (str_lower s).
Proof.
  intros Hold. induction s as [|c s IH]; [reflexivity|].
  cbn [str_replace1 str_lower]. rewrite Hold.
  destruct (Ascii.eqb c old).
  - now rewrite str_lower_append, IH.
  - cbn [str_lower]. now rewrite IH.
Qed.

(** The name in terms of the lower-cased inputs alone. *)
Lemma dataset_name_of_lower wp t loc :
  get_test_harness_dataset wp t loc
  = str_replace1 "." "__" (str_lower wp) +:+ "__" +:+ str_lower t
    +:+ "__5_0__" +:+ str_replace1 "-" "_" (str_lower loc).
Proof.
  unfold get_test_harness_dataset, TEST_HARNESS_VERSION.
  rewrite !str_lower_append.
  rewrite (str_lower_replace1 "." "__" wp char_lower_eqb_dot).
  rewrite (str_lower_replace1 "-" "_" loc char_lower_eqb_dash).
  reflexivity.
Qed.

Lemma all_chars_append p a b :
  all_chars p (a +:+ b) = all_chars p a && all_chars p b.
Proof.
  induction a as [|c a IH]; [reflexivity|].
  change (p c && all_chars p (a +:+ b) = p c && all_chars p a && all_chars p b).
  now rewrite IH, andb_assoc.
Qed.

Lemma all_chars_replace1 p old new s :
  all_chars (fun c => p c || Ascii.eqb c old) s = true ->
  all_chars p new = true ->
  all_chars p (str_replace1 old new s) = true.
Proof.
  intros Hs Hnew. induction s as [|c s IH]; [reflexivity|].
  cbn [all_chars] in Hs. apply andb_true_iff in Hs as (Hc & Hrest).
  cbn [str_replace1]. destruct (Ascii.eqb c old) eqn:Heq.
  - rewrite all_chars_append, Hnew. now apply IH.
  - cbn [all_chars]. rewrite orb_false_r in Hc. rewrite Hc. now apply IH.
Qed.

Lemma all_chars_lower p s :
  all_chars (fun c => p (char_lower c)) s = all_chars p (str_lower s).
Proof.
  induction s as [|c s IH]; [reflexivity|].
  cbn [all_chars str_lower]. now rewrite IH.
Qed.

Lemma all_chars_impl (p q : ascii -> bool) s :
  (forall c, p c = true -> q c = true) ->
  all_chars p s = true -> all_chars q s = true.
Proof.
  intros Hpq. induction s as [|c s IH]; [reflexivity|].
  cbn [all_chars]. rewrite !andb_true_iff. intros (Hc & Hs). auto.
Qed.

Lemma word_char_lower c : word_char c = true -> name_char (char_lower c) = true.
Proof. destruct c as [[] [] [] [] [] [] [] []]; intros H; try reflexivity; discriminate. Qed.

Lemma word_or_dot_lower c :
  word_char c || Ascii.eqb c "." = true ->
  name_char (char_lower c) || Ascii.eqb (char_lower c) "." = true.
Proof. destruct c as [[] [] [] [] [] [] [] []]; intros H; try reflexivity; discriminate. Qed.

Lemma word_or_dash_lower c :
  word_char c || Ascii.eqb c "-" = true ->
  name_char (char_lower c) || Ascii.eqb (char_lower c) "-" = true.
Proof. destruct c as [[] [] [] [] [] [] [] []]; intros H; try reflexivity; discriminate. Qed.

(** X1: for a workload path of letters, digits, underscores and dots, a
    dataset type of letters, digits and underscores and a location of
    letters, digits, underscores and dashes, the dataset name consists of
    lower-case letters, digits and underscores only. *)
Theorem dataset_name_chars workload_path target_dataset_type location :
  all_chars (fun c => word_char c || Ascii.eqb c ".") workload_path = true ->
  all_chars word_char target_dataset_type = true ->
  all_chars (fun c => word_char c || Ascii.eqb c "-") location = true ->
  all_chars name_char
    (get_test_harness_dataset workload_path target_dataset_type location)
  = true.
Proof.
  intros Hwp Ht Hloc. rewrite dataset_name_of_lower.
  rewrite !all_chars_append.
  repeat (apply andb_true_iff; split); try reflexivity.
  - apply all_chars_replace1; [|reflexivity].
    rewrite <- (all_chars_lower (fun c => name_char c || Ascii.eqb c ".")).
    revert Hwp. apply all_chars_impl, word_or_dot_lower.
  - rewrite <- all_chars_lower. revert Ht.
    apply all_chars_impl, word_char_lower.
  - apply all_chars_replace1; [|reflexivity].
    rewrite <- (all_chars_lower (fun c => name_char c || Ascii.eqb c "-")).
    revert Hloc. apply all_chars_impl, word_or_dash_lower.
Qed.

Lemma dataset_name_chars_witness :
  all_chars name_char
    (get_test_harness_dataset "marketing.GoogleAds" "cdcS4" "us-central1")
  = true.
Proof. apply dataset_name_chars; reflexivity. Defined.





End TestHarnessMore.

(** ** The validator *)

Module ValidatorFacts.
Import PyStr Py ConfigValidator ValidatorSpec.
Local Open Scope list_scope.

Section Facts.
Context {World : Type}.
Variable validate_resources :
  list BucketConstraints -> list DatasetConstraints -> World -> reply * World.
Variable repr_container : pyval -> string.

Implicit Types (c md : gmap string pyval) (st : state World) (w : World)
  (t : list event) (Q : event -> Prop) (R : pyval -> Prop) (E : exn -> Prop).

Local Abbreviation triple := (@ValidatorSpec.triple World _).

(** *** Rules of the triples *)

Lemma triple_conseq {A} c Q Q' (N N' : A -> Prop) R R' E E' (m : M World A) :
  triple c Q N R E m ->
  (forall ev, Q ev -> Q' ev) -> (forall a, N a -> N' a) ->
  (forall v, R v -> R' v) -> (forall e, E e -> E' e) ->
  triple c Q' N' R' E' m.
Proof.
  intros Hm HQ HN HR HE st Hst.
  destruct (Hm st Hst) as (w' & evs & Hs & Hevs & Ho).
  exists w', evs. split; [exact Hs|]. split.
  - eapply Forall_impl; eauto.
  - destruct (fst (m st)); auto.
Qed.

Lemma triple_pure {A} c Q (N : A -> Prop) R E (m : M World A) (o : outcome A) :
  (forall st, m st = (o, st)) ->
  match o with Normal a => N a | Returned v => R v | Raised e => E e end ->
  triple c Q N R E m.
Proof.
  intros Hm Ho st Hst. exists (world st), [].
  rewrite Hm. simpl. rewrite app_nil_r. subst c.
  split; [now destruct st|]. split; [constructor|exact Ho].
Qed.

Lemma triple_ret {A} c Q (N : A -> Prop) R E (a : A) :
  N a -> triple c Q N R E (ret a).
Proof. intros. now apply (triple_pure _ _ _ _ _ _ (Normal a)). Qed.

Lemma triple_raise {A} c Q (N : A -> Prop) R E (e : exn) :
  E e -> triple c Q N R E (raise e).
Proof. intros. now apply (triple_pure _ _ _ _ _ _ (Raised e)). Qed.

Lemma triple_return {A} c Q (N : A -> Prop) R E (v : pyval) :
  R v -> triple c Q N R E (return_ v).
Proof. intros. now apply (triple_pure _ _ _ _ _ _ (Returned v)). Qed.

Lemma triple_bind {A B} c Q (N1 : A -> Prop) (N : B -> Prop) R E
    (m : M World A) (k : A -> M World B) :
  triple c Q N1 R E m ->
  (forall a, N1 a -> triple c Q N R E (k a)) ->
  triple c Q N R E (bind m k).
Proof.
  intros Hm Hk st Hst.
  destruct (Hm st Hst) as (w1 & evs1 & Hs1 & Hevs1 & Ho1).
  unfold bind. destruct (m st) as [o st1]. simpl in *.
  destruct o as [a|v|e].
  - destruct (Hk a Ho1 st1) as (w2 & evs2 & Hs2 & Hevs2 & Ho2).
    { now rewrite Hs1. }
    exists w2, (evs1 ++ evs2). rewrite Hs2. subst st1. simpl.
    rewrite app_assoc. split; [reflexivity|]. split; [|exact Ho2].
    now apply Forall_app.
  - exists w1, evs1. simpl. auto.
  - exists w1, evs1. simpl. auto.
Qed.

Lemma triple_emit c Q (N : unit -> Prop) R E (ev : event) :
  Q ev -> N tt -> triple c Q N R E (emit ev).
Proof.
  intros HQ HN st Hst. exists (world st), [ev]. simpl. subst c.
  split; [reflexivity|]. split; [|exact HN]. now repeat constructor.
Qed.

Lemma triple_load_cfg c Q (N : pyval -> Prop) R E :
  N (VDict c) -> triple c Q N R E load_cfg.
Proof.
  intros HN st Hst. exists (world st), []. simpl. rewrite app_nil_r. subst c.
  split; [now destruct st|]. split; [constructor|exact HN].
Qed.

Lemma triple_call c Q (N : pyval -> Prop) R E buckets datasets :
  Q (Call buckets datasets) ->
  (forall w, match fst (validate_resources buckets datasets w) with
             | Returns v => N v
             | Throws e => E e
             end) ->
  triple c Q N R E (call_validate_resources validate_resources buckets datasets).
Proof.
  intros HQ Hr st Hst. unfold call_validate_resources.
  specialize (Hr (world st)).
  destruct (validate_resources buckets datasets (world st)) as [[v|e] w'];
    simpl in *; exists w', [Call buckets datasets]; subst c;
    (split; [reflexivity|]); (split; [now repeat constructor|exact Hr]).
Qed.

Lemma triple_try {A} c Q (N1 N : A -> Prop) R E1 E
    (body : M World A) (handler : exn -> option (M World A)) :
  triple c Q N1 R E1 body ->
  (forall a, N1 a -> N a) ->
  (forall e, E1 e ->
     match handler e with
     | Some h => triple c Q N R E h
     | None => E e
     end) ->
  triple c Q N R E (try_except body handler).
Proof.
  intros Hb HN Hh st Hst.
  destruct (Hb st Hst) as (w1 & evs1 & Hs1 & Hevs1 & Ho1).
  unfold try_except. destruct (body st) as [o st1]. simpl in *.
  destruct o as [a|v|e].
  - exists w1, evs1. simpl. auto.
  - exists w1, evs1. simpl. auto.
  - specialize (Hh e Ho1). destruct (handler e) as [h|].
    + destruct (Hh st1) as (w2 & evs2 & Hs2 & Hevs2 & Ho2).
      { now rewrite Hs1. }
      exists w2, (evs1 ++ evs2). rewrite Hs2. subst st1. simpl.
      rewrite app_assoc. split; [reflexivity|]. split; [|exact Ho2].
      now apply Forall_app.
    + exists w1, evs1. simpl. auto.
Qed.

Lemma triple_call_function c Q (N : pyval -> Prop) R R1 E (body : M World unit) :
  triple c Q (fun _ => N VNone) R1 E body ->
  (forall v, R1 v -> N v) ->
  triple c Q N R E (call_function body).
Proof.
  intros Hb HR st Hst.
  destruct (Hb st Hst) as (w1 & evs1 & Hs1 & Hevs1 & Ho1).
  unfold call_function. destruct (body st) as [o st1]. simpl in *.
  exists w1, evs1. destruct o; simpl; auto.
Qed.

(** The rules with the strongest postcondition, for the first statement
    of a sequence. *)

Lemma triple_ret_eq {A} c Q R E (a : A) :
  triple c Q (fun x => x = a) R E (ret a).
Proof. now apply triple_ret. Qed.

Lemma triple_emit_s c Q R E (ev : event) :
  Q ev -> triple c Q (fun _ => True) R E (emit ev).
Proof. intros. now apply triple_emit. Qed.

Lemma triple_load_cfg_s c Q R E :
  triple c Q (fun v => v = VDict c) R E load_cfg.
Proof. now apply triple_load_cfg. Qed.

Lemma triple_py_get c Q R E obj key dflt :
  (is_dict obj = false -> E (AttributeError "get")) ->
  triple c Q (fun v => exists d, obj = VDict d /\ v = default dflt (d !! key))
    R E (py_get obj key dflt).
Proof.
  intros HE. destruct obj;
    try (apply (triple_pure _ _ _ _ _ _ (Raised (AttributeError "get")));
         [reflexivity|now apply HE]).
  apply (triple_pure _ _ _ _ _ _ (Normal (default dflt (d !! key))));
    [reflexivity|eauto].
Qed.

Lemma triple_py_getitem c Q R E obj key :
  (is_dict obj = false -> E (TypeError "subscript")) ->
  (forall d, obj = VDict d -> d !! key = None -> E (KeyError key)) ->
  triple c Q (fun v => exists d, obj = VDict d /\ d !! key = Some v)
    R E (py_getitem obj key).
Proof.
  intros HT HK. destruct obj;
    try (apply (triple_pure _ _ _ _ _ _ (Raised (TypeError "subscript")));
         [reflexivity|now apply HT]).
  destruct (d !! key) as [v|] eqn:Hk.
  - apply (triple_pure _ _ _ _ _ _ (Normal v)); [|eauto].
    intros st. simpl. now rewrite Hk.
  - apply (triple_pure _ _ _ _ _ _ (Raised (KeyError key))); [|eauto].
    intros st. simpl. now rewrite Hk.
Qed.

Lemma triple_py_lower c Q R E obj :
  (is_str obj = false -> E (AttributeError "lower")) ->
  triple c Q (fun s' => exists s, obj = VStr s /\ s' = str_lower s)
    R E (py_lower obj).
Proof.
  intros HE. destruct obj;
    try (apply (triple_pure _ _ _ _ _ _ (Raised (AttributeError "lower")));
         [reflexivity|now apply HE]).
  apply (triple_pure _ _ _ _ _ _ (Normal (str_lower s))); [reflexivity|eauto].
Qed.

(** *** The batch check of attributes *)

Lemma collect_missing_dict d attrs acc st :
  collect_missing (VDict d) attrs acc st
  = (Normal (acc ++ missing_in d attrs), st).
Proof.
  revert acc. induction attrs as [|attr rest IH]; intros acc.
  - simpl. now rewrite app_nil_r.
  - cbn [collect_missing]. unfold bind at 1. simpl.
    unfold missing_in. cbn [List.filter]. unfold absent at 1.
    destruct (d !! attr) as [v|]; simpl.
    + unfold bind at 1.
      destruct (is_none v) eqn:Hn; simpl.
      * rewrite IH. now rewrite <- app_assoc.
      * destruct (eq_empty_str v); rewrite IH; [now rewrite <- app_assoc|].
        reflexivity.
    + unfold bind at 1. simpl. rewrite IH. now rewrite <- app_assoc.
Qed.

Lemma collect_missing_not_dict obj attr rest acc st :
  is_dict obj = false ->
  collect_missing obj (attr :: rest) acc st = (Raised (AttributeError "get"), st).
Proof. intros H. destruct obj; try discriminate; reflexivity. Qed.

Lemma triple_collect_missing c Q R E obj attr rest acc :
  (is_dict obj = false -> E (AttributeError "get")) ->
  triple c Q
    (fun l => exists d, obj = VDict d /\ l = acc ++ missing_in d (attr :: rest))
    R E (collect_missing obj (attr :: rest) acc).
Proof.
  intros HE. destruct (is_dict obj) eqn:Hd.
  - destruct obj; try discriminate.
    eapply triple_pure; [intros st; apply collect_missing_dict|].
    simpl. eauto.
  - eapply triple_pure;
      [intros st; now apply collect_missing_not_dict|now apply HE].
Qed.

Lemma missing_in_nil_present d attrs attr :
  missing_in d attrs = [] -> In attr attrs ->
  exists v, d !! attr = Some v /\ is_none v = false /\ eq_empty_str v = false.
Proof.
  intros Hm Hin. unfold missing_in in Hm.
  assert (absent d attr = false) as Ha.
  { destruct (absent d attr) eqn:Ha; [|reflexivity].
    assert (In attr (List.filter (absent d) attrs)) as Hf
      by (apply filter_In; auto).
    rewrite Hm in Hf. destruct Hf. }
  unfold absent in Ha. destruct (d !! attr) as [v|]; [|discriminate].
  apply orb_false_iff in Ha. eauto.
Qed.

(** *** The parts of [validate] *)

Ltac own_exn_tac E_own :=
  intros; first [discriminate|apply E_own; reflexivity].

Ltac tstep E_own :=
  unfold logging_info, logging_error, logging_error_exn;
  lazymatch goal with
  | |- @ValidatorSpec.triple _ _ _ _ _ _ _ ?m =>
      lazymatch m with
      | bind (emit _) _ =>
          eapply triple_bind; [apply triple_emit_s|intros [] _]
      | bind load_cfg _ =>
          eapply triple_bind; [apply triple_load_cfg_s|intros ? ->]
      | bind (py_getitem _ _) _ =>
          eapply triple_bind;
          [apply triple_py_getitem; try (own_exn_tac E_own)|intros ? (? & ? & ?)]
      | bind (py_get _ _ _) _ =>
          eapply triple_bind;
          [apply triple_py_get; try (own_exn_tac E_own)|intros ? (? & ? & ?)]
      | bind (py_lower _) _ =>
          eapply triple_bind;
          [apply triple_py_lower; try (own_exn_tac E_own)|intros ? (? & ? & ?)]
      | bind (collect_missing _ (_ :: _) _) _ =>
          eapply triple_bind;
          [apply triple_collect_missing; try (own_exn_tac E_own)
          |intros ? (? & ? & ?)]
      | bind (ret _) _ =>
          eapply triple_bind; [apply triple_ret_eq|intros ? ->]
      | bind (raise _) _ =>
          eapply triple_bind;
          [apply (triple_raise _ _ (fun _ => False)); try (own_exn_tac E_own)
          |intros ? []]
      | bind (if ?b then _ else _) _ => destruct b eqn:?
      | (if ?b then _ else _) => destruct b eqn:?
      | ret _ => apply triple_ret
      | raise _ => apply triple_raise; try (own_exn_tac E_own)
      | return_ _ => apply triple_return
      | emit _ => apply triple_emit
      end
  end.

Section Blocks.
Variable c : gmap string pyval.
Variable E : exn -> Prop.
Hypothesis E_own : forall e, own_exn e = true -> E e.
Hypothesis E_thrown :
  forall b d w e, fst (validate_resources b d w) = Throws e -> E e.

Lemma triple_dataset_constraints Q R source target location datasets :
  triple c Q (fun _ => True) R E
    (dataset_constraints repr_container source target location datasets).
Proof.
  unfold dataset_constraints. repeat tstep E_own. exact I.
Qed.

Lemma triple_call_s Q R buckets datasets :
  Q (Call buckets datasets) ->
  triple c Q (fun _ => True) R E
    (call_validate_resources validate_resources buckets datasets).
Proof.
  intros HQ. apply triple_call; [exact HQ|].
  intros w. destruct (validate_resources buckets datasets w) as [[v|e] w'] eqn:Hr;
    simpl; [exact I|].
  apply (E_thrown buckets datasets w). now rewrite Hr.
Qed.

Lemma triple_validate_googleads Q R :
  accepts_googleads Q ->
  triple c Q (fun v => v = VNone) R E
    (_validate_googleads validate_resources repr_container).
Proof.
  intros (Q1 & Q2 & Q3 & _).
  unfold _validate_googleads.
  apply (triple_call_function _ _ _ _ (fun _ => False)); [|intros ? []].
  unfold _validate_googleads_body.
  repeat tstep E_own; auto.
  all: eapply triple_bind; [apply triple_dataset_constraints|intros ? _].
  all: eapply triple_bind; [apply triple_call_s; apply Q2|intros ? _].
  all: repeat tstep E_own; auto.
Qed.

Lemma triple_validate_cm360 Q R :
  accepts_cm360 Q ->
  triple c Q (fun v => v = VNone) R E
    (_validate_cm360 validate_resources repr_container).
Proof.
  intros (Q1 & Q2 & Q3 & _).
  unfold _validate_cm360.
  apply (triple_call_function _ _ _ _ (fun _ => False)); [|intros ? []].
  unfold _validate_cm360_body.
  repeat tstep E_own; auto.
  all: eapply triple_bind; [apply triple_dataset_constraints|intros ? _].
  all: eapply triple_bind; [apply triple_call_s; apply Q2|intros ? _].
  all: repeat tstep E_own; auto.
Qed.

End Blocks.

Local Abbreviation thrown := (thrown_by validate_resources).

Lemma own_or_thrown_own e : own_exn e = true -> own_exn e = true \/ thrown e.
Proof. auto. Qed.

Lemma own_or_thrown_thrown b d w e :
  fst (validate_resources b d w) = Throws e -> own_exn e = true \/ thrown e.
Proof. intros H. right. now exists b, d, w. Qed.

Lemma triple_skip_if_disabled c Q E :
  accepts_prelude Q ->
  triple c Q
    (fun _ => truthy (default (VBool false) (c !! "deployMarketing")) = true)
    (fun v => v = VDict c) E skip_if_disabled.
Proof.
  intros (Q1 & _). unfold skip_if_disabled.
  repeat tstep I; auto.
  match goal with H : VDict _ = VDict _ |- _ => injection H as <- end.
  subst. now apply negb_false_iff.
Qed.

Lemma triple_load_marketing c Q E :
  accepts_prelude Q ->
  triple c Q
    (fun m => m = default VNone (c !! "marketing") /\ truthy m = true)
    (fun v => v = VNone) E load_marketing.
Proof.
  intros (_ & Q2 & Q3 & _). unfold load_marketing.
  repeat tstep I; auto.
  match goal with H : VDict _ = VDict _ |- _ => injection H as <- end.
  split; [assumption|now apply negb_false_iff].
Qed.

Lemma triple_check_marketing_attrs c Q E m :
  accepts_prelude Q ->
  (is_dict m = false -> E (AttributeError "get")) ->
  triple c Q
    (fun _ => exists md, m = VDict md /\ missing_in md marketing_attrs = [])
    (fun v => v = VNone) E (check_marketing_attrs m).
Proof.
  intros (_ & _ & _ & Q4) HE. unfold check_marketing_attrs, marketing_attrs.
  repeat tstep I; auto.
  subst. eexists; split; [reflexivity|].
  rewrite app_nil_l in *.
  match goal with
  | H : nonempty ?l = false |- ?l = [] => now destruct l
  end.
Qed.

Lemma triple_check_googleads c Q md :
  accepts_googleads Q ->
  triple c Q (fun _ => True) (fun v => v = VNone)
    (fun e => is_Exception e = false /\ thrown e)
    (check_googleads validate_resources repr_container (VDict md)).
Proof.
  intros HQ. pose proof HQ as (Q1 & Q2 & Q3 & Q4 & Q5 & Q6 & Q7).
  unfold check_googleads.
  repeat tstep I; auto.
  eapply (triple_try _ _ (fun _ => True) _ _
            (fun e => own_exn e = true \/ thrown e)).
  - eapply triple_bind.
    + apply triple_validate_googleads;
        [apply own_or_thrown_own|apply own_or_thrown_thrown|exact HQ].
    + intros. now apply triple_ret.
  - auto.
  - intros e He. destruct e; repeat tstep I; auto.
    destruct He as [He|He]; [discriminate|auto].
Qed.

Lemma triple_check_cm360 c Q md :
  accepts_cm360 Q ->
  triple c Q (fun _ => True) (fun v => v = VNone)
    (fun e => is_Exception e = false /\ thrown e)
    (check_cm360 validate_resources repr_container (VDict md)).
Proof.
  intros HQ. pose proof HQ as (Q1 & Q2 & Q3 & Q4 & Q5 & Q6 & Q7).
  unfold check_cm360.
  repeat tstep I; auto.
  eapply (triple_try _ _ (fun _ => True) _ _
            (fun e => own_exn e = true \/ thrown e)).
  - eapply triple_bind.
    + apply triple_validate_cm360;
        [apply own_or_thrown_own|apply own_or_thrown_thrown|exact HQ].
    + intros. now apply triple_ret.
  - auto.
  - intros e He. destruct e; repeat tstep I; auto.
    destruct He as [He|He]; [discriminate|auto].
Qed.

Lemma triple_check_region c Q md :
  accepts_region Q ->
  missing_in md marketing_attrs = [] ->
  triple c Q (fun _ => True) (fun v => v = VNone) (region_escapes c md)
    (check_region (VDict md)).
Proof.
  intros (Q1 & Q2) Hmd. unfold check_region.
  destruct (missing_in_nil_present md marketing_attrs "dataflowRegion" Hmd)
    as (r & Hr & Hrn & _); [simpl; auto|].
  repeat tstep I; auto.
  all: repeat match goal with
         | H : VDict _ = VDict _ |- _ => injection H as <-
         end.
  all: unfold region_escapes.
  all: try (intros d [= <-] Hn;
            first [congruence|right; left; split; [reflexivity|assumption]]).
  all: intros Hs;
       first [solve [left; split; [reflexivity|];
                     exists r; repeat split; congruence]
             |solve [right; right; split; [reflexivity|eauto]]].
Qed.

Lemma triple_run {A} c Q (N : A -> Prop) R E (m : M World A) st o st' :
  triple c Q N R E m -> cfg st = c -> m st = (o, st') ->
  exists evs,
    st' = mkState c (world st') (trace st ++ evs)
    /\ Forall Q evs
    /\ match o with Normal a => N a | Returned v => R v | Raised e => E e end.
Proof.
  intros Hm Hc Hrun. destruct (Hm st Hc) as (w' & evs & Hs & Hevs & Ho).
  rewrite Hrun in Hs, Ho. simpl in Hs, Ho. subst st'. simpl. eauto.
Qed.

Lemma triple_validate_checks c Q :
  accepts_prelude Q -> accepts_googleads Q -> accepts_cm360 Q ->
  triple c Q (checked c) (fun v => v = VNone \/ v = VDict c)
    (validate_escapes validate_resources c)
    (validate_checks validate_resources repr_container).
Proof.
  intros HP HG HC. unfold validate_checks.
  eapply triple_bind.
  { eapply triple_conseq;
      [apply (triple_skip_if_disabled c Q (fun _ => False)); assumption
      |auto|intros ? Ha; exact Ha|intros v ->; auto|intros e []]. }
  intros ? Hdeploy; cbv beta in Hdeploy.
  eapply triple_bind.
  { eapply triple_conseq;
      [apply (triple_load_marketing c Q (fun _ => False)); assumption
      |auto|intros ? Ha; exact Ha|intros v ->; auto|intros e []]. }
  intros m (Hm & Htruthy).
  assert (c !! "marketing" = Some m) as Hlook.
  { destruct (c !! "marketing"); simpl in Hm; subst; [reflexivity|].
    discriminate. }
  eapply triple_bind.
  { eapply triple_conseq;
      [apply (triple_check_marketing_attrs c Q
                (fun e => e = AttributeError "get" /\ is_dict m = false));
       [assumption|auto]
      |auto|intros ? Ha; exact Ha|intros v ->; auto|].
    intros e (-> & Hd). left. split; [reflexivity|eauto]. }
  intros ? (md & -> & Hmissing).
  eapply triple_bind.
  { eapply triple_conseq;
      [apply triple_check_googleads; exact HG
      |auto|intros ? Ha; exact Ha|intros v ->; auto|].
    intros e He. right. left. exact He. }
  intros ? ?.
  eapply triple_bind.
  { eapply triple_conseq;
      [apply triple_check_cm360; exact HC
      |auto|intros ? Ha; exact Ha|intros v ->; auto|].
    intros e He. right. left. exact He. }
  intros ? ?.
  apply triple_ret. exists md. auto.
Qed.

Lemma triple_validate c Q :
  accepts_prelude Q -> accepts_googleads Q -> accepts_cm360 Q ->
  accepts_region Q ->
  triple c Q (fun v => v = VNone \/ v = VDict c) (fun _ => False)
    (validate_escapes validate_resources c)
    (validate validate_resources repr_container).
Proof.
  intros HP HG HC HR. pose proof HR as (_ & Q2).
  unfold validate.
  apply (triple_call_function _ _ _ _ (fun v => v = VNone \/ v = VDict c));
    [|auto].
  unfold validate_body.
  eapply triple_bind; [now apply triple_validate_checks|].
  intros m (md & Hlook & -> & _ & _ & Hmissing).
  eapply triple_bind.
  { eapply triple_conseq;
      [apply triple_check_region; [exact HR|exact Hmissing]
      |auto|intros ? Ha; exact Ha|intros v ->; auto|].
    intros e He. right. right. eauto. }
  intros ? ?.
  repeat tstep I; auto.
Qed.

Lemma accepts_any :
  accepts_prelude any_event /\ accepts_googleads any_event
  /\ accepts_cm360 any_event /\ accepts_region any_event.
Proof. repeat split. Qed.

(** *** Runs of [validate] around the region check *)

Lemma bind_run_normal {A B} (m : M World A) (k : A -> M World B) st a st' :
  m st = (Normal a, st') -> bind m k st = k a st'.
Proof. intros H. unfold bind. now rewrite H. Qed.

Lemma bind_run_returned {A B} (m : M World A) (k : A -> M World B) st v st' :
  m st = (Returned v, st') -> bind m k st = (Returned v, st').
Proof. intros H. unfold bind. now rewrite H. Qed.

Lemma bind_run_raised {A B} (m : M World A) (k : A -> M World B) st e st' :
  m st = (Raised e, st') -> bind m k st = (Raised e, st').
Proof. intros H. unfold bind. now rewrite H. Qed.

Lemma py_getitem_some d k v st :
  d !! k = Some v -> py_getitem (VDict d) k st = (Normal v, st).
Proof. intros H. simpl. now rewrite H. Qed.

Lemma py_getitem_none d k st :
  d !! k = None -> py_getitem (VDict d) k st = (Raised (KeyError k), st).
Proof. intros H. simpl. now rewrite H. Qed.

Ltac run_bind :=
  erewrite bind_run_normal by
    first [reflexivity
          |apply py_getitem_some; cbn [cfg]; eassumption
          |apply collect_missing_dict].

Lemma checks_normal c w m st1 :
  validate_checks validate_resources repr_container (initial c w)
  = (Normal m, st1) ->
  checked c m /\ cfg st1 = c.
Proof.
  intros Hrun. destruct accepts_any as (HP & HG & HC & _).
  destruct (triple_run c any_event _ _ _ _ (initial c w) _ _
              (triple_validate_checks c any_event HP HG HC) eq_refl Hrun)
    as (evs & Hst1 & _ & Hm).
  split; [exact Hm|]. now rewrite Hst1.
Qed.

Lemma check_region_run c w t md r l :
  md !! "dataflowRegion" = Some (VStr r) ->
  c !! "location" = Some (VStr l) ->
  check_region (VDict md) (mkState c w t)
  = if region_rejected r l
    then (Returned VNone,
          mkState c w
            (t ++ [Log ERROR (Msg invalid_region_msg) [VStr r; VStr l]]))
    else (Normal tt, mkState c w t).
Proof.
  intros Hr Hl. unfold check_region.
  repeat run_bind. fold (region_rejected r l).
  destruct (region_rejected r l); [|reflexivity].
  repeat run_bind. reflexivity.
Qed.

Lemma run_validate_after_checks c w m st1 md r l :
  validate_checks validate_resources repr_container (initial c w)
  = (Normal m, st1) ->
  c !! "marketing" = Some (VDict md) ->
  md !! "dataflowRegion" = Some (VStr r) ->
  c !! "location" = Some (VStr l) ->
  run_validate validate_resources repr_container c w
  = if region_rejected r l
    then (Normal VNone,
          mkState c (world st1)
            (trace st1
             ++ [Log ERROR (Msg invalid_region_msg) [VStr r; VStr l]]))
    else (Normal (VDict c),
          mkState c (world st1)
            (trace st1
             ++ [Log INFO
                   (Msg "✅ 'marketing' config validated successfully. Looks good.")
                   []])).
Proof.
  intros Hrun Hmk Hr Hl.
  destruct (checks_normal _ _ _ _ Hrun) as ((md' & Hmk' & -> & _) & Hc).
  rewrite Hmk in Hmk'. injection Hmk' as <-.
  unfold run_validate, validate, call_function, validate_body.
  rewrite (bind_run_normal _ _ _ _ _ Hrun).
  destruct st1 as [c1 w1 t1]. simpl in Hc. subst c1.
  pose proof (check_region_run c w1 t1 md r l Hr Hl) as Hreg.
  destruct (region_rejected r l).
  - rewrite (bind_run_returned _ _ _ _ _ Hreg). reflexivity.
  - rewrite (bind_run_normal _ _ _ _ _ Hreg). reflexivity.
Qed.

Lemma run_validate_checks_stop c w o st1 :
  validate_checks validate_resources repr_container (initial c w) = (o, st1) ->
  (forall m, o <> Normal m) ->
  run_validate validate_resources repr_container c w
  = (match o with
     | Normal m => Normal m
     | Returned v => Normal v
     | Raised e => Raised e
     end, st1).
Proof.
  intros Hrun Hno.
  unfold run_validate, validate, call_function, validate_body.
  unfold bind at 1. rewrite Hrun.
  destruct o as [m|v|e]; [now destruct (Hno m)|reflexivity|reflexivity].
Qed.

Lemma startswith_spec s p :
  startswith s p = true <-> exists rest, s = p +:+ rest.
Proof.
  revert s. induction p as [|a p IH]; intros s.
  - split; [intros _; now exists s|intros _; now destruct s].
  - destruct s as [|b s]; simpl.
    + split; [discriminate|intros (rest & Hrest); discriminate].
    + rewrite andb_true_iff, IH. split.
      * intros (Hab & rest & ->). apply Ascii.eqb_eq in Hab. subst.
        now exists rest.
      * intros (rest & Hrest). injection Hrest as -> ->.
        split; [apply Ascii.eqb_refl|now exists rest].
Qed.

Lemma str_append_assoc (a b d : string) : (a +:+ b) +:+ d = a +:+ (b +:+ d).
Proof.
  induction a as [|x a IH]; [reflexivity|].
  change (String x ((a +:+ b) +:+ d) = String x (a +:+ (b +:+ d))).
  now rewrite IH.
Qed.

Lemma region_rejected_spec r l :
  region_rejected r l = false <-> region_contained r l.
Proof.
  unfold region_rejected, region_contained.
  rewrite andb_false_iff, !negb_false_iff, String.eqb_eq, startswith_spec.
  split; (intros [H|(rest & H)]; [now left|right]).
  - exists rest. now rewrite H, str_append_assoc.
  - exists rest. now rewrite H, str_append_assoc.
Qed.

Lemma skip_if_disabled_run c w t :
  truthy (default (VBool false) (c !! "deployMarketing")) = false ->
  skip_if_disabled (mkState c w t)
  = (Returned (VDict c),
     mkState c w
       (t ++ [Log INFO
                (Msg "'marketing' is not being deployed. Skipping validation.")
                []])).
Proof.
  intros Hd. unfold skip_if_disabled. repeat run_bind.
  cbn [cfg]. rewrite Hd. cbn [negb]. repeat run_bind. reflexivity.
Qed.

Lemma skip_if_disabled_pass c w t :
  truthy (default (VBool false) (c !! "deployMarketing")) = true ->
  skip_if_disabled (mkState c w t) = (Normal tt, mkState c w t).
Proof.
  intros Hd. unfold skip_if_disabled. repeat run_bind.
  cbn [cfg]. rewrite Hd. reflexivity.
Qed.

Lemma bind_assoc_run {A B C} (m : M World A) (f : A -> M World B)
    (g : B -> M World C) st :
  bind (bind m f) g st = bind m (fun a => bind (f a) g) st.
Proof. unfold bind. destruct (m st) as [[a|v|e] st']; reflexivity. Qed.

Lemma load_marketing_run c w t md :
  c !! "marketing" = Some (VDict md) ->
  truthy (VDict md) = true ->
  load_marketing (mkState c w t)
  = (Normal (VDict md),
     mkState c w
       (t ++ [Log INFO (Msg "Validating 'marketing' configuration...") []])).
Proof.
  intros Hmk Ht. unfold load_marketing. repeat run_bind.
  cbn [cfg default]. rewrite Hmk. cbn [default from_option id world trace].
  rewrite Ht. reflexivity.
Qed.

Lemma check_marketing_attrs_run md st :
  check_marketing_attrs (VDict md) st
  = if nonempty (missing_in md marketing_attrs)
    then (Returned VNone,
          mkState (cfg st) (world st)
            (trace st
             ++ [Log ERROR (Msg missing_marketing_msg)
                   [VList (map VStr (missing_in md marketing_attrs))]]))
    else (Normal tt, st).
Proof.
  unfold check_marketing_attrs. run_bind. rewrite app_nil_l.
  destruct (nonempty (missing_in md marketing_attrs)); [|reflexivity].
  run_bind. reflexivity.
Qed.

(** The run of everything before the sub-modules, on a document that
    deploys marketing and holds a non-empty marketing mapping. *)
Lemma validate_body_prelude c w md :
  truthy (default (VBool false) (c !! "deployMarketing")) = true ->
  c !! "marketing" = Some (VDict md) ->
  truthy (VDict md) = true ->
  validate_body validate_resources repr_container (initial c w)
  = if nonempty (missing_in md marketing_attrs)
    then (Returned VNone,
          mkState c w
            [Log INFO (Msg "Validating 'marketing' configuration...") [];
             Log ERROR (Msg missing_marketing_msg)
               [VList (map VStr (missing_in md marketing_attrs))]])
    else after_attrs validate_resources repr_container (VDict md)
           (mkState c w
              [Log INFO (Msg "Validating 'marketing' configuration...") []]).
Proof.
  intros Hd Hmk Ht. unfold validate_body, validate_checks, initial.
  rewrite bind_assoc_run.
  rewrite (bind_run_normal _ _ _ _ _ (skip_if_disabled_pass c w [] Hd)).
  rewrite bind_assoc_run.
  rewrite (bind_run_normal _ _ _ _ _ (load_marketing_run c w [] md Hmk Ht)).
  rewrite bind_assoc_run.
  pose proof (check_marketing_attrs_run md
                (mkState c w
                   ([] ++ [Log INFO
                             (Msg "Validating 'marketing' configuration...")
                             []]))) as Hattrs.
  destruct (nonempty (missing_in md marketing_attrs)).
  - rewrite (bind_run_returned _ _ _ _ _ Hattrs). reflexivity.
  - rewrite (bind_run_normal _ _ _ _ _ Hattrs). reflexivity.
Qed.

Lemma triple_after_attrs c Q md :
  accepts_googleads Q -> accepts_cm360 Q -> accepts_region Q ->
  missing_in md marketing_attrs = [] ->
  triple c Q (fun _ => False) (fun v => v = VNone \/ v = VDict c)
    (fun _ => True)
    (after_attrs validate_resources repr_container (VDict md)).
Proof.
  intros HG HC HR Hmissing. pose proof HR as (_ & Q2).
  unfold after_attrs.
  eapply triple_bind.
  { eapply (triple_bind _ _ (fun _ => True)).
    - eapply triple_conseq;
        [apply triple_check_googleads; exact HG
        |auto|auto|intros v ->; auto|auto].
    - intros ? ?. eapply (triple_bind _ _ (fun _ => True)).
      + eapply triple_conseq;
          [apply triple_check_cm360; exact HC
          |auto|auto|intros v ->; auto|auto].
      + intros ? ?. apply triple_ret_eq. }
  intros m ->.
  eapply triple_bind.
  { eapply triple_conseq;
      [apply triple_check_region; [exact HR|exact Hmissing]
      |auto|intros ? Ha; exact Ha|intros v ->; auto|auto]. }
  intros ? ?. repeat tstep I; auto.
Qed.

(** *** Runs of the sub-module validators *)

Lemma missing_in_nil_truthy d attr rest :
  missing_in d (attr :: rest) = [] -> truthy (VDict d) = true.
Proof.
  intros Hm.
  destruct (missing_in_nil_present d (attr :: rest) attr Hm) as (v & Hv & _);
    [now left|].
  simpl. apply negb_true_iff, Nat.eqb_neq. intros Hsize.
  apply map_size_empty_iff in Hsize. subst d.
  rewrite lookup_empty in Hv. discriminate.
Qed.

Lemma missing_in_nil_entry d attrs attr :
  missing_in d attrs = [] -> In attr attrs -> d !! attr = Some (entry d attr).
Proof.
  intros Hm Hin.
  destruct (missing_in_nil_present d attrs attr Hm Hin) as (v & Hv & _).
  unfold entry. now rewrite Hv.
Qed.

Lemma dataset_constraints_run source target location ds st :
  missing_in ds datasets_attrs = [] ->
  dataset_constraints repr_container source target location (VDict ds) st
  = (Normal (expected_datasets repr_container source target location ds), st).
Proof.
  intros Hm.
  pose proof (missing_in_nil_entry ds _ "raw" Hm) as Hraw.
  pose proof (missing_in_nil_entry ds _ "cdc" Hm) as Hcdc.
  pose proof (missing_in_nil_entry ds _ "reporting" Hm) as Hrep.
  unfold dataset_constraints.
  rewrite (bind_run_normal _ _ _ _ _ (py_getitem_some _ _ _ st (Hraw ltac:(simpl; auto)))).
  rewrite (bind_run_normal _ _ _ _ _ (py_getitem_some _ _ _ st (Hcdc ltac:(simpl; auto)))).
  rewrite (bind_run_normal _ _ _ _ _ (py_getitem_some _ _ _ st (Hrep ltac:(simpl; auto)))).
  reflexivity.
Qed.

Ltac run_call Hvr :=
  first
    [erewrite bind_run_normal by
       (unfold call_validate_resources; cbn [world cfg trace];
        rewrite Hvr; reflexivity)
    |erewrite bind_run_raised by
       (unfold call_validate_resources; cbn [world cfg trace];
        rewrite Hvr; reflexivity)].

Lemma validate_googleads_run c w t md g ds src tgt loc :
  c !! "marketing" = Some (VDict md) ->
  md !! "GoogleAds" = Some (VDict g) ->
  missing_in g googleads_attrs = [] ->
  g !! "datasets" = Some (VDict ds) ->
  missing_in ds datasets_attrs = [] ->
  c !! "projectIdSource" = Some src ->
  c !! "projectIdTarget" = Some tgt ->
  c !! "location" = Some loc ->
  _validate_googleads validate_resources repr_container (mkState c w t)
  = resource_outcome c t "Validating configuration for GoogleAds..." []
      (expected_datasets repr_container src tgt loc ds)
      (validate_resources []
         (expected_datasets repr_container src tgt loc ds) w).
Proof.
  intros Hmk Hg Hmg Hds Hmds Hsrc Htgt Hloc.
  unfold googleads_attrs in Hmg.
  unfold _validate_googleads, call_function, _validate_googleads_body.
  repeat run_bind. rewrite app_nil_l, Hmg. cbn [nonempty].
  repeat run_bind. rewrite app_nil_l.
  fold datasets_attrs. rewrite Hmds. cbn [nonempty].
  repeat run_bind.
  erewrite bind_run_normal by (now apply dataset_constraints_run).
  unfold resource_outcome.
  destruct (validate_resources []
              (expected_datasets repr_container src tgt loc ds) w)
    as [[v|e] w'] eqn:Hvr.
  - run_call Hvr. destruct (truthy v); cbn [negb].
    + repeat run_bind. unfold logging_info, emit. cbn [cfg world trace].
      now rewrite <- !app_assoc.
    + erewrite bind_run_raised by reflexivity. cbn [cfg world trace].
      now rewrite <- !app_assoc.
  - run_call Hvr. cbn [cfg world trace]. now rewrite <- !app_assoc.
Qed.

Lemma validate_cm360_run c w t md cm ds src tgt loc :
  c !! "marketing" = Some (VDict md) ->
  md !! "CM360" = Some (VDict cm) ->
  missing_in cm cm360_attrs = [] ->
  cm !! "datasets" = Some (VDict ds) ->
  missing_in ds datasets_attrs = [] ->
  c !! "projectIdSource" = Some src ->
  c !! "projectIdTarget" = Some tgt ->
  c !! "location" = Some loc ->
  _validate_cm360 validate_resources repr_container (mkState c w t)
  = resource_outcome c t "Validating Config file for CM360..."
      (expected_buckets loc cm)
      (expected_datasets repr_container src tgt loc ds)
      (validate_resources (expected_buckets loc cm)
         (expected_datasets repr_container src tgt loc ds) w).
Proof.
  intros Hmk Hcm Hmcm Hds Hmds Hsrc Htgt Hloc.
  pose proof (missing_in_nil_entry cm _ "dataTransferBucket" Hmcm
                ltac:(simpl; auto)) as Hbucket.
  unfold cm360_attrs in Hmcm.
  unfold _validate_cm360, call_function, _validate_cm360_body.
  repeat run_bind. rewrite app_nil_l, Hmcm. cbn [nonempty].
  repeat run_bind. rewrite app_nil_l.
  fold datasets_attrs. rewrite Hmds. cbn [nonempty].
  repeat run_bind.
  erewrite bind_run_normal by (now apply dataset_constraints_run).
  unfold resource_outcome. fold (expected_buckets loc cm).
  destruct (validate_resources (expected_buckets loc cm)
              (expected_datasets repr_container src tgt loc ds) w)
    as [[v|e] w'] eqn:Hvr.
  - run_call Hvr. destruct (truthy v); cbn [negb].
    + repeat run_bind. unfold logging_info, emit. cbn [cfg world trace].
      now rewrite <- !app_assoc.
    + erewrite bind_run_raised by reflexivity. cbn [cfg world trace].
      now rewrite <- !app_assoc.
  - run_call Hvr. cbn [cfg world trace]. now rewrite <- !app_assoc.
Qed.

(** *** Runs of the sub-module blocks of [validate] *)

Lemma check_googleads_disabled md st :
  truthy (entry md "deployGoogleAds") = false ->
  check_googleads validate_resources repr_container (VDict md) st
  = (Normal tt, st).
Proof.
  intros Hd. unfold check_googleads. run_bind.
  fold (entry md "deployGoogleAds"). now rewrite Hd.
Qed.

Lemma check_googleads_missing md st :
  truthy (entry md "deployGoogleAds") = true ->
  truthy (entry md "GoogleAds") = false ->
  check_googleads validate_resources repr_container (VDict md) st
  = (Returned VNone,
     mkState (cfg st) (world st)
       (trace st
        ++ [Log ERROR
              (Msg "🛑 Missing 'marketing' 'GoogleAds' attribute in the config file. 🛑")
              []])).
Proof.
  intros Hd Hg. unfold check_googleads. run_bind.
  fold (entry md "deployGoogleAds"). rewrite Hd. run_bind.
  fold (entry md "GoogleAds"). rewrite Hg. cbn [negb]. reflexivity.
Qed.

Lemma check_googleads_enabled md st :
  truthy (entry md "deployGoogleAds") = true ->
  truthy (entry md "GoogleAds") = true ->
  check_googleads validate_resources repr_container (VDict md) st
  = guarded "🛑 GoogleAds config validation failed: %s 🛑"
      "🛑 GoogleAds config validation failed. 🛑"
      (_validate_googleads validate_resources repr_container st).
Proof.
  intros Hd Hg. unfold check_googleads. run_bind.
  fold (entry md "deployGoogleAds"). rewrite Hd. run_bind.
  fold (entry md "GoogleAds"). rewrite Hg. cbn [negb].
  unfold try_except, guarded, handled. unfold bind at 1.
  destruct (_validate_googleads validate_resources repr_container st)
    as [[v|v|e] st']; try reflexivity.
  destruct e;
    first [reflexivity
          |cbv [bind logging_error logging_error_exn emit return_];
           cbn [cfg world trace]; now rewrite <- app_assoc].
Qed.

Lemma check_cm360_disabled md st :
  truthy (entry md "deployCM360") = false ->
  check_cm360 validate_resources repr_container (VDict md) st
  = (Normal tt, st).
Proof.
  intros Hd. unfold check_cm360. run_bind.
  fold (entry md "deployCM360"). now rewrite Hd.
Qed.

Lemma check_cm360_missing md st :
  truthy (entry md "deployCM360") = true ->
  truthy (entry md "CM360") = false ->
  check_cm360 validate_resources repr_container (VDict md) st
  = (Returned VNone,
     mkState (cfg st) (world st)
       (trace st
        ++ [Log ERROR
              (Msg "🛑 Missing 'marketing' 'CM360' attribute in the config file. 🛑")
              []])).
Proof.
  intros Hd Hg. unfold check_cm360. run_bind.
  fold (entry md "deployCM360"). rewrite Hd. run_bind.
  fold (entry md "CM360"). rewrite Hg. cbn [negb]. reflexivity.
Qed.

Lemma check_cm360_enabled md st :
  truthy (entry md "deployCM360") = true ->
  truthy (entry md "CM360") = true ->
  check_cm360 validate_resources repr_container (VDict md) st
  = guarded "🛑 CM360 config validation failed: %s 🛑"
      "🛑 CM360 config validation failed. 🛑"
      (_validate_cm360 validate_resources repr_container st).
Proof.
  intros Hd Hg. unfold check_cm360. run_bind.
  fold (entry md "deployCM360"). rewrite Hd. run_bind.
  fold (entry md "CM360"). rewrite Hg. cbn [negb].
  unfold try_except, guarded, handled. unfold bind at 1.
  destruct (_validate_cm360 validate_resources repr_container st)
    as [[v|v|e] st']; try reflexivity.
  destruct e;
    first [reflexivity
          |cbv [bind logging_error logging_error_exn emit return_];
           cbn [cfg world trace]; now rewrite <- app_assoc].
Qed.

Lemma validate_googleads_missing_attrs c w t md g :
  c !! "marketing" = Some (VDict md) ->
  md !! "GoogleAds" = Some (VDict g) ->
  missing_in g googleads_attrs <> [] ->
  _validate_googleads validate_resources repr_container (mkState c w t)
  = (Raised
       (ValueError
          ("Config file is missing some GoogleAds attributes or has empty values: "
           +:+ repr_names (missing_in g googleads_attrs))),
     mkState c w
       (t ++ [Log INFO (Msg "Validating configuration for GoogleAds...") []])).
Proof.
  intros Hmk Hg Hmg. unfold googleads_attrs in *.
  unfold _validate_googleads, call_function, _validate_googleads_body.
  repeat run_bind. rewrite app_nil_l.
  destruct (missing_in g ["deployCDC"; "datasets"; "lookbackDays"])
    as [|a l] eqn:Hm; [congruence|].
  cbn [nonempty]. erewrite bind_run_raised by reflexivity. reflexivity.
Qed.

Lemma cm360_free_googleads :
  accepts_googleads (fun ev => cm360_event ev = false).
Proof. repeat split. Qed.

Lemma cm360_free_prelude :
  accepts_prelude (fun ev => cm360_event ev = false).
Proof. repeat split. Qed.

(** A failed GoogleAds validation ends the body of [validate] with a
    rejection, and with no event of the CM360 part in the trace. *)
Lemma after_attrs_googleads_fails c w t md :
  Forall (fun ev => cm360_event ev = false) t ->
  truthy (entry md "deployGoogleAds") = true ->
  truthy (entry md "GoogleAds") = false
  \/ (exists e st2,
         _validate_googleads validate_resources repr_container (mkState c w t)
         = (Raised e, st2)
         /\ is_Exception e = true) ->
  exists st',
    after_attrs validate_resources repr_container (VDict md) (mkState c w t)
    = (Returned VNone, st')
    /\ Forall (fun ev => cm360_event ev = false) (trace st').
Proof.
  intros Ht Hd Hfail. unfold after_attrs.
  rewrite bind_assoc_run.
  destruct Hfail as [Hg|(e & st2 & Hrun & He)].
  - erewrite bind_run_returned by (now apply check_googleads_missing).
    eexists. split; [reflexivity|]. cbn [trace].
    apply Forall_app. split; [exact Ht|now repeat constructor].
  - destruct (truthy (entry md "GoogleAds")) eqn:Hg.
    + pose proof (triple_validate_googleads c (fun _ => True)
                    (fun _ _ => I) (fun _ _ _ _ _ => I) _ (fun _ => True)
                    cm360_free_googleads) as Htriple.
      destruct (triple_run _ _ _ _ _ _ (mkState c w t) _ _ Htriple
                  eq_refl Hrun) as (evs & Hst2 & Hevs & _).
      assert (Forall (fun ev => cm360_event ev = false) (trace st2)) as Ht2.
      { rewrite Hst2. cbn [trace]. apply Forall_app. auto. }
      rewrite (bind_run_returned _ _ (mkState c w t) VNone
                 (snd (handled "🛑 GoogleAds config validation failed: %s 🛑"
                         "🛑 GoogleAds config validation failed. 🛑" e st2))).
      * eexists. split; [reflexivity|].
        destruct e; try discriminate; cbn [handled snd trace];
          (apply Forall_app; split; [exact Ht2|now repeat constructor]).
      * rewrite (check_googleads_enabled md _ Hd Hg), Hrun.
        unfold guarded. destruct e; try discriminate; reflexivity.
    + erewrite bind_run_returned by (now apply check_googleads_missing).
      eexists. split; [reflexivity|]. cbn [trace].
      apply Forall_app. split; [exact Ht|now repeat constructor].
Qed.

(** *** The order of the collaborator calls *)

Local Abbreviation emits := (@ValidatorSpec.emits World _).

Lemma emits_of_triple {A} c Q (N : A -> Prop) R E (m : M World A) :
  triple c Q N R E m -> emits c (Forall Q) m.
Proof.
  intros Hm st Hst. destruct (Hm st Hst) as (w' & evs & Hs & Hevs & _).
  exists evs. rewrite Hs. auto.
Qed.

Lemma emits_bind {A B} c Q (N : A -> Prop) R E (m : M World A)
    (k : A -> M World B) (P2 P : list event -> Prop) :
  triple c Q N R E m ->
  (forall a, N a -> emits c P2 (k a)) ->
  (forall e1, Forall Q e1 -> P e1) ->
  (forall e1 e2, Forall Q e1 -> P2 e2 -> P (e1 ++ e2)) ->
  emits c P (bind m k).
Proof.
  intros Hm Hk Hstop Hseq st Hst.
  destruct (Hm st Hst) as (w' & evs & Hs & Hevs & Ho).
  unfold bind. destruct (m st) as [[a|v|e] st1]; simpl in Hs, Ho; subst st1.
  - destruct (Hk a Ho (mkState c w' (trace st ++ evs)) eq_refl)
      as (evs2 & Htr & HP2).
    exists (evs ++ evs2). rewrite Htr. cbn [trace].
    rewrite app_assoc. auto.
  - exists evs. auto.
  - exists evs. auto.
Qed.

Lemma emits_assoc {A B C} c P (m : M World A) (f : A -> M World B)
    (g : B -> M World C) :
  emits c P (bind m (fun a => bind (f a) g)) ->
  emits c P (bind (bind m f) g).
Proof.
  intros H st Hst. rewrite bind_assoc_run. now apply H.
Qed.

Lemma emits_call_function c P (body : M World unit) :
  emits c P body -> emits c P (call_function body).
Proof.
  intros H st Hst. destruct (H st Hst) as (evs & Htr & HP).
  exists evs. unfold call_function.
  destruct (body st) as [[a|v|e] st1]; auto.
Qed.

Lemma calls_of_app t1 t2 : calls_of (t1 ++ t2) = calls_of t1 ++ calls_of t2.
Proof. unfold calls_of. apply omap_app. Qed.

Lemma calls_of_no_call t :
  Forall (fun ev => is_call ev = false) t -> calls_of t = [].
Proof.
  induction 1 as [|ev t Hev _ IH]; [reflexivity|].
  destruct ev; [exact IH|discriminate].
Qed.

Lemma calls_of_googleads t :
  Forall (fun ev => cm360_call ev = false) t ->
  Forall (fun call => fst call = []) (calls_of t).
Proof.
  induction 1 as [|ev t Hev _ IH]; [constructor|].
  destruct ev as [lvl msg args|[|b bs] d]; [exact IH| |discriminate].
  constructor; [reflexivity|exact IH].
Qed.

Lemma calls_of_cm360 t :
  Forall (fun ev => googleads_call ev = false) t ->
  Forall (fun call => fst call <> []) (calls_of t).
Proof.
  induction 1 as [|ev t Hev _ IH]; [constructor|].
  destruct ev as [lvl msg args|[|b bs] d]; [exact IH|discriminate|].
  constructor; [discriminate|exact IH].
Qed.

Lemma no_call_prelude : accepts_prelude (fun ev => is_call ev = false).
Proof. repeat split. Qed.

Lemma no_call_region : accepts_region (fun ev => is_call ev = false).
Proof. repeat split. Qed.

Lemma no_bucket_googleads : accepts_googleads (fun ev => cm360_call ev = false).
Proof. repeat split. Qed.

Lemma bucket_cm360 : accepts_cm360 (fun ev => googleads_call ev = false).
Proof. repeat split. Qed.

Lemma order_no_call t : Forall (fun ev => is_call ev = false) t ->
  calls_in_order t.
Proof.
  intros H. exists [], []. rewrite (calls_of_no_call t H). auto.
Qed.

Lemma order_no_call_app t1 t2 :
  Forall (fun ev => is_call ev = false) t1 -> calls_in_order t2 ->
  calls_in_order (t1 ++ t2).
Proof.
  intros H (gs & cs & Hc & Hg & Hcs). exists gs, cs.
  rewrite calls_of_app, (calls_of_no_call t1 H). auto.
Qed.

Lemma order_googleads t :
  Forall (fun ev => cm360_call ev = false) t -> calls_in_order t.
Proof.
  intros H. exists (calls_of t), []. rewrite app_nil_r.
  auto using calls_of_googleads.
Qed.

Lemma order_cm360 t :
  Forall (fun ev => googleads_call ev = false) t -> calls_in_order t.
Proof.
  intros H. exists [], (calls_of t). auto using calls_of_cm360.
Qed.

Lemma order_googleads_cm360 t1 t2 t3 :
  Forall (fun ev => cm360_call ev = false) t1 ->
  Forall (fun ev => googleads_call ev = false) t2 ->
  Forall (fun ev => is_call ev = false) t3 ->
  calls_in_order (t1 ++ t2 ++ t3).
Proof.
  intros H1 H2 H3. exists (calls_of t1), (calls_of t2).
  rewrite !calls_of_app, (calls_of_no_call t3 H3), app_nil_r.
  auto using calls_of_googleads, calls_of_cm360.
Qed.

Lemma emits_validate c :
  emits c calls_in_order (validate validate_resources repr_container).
Proof.
  apply emits_call_function. unfold validate_body, validate_checks.
  apply emits_assoc.
  eapply (emits_bind c _ _ _ _ _ _ calls_in_order);
    [apply (triple_skip_if_disabled c _ (fun _ => True)); exact no_call_prelude
    | |apply order_no_call|intros; now apply order_no_call_app].
  intros ? Hdeploy. cbv beta. apply emits_assoc.
  eapply (emits_bind c _ _ _ _ _ _ calls_in_order);
    [apply (triple_load_marketing c _ (fun _ => True)); exact no_call_prelude
    | |apply order_no_call|intros; now apply order_no_call_app].
  intros m (Hm & Ht). cbv beta. apply emits_assoc.
  eapply (emits_bind c _ _ _ _ _ _ calls_in_order);
    [apply (triple_check_marketing_attrs c _ (fun _ => True) m);
     [exact no_call_prelude|auto]
    | |apply order_no_call|intros; now apply order_no_call_app].
  intros ? (md & -> & Hmissing). cbv beta. apply emits_assoc.
  eapply (emits_bind c _ _ _ _ _ _
            (fun evs => exists t2 t3,
                 evs = t2 ++ t3
                 /\ Forall (fun ev => googleads_call ev = false) t2
                 /\ Forall (fun ev => is_call ev = false) t3)
            calls_in_order);
    [apply triple_check_googleads; exact no_bucket_googleads
    | |apply order_googleads
    |intros e1 e2 H1 (t2 & t3 & -> & H2 & H3);
     now apply order_googleads_cm360].
  intros ? ?. cbv beta. apply emits_assoc.
  eapply (emits_bind c _ _ _ _ _ _
            (Forall (fun ev => is_call ev = false)));
    [apply triple_check_cm360; exact bucket_cm360
    | |intros e1 H1; exists e1, []; rewrite app_nil_r; auto
    |intros e1 e2 H1 H2; exists e1, e2; auto].
  intros ? ?. cbv beta.
  apply (emits_of_triple c _ (fun _ => True) (fun _ => True) (fun _ => True)).
  eapply triple_bind; [apply triple_ret_eq|]. intros ? ->.
  eapply triple_bind.
  { eapply triple_conseq;
      [apply triple_check_region; [exact no_call_region|exact Hmissing]
      |auto|intros ? Ha; exact Ha|auto|auto]. }
  intros ? ?. repeat tstep I; auto.
Qed.

(** *** Statements that do not depend on parts of the document *)

Local Abbreviation blind := (@ValidatorSpec.blind World _).

Lemma blind_stateless {A} c c' (m : M World A) :
  (exists o, forall st, m st = (o, st)) -> blind c c' m.
Proof. intros (o & Hm) st st' Hag. rewrite !Hm. auto. Qed.

Lemma blind_bind {A B} c c' (m : M World A) (k : A -> M World B) :
  blind c c' m -> (forall a, blind c c' (k a)) -> blind c c' (bind m k).
Proof.
  intros Hm Hk st st' Hag. destruct (Hm st st' Hag) as (Ho & Hag1).
  unfold bind. destruct (m st) as [o st1], (m st') as [o' st1'].
  simpl in Ho, Hag1. subst o'. destruct o as [a|v|e]; [|auto|auto].
  now apply Hk.
Qed.

Lemma blind_emit c c' ev : blind c c' (emit ev).
Proof.
  intros st st' (Hc & Hc' & Hw & Ht). unfold emit. cbn [fst snd].
  split; [reflexivity|]. unfold agree. cbn [cfg world trace].
  rewrite Ht. auto.
Qed.

Lemma blind_call c c' buckets datasets :
  blind c c' (call_validate_resources validate_resources buckets datasets).
Proof.
  intros st st' (Hc & Hc' & Hw & Ht). unfold call_validate_resources.
  rewrite <- Hw, <- Ht.
  destruct (validate_resources buckets datasets (world st)) as [[v|e] w'];
    cbn [fst snd cfg world trace]; unfold agree; cbn [cfg world trace]; auto.
Qed.

Lemma blind_try {A} c c' (body : M World A) handler :
  blind c c' body ->
  (forall e h, handler e = Some h -> blind c c' h) ->
  blind c c' (try_except body handler).
Proof.
  intros Hb Hh st st' Hag. destruct (Hb st st' Hag) as (Ho & Hag1).
  unfold try_except. destruct (body st) as [o st1], (body st') as [o' st1'].
  simpl in Ho, Hag1. subst o'. destruct o as [a|v|e]; [auto|auto|].
  destruct (handler e) as [h|] eqn:He; [|auto]. now apply (Hh e h He).
Qed.

Lemma blind_call_function c c' (body : M World unit) :
  blind c c' body -> blind c c' (call_function body).
Proof.
  intros Hb st st' Hag. destruct (Hb st st' Hag) as (Ho & Hag1).
  unfold call_function. destruct (body st) as [o st1], (body st') as [o' st1'].
  simpl in Ho, Hag1. subst o'. destruct o; auto.
Qed.

Lemma stateless_py_get obj key dflt :
  exists o, forall st, @py_get World obj key dflt st = (o, st).
Proof. destruct obj; eexists; reflexivity. Qed.

Lemma stateless_py_getitem obj key :
  exists o, forall st, @py_getitem World obj key st = (o, st).
Proof.
  destruct obj; try (eexists; reflexivity).
  simpl. destruct (d !! key); eexists; reflexivity.
Qed.

Lemma stateless_collect_missing obj attrs acc :
  exists o, forall st, @collect_missing World obj attrs acc st = (o, st).
Proof.
  destruct attrs as [|attr rest]; [eexists; reflexivity|].
  destruct (is_dict obj) eqn:Hd.
  - destruct obj; try discriminate. eexists. intros st.
    apply collect_missing_dict.
  - eexists. intros st. now apply collect_missing_not_dict.
Qed.

(** The document is read at a key on which [c] and [c'] agree. *)
Lemma blind_root_read {B} c c' key (rest : pyval -> M World B) :
  c !! key = c' !! key ->
  (forall v, blind c c' (rest v)) ->
  blind c c' (bind load_cfg (fun x => bind (py_getitem x key) rest)).
Proof.
  intros Hkey Hrest st st' Hag. pose proof Hag as (Hc & Hc' & Hw & Ht).
  assert (forall s, bind load_cfg (fun x => bind (py_getitem x key) rest) s
                    = bind (py_getitem (VDict (cfg s)) key) rest s) as Hload
    by reflexivity.
  rewrite !Hload, Hc, Hc'.
  destruct (c !! key) as [v|] eqn:Hk; symmetry in Hkey.
  - rewrite (bind_run_normal _ _ _ _ _ (py_getitem_some c key v st Hk)).
    rewrite (bind_run_normal _ _ _ _ _ (py_getitem_some c' key v st' Hkey)).
    now apply Hrest.
  - rewrite (bind_run_raised _ _ _ _ _ (py_getitem_none c key st Hk)).
    rewrite (bind_run_raised _ _ _ _ _ (py_getitem_none c' key st' Hkey)).
    auto.
Qed.

(** The document is read at [marketing], and what is read there at a key
    on which the two marketing mappings agree. *)
Lemma blind_marketing_read {B} c c' md md' key (rest : pyval -> M World B) :
  c !! "marketing" = Some (VDict md) ->
  c' !! "marketing" = Some (VDict md') ->
  md !! key = md' !! key ->
  (forall v, blind c c' (rest v)) ->
  blind c c'
    (bind load_cfg
       (fun x => bind (py_getitem x "marketing")
                   (fun marketing => bind (py_getitem marketing key) rest))).
Proof.
  intros Hmk Hmk' Hkey Hrest st st' Hag. pose proof Hag as (Hc & Hc' & Hw & Ht).
  assert (forall s,
             bind load_cfg
               (fun x => bind (py_getitem x "marketing")
                           (fun marketing =>
                              bind (py_getitem marketing key) rest)) s
             = bind (py_getitem (VDict (cfg s)) "marketing")
                 (fun marketing => bind (py_getitem marketing key) rest) s)
    as Hload by reflexivity.
  rewrite !Hload, Hc, Hc'.
  rewrite (bind_run_normal _ _ _ _ _ (py_getitem_some c _ _ st Hmk)).
  rewrite (bind_run_normal _ _ _ _ _ (py_getitem_some c' _ _ st' Hmk')).
  destruct (md !! key) as [v|] eqn:Hk; symmetry in Hkey.
  - rewrite (bind_run_normal _ _ _ _ _ (py_getitem_some md key v st Hk)).
    rewrite (bind_run_normal _ _ _ _ _ (py_getitem_some md' key v st' Hkey)).
    now apply Hrest.
  - rewrite (bind_run_raised _ _ _ _ _ (py_getitem_none md key st Hk)).
    rewrite (bind_run_raised _ _ _ _ _ (py_getitem_none md' key st' Hkey)).
    auto.
Qed.

Ltac bstep :=
  unfold logging_info, logging_error, logging_error_exn;
  lazymatch goal with
  | |- @ValidatorSpec.blind _ _ _ _ ?m =>
      lazymatch m with
      | bind load_cfg
          (fun x => bind (py_getitem x "marketing")
                      (fun y => bind (py_getitem y _) _)) =>
          eapply blind_marketing_read; [eassumption|eassumption|eassumption|intros ?]
      | bind load_cfg (fun x => bind (py_getitem x _) _) =>
          apply blind_root_read; [assumption|intros ?]
      | bind (emit _) _ => apply blind_bind; [apply blind_emit|intros ?]
      | bind (py_getitem _ _) _ =>
          apply blind_bind;
          [apply blind_stateless, stateless_py_getitem|intros ?]
      | bind (py_get _ _ _) _ =>
          apply blind_bind; [apply blind_stateless, stateless_py_get|intros ?]
      | bind (collect_missing _ _ _) _ =>
          apply blind_bind;
          [apply blind_stateless, stateless_collect_missing|intros ?]
      | bind (call_validate_resources _ _ _) _ =>
          apply blind_bind; [apply blind_call|intros ?]
      | bind (ret _) _ =>
          apply blind_bind; [apply blind_stateless; eexists; reflexivity|intros ?]
      | bind (raise _) _ =>
          apply blind_bind; [apply blind_stateless; eexists; reflexivity|intros ?]
      | bind (if ?b then _ else _) _ => destruct b
      | (if ?b then _ else _) => destruct b
      | emit _ => apply blind_emit
      | ret _ => apply blind_stateless; eexists; reflexivity
      | raise _ => apply blind_stateless; eexists; reflexivity
      | return_ _ => apply blind_stateless; eexists; reflexivity
      end
  end.

Lemma blind_dataset_constraints c c' source target location datasets :
  blind c c'
    (dataset_constraints repr_container source target location datasets).
Proof. unfold dataset_constraints. repeat bstep. Qed.

Lemma blind_validate_googleads c c' md md' :
  c !! "marketing" = Some (VDict md) ->
  c' !! "marketing" = Some (VDict md') ->
  md !! "GoogleAds" = md' !! "GoogleAds" ->
  c !! "projectIdSource" = c' !! "projectIdSource" ->
  c !! "projectIdTarget" = c' !! "projectIdTarget" ->
  c !! "location" = c' !! "location" ->
  blind c c' (_validate_googleads validate_resources repr_container).
Proof.
  intros Hmk Hmk' Hg Hsrc Htgt Hloc.
  unfold _validate_googleads. apply blind_call_function.
  unfold _validate_googleads_body.
  repeat bstep.
  all: apply blind_bind; [apply blind_dataset_constraints|intros ?].
  all: repeat bstep.
Qed.

(** *** Empty and absent mappings *)

Lemma truthy_empty_dict : truthy (VDict ∅) = false.
Proof. simpl. now rewrite map_size_empty. Qed.

Lemma lookup_some_truthy md key v :
  md !! key = Some v -> truthy (VDict md) = true.
Proof.
  intros Hv. simpl. apply negb_true_iff, Nat.eqb_neq. intros Hsize.
  apply map_size_empty_iff in Hsize. subst md.
  rewrite lookup_empty in Hv. discriminate.
Qed.

Lemma truthy_entry_lookup md key :
  truthy (entry md key) = true -> md !! key = Some (entry md key).
Proof.
  unfold entry. destruct (md !! key); [reflexivity|discriminate].
Qed.

Lemma entry_delete_ne md key key' :
  key <> key' -> entry (delete key md) key' = entry md key'.
Proof. intros Hne. unfold entry. now rewrite lookup_delete_ne. Qed.

Lemma entry_delete_eq md key : entry (delete key md) key = VNone.
Proof. unfold entry. now rewrite lookup_delete_eq. Qed.

Lemma missing_in_delete md key attrs :
  ~ In key attrs -> missing_in (delete key md) attrs = missing_in md attrs.
Proof.
  intros Hnin. unfold missing_in. apply filter_ext_in.
  intros a Ha. unfold absent. rewrite lookup_delete_ne; [reflexivity|].
  intros ->. contradiction.
Qed.

Lemma load_marketing_falsy c w t :
  truthy (entry c "marketing") = false ->
  load_marketing (mkState c w t)
  = (Returned VNone,
     mkState c w
       ((t ++ [Log INFO (Msg "Validating 'marketing' configuration...") []])
        ++ [Log ERROR
              (Msg "🛑 Missing 'marketing' values in the config file. 🛑") []])).
Proof.
  intros Hf. unfold load_marketing. repeat run_bind.
  cbn [cfg]. fold (entry c "marketing"). rewrite Hf. reflexivity.
Qed.

Lemma run_validate_marketing_falsy c w :
  truthy (default (VBool false) (c !! "deployMarketing")) = true ->
  truthy (entry c "marketing") = false ->
  run_validate validate_resources repr_container c w
  = (Normal VNone,
     mkState c w
       [Log INFO (Msg "Validating 'marketing' configuration...") [];
        Log ERROR
          (Msg "🛑 Missing 'marketing' values in the config file. 🛑") []]).
Proof.
  intros Hd Hf.
  unfold run_validate, validate, call_function, validate_body,
    validate_checks, initial.
  rewrite bind_assoc_run.
  rewrite (bind_run_normal _ _ _ _ _ (skip_if_disabled_pass c w [] Hd)).
  rewrite bind_assoc_run.
  rewrite (bind_run_returned _ _ _ _ _ (load_marketing_falsy c w [] Hf)).
  reflexivity.
Qed.

(** With the sub-mapping of an enabled sub-module falsy, the body of
    [validate] ends at that sub-module's block. *)
Lemma after_attrs_googleads_missing md st :
  truthy (entry md "deployGoogleAds") = true ->
  truthy (entry md "GoogleAds") = false ->
  after_attrs validate_resources repr_container (VDict md) st
  = (Returned VNone,
     mkState (cfg st) (world st)
       (trace st
        ++ [Log ERROR
              (Msg "🛑 Missing 'marketing' 'GoogleAds' attribute in the config file. 🛑")
              []])).
Proof.
  intros Hd Hg. unfold after_attrs. rewrite bind_assoc_run.
  now rewrite (bind_run_returned _ _ _ _ _
                 (check_googleads_missing md st Hd Hg)).
Qed.

Lemma after_attrs_cm360_missing md st :
  truthy (entry md "deployCM360") = true ->
  truthy (entry md "CM360") = false ->
  after_attrs validate_resources repr_container (VDict md) st
  = match check_googleads validate_resources repr_container (VDict md) st with
    | (Normal _, st1) =>
        (Returned VNone,
         mkState (cfg st1) (world st1)
           (trace st1
            ++ [Log ERROR
                  (Msg "🛑 Missing 'marketing' 'CM360' attribute in the config file. 🛑")
                  []]))
    | (Returned v, st1) => (Returned v, st1)
    | (Raised e, st1) => (Raised e, st1)
    end.
Proof.
  intros Hd Hg. unfold after_attrs. rewrite bind_assoc_run.
  unfold bind at 1.
  destruct (check_googleads validate_resources repr_container (VDict md) st)
    as [[[]|v|e] st1]; try reflexivity.
  rewrite bind_assoc_run.
  now rewrite (bind_run_returned _ _ _ _ _
                 (check_cm360_missing md st1 Hd Hg)).
Qed.

(** The GoogleAds block cannot tell two documents apart that agree on what
    it reads. *)
Lemma check_googleads_agree c c' md md' st st' :
  c !! "marketing" = Some (VDict md) ->
  c' !! "marketing" = Some (VDict md') ->
  md !! "deployGoogleAds" = md' !! "deployGoogleAds" ->
  md !! "GoogleAds" = md' !! "GoogleAds" ->
  c !! "projectIdSource" = c' !! "projectIdSource" ->
  c !! "projectIdTarget" = c' !! "projectIdTarget" ->
  c !! "location" = c' !! "location" ->
  agree c c' st st' ->
  fst (check_googleads validate_resources repr_container (VDict md) st)
  = fst (check_googleads validate_resources repr_container (VDict md') st')
  /\ agree c c'
       (snd (check_googleads validate_resources repr_container (VDict md) st))
       (snd (check_googleads validate_resources repr_container (VDict md') st')).
Proof.
  intros Hmk Hmk' Hflag Hg Hsrc Htgt Hloc Hag.
  assert (entry md' "deployGoogleAds" = entry md "deployGoogleAds") as Hflag'
    by (unfold entry; now rewrite Hflag).
  assert (entry md' "GoogleAds" = entry md "GoogleAds") as Hg'
    by (unfold entry; now rewrite Hg).
  destruct (truthy (entry md "deployGoogleAds")) eqn:Hd.
  - destruct (truthy (entry md "GoogleAds")) eqn:Hsub.
    + rewrite !check_googleads_enabled; try congruence.
      destruct (blind_validate_googleads c c' md md' Hmk Hmk' Hg Hsrc Htgt Hloc
                  st st' Hag) as (Ho & Hag1).
      destruct (_validate_googleads validate_resources repr_container st)
        as [o st1],
        (_validate_googleads validate_resources repr_container st')
        as [o' st1'].
      simpl in Ho, Hag1. subst o'. unfold guarded.
      destruct o as [a|v|e]; [auto|auto|].
      destruct Hag1 as (Hc & Hc' & Hw & Ht).
      destruct e; cbn [handled fst snd]; unfold agree; cbn [cfg world trace];
        rewrite ?Ht; auto.
    + rewrite !check_googleads_missing; try congruence.
      destruct Hag as (Hc & Hc' & Hw & Ht).
      cbn [fst snd]. unfold agree. cbn [cfg world trace]. rewrite Ht. auto.
  - rewrite !check_googleads_disabled; try congruence. auto.
Qed.

Lemma run_validate_skip c w :
  truthy (default (VBool false) (c !! "deployMarketing")) = false ->
  run_validate validate_resources repr_container c w
  = (Normal (VDict c),
     mkState c w
       [Log INFO
          (Msg "'marketing' is not being deployed. Skipping validation.")
          []]).
Proof.
  intros Hd.
  unfold run_validate, validate, call_function, validate_body,
    validate_checks, initial.
  erewrite (bind_run_returned (bind _ _)) by
    (apply bind_run_returned; now apply skip_if_disabled_run).
  reflexivity.
Qed.

Lemma absent_spec md attr :
  absent md attr = true
  <-> md !! attr = None \/ md !! attr = Some VNone
      \/ md !! attr = Some (VStr "").
Proof.
  unfold absent. split.
  - destruct (md !! attr) as [v|]; [|auto].
    destruct v; try discriminate; auto.
    simpl. intros Hs. apply String.eqb_eq in Hs. subst. auto.
  - intros [-> |[-> | ->]]; reflexivity.
Qed.

(** *** The claims about the outcome of [validate] *)

(** C8: a run of [validate] leaves the configuration document as it was;
    what it returns is the rejection signal [None] or the original document
    itself; and when [deployMarketing] is false, absent or otherwise falsy
    it returns the document after one log record, with no call of the
    collaborator and the world untouched. *)
Theorem validate_leaves_config c w :
  cfg (snd (run_validate validate_resources repr_container c w)) = c
  /\ (forall v,
        fst (run_validate validate_resources repr_container c w) = Normal v ->
        v = VNone \/ v = VDict c)
  /\ (truthy (default (VBool false) (c !! "deployMarketing")) = false ->
      run_validate validate_resources repr_container c w
      = (Normal (VDict c),
         mkState c w
           [Log INFO
              (Msg "'marketing' is not being deployed. Skipping validation.")
              []])
      /\ calls_of
           (trace (snd (run_validate validate_resources repr_container c w)))
         = []).
Proof.
  destruct accepts_any as (HP & HG & HC & HR).
  destruct (triple_validate c any_event HP HG HC HR (initial c w) eq_refl)
    as (w' & evs & Hs & _ & Ho).
  fold (run_validate validate_resources repr_container c w) in Hs, Ho.
  split; [now rewrite Hs|]. split.
  - intros v Hv. rewrite Hv in Ho. exact Ho.
  - intros Hd.
    assert (run_validate validate_resources repr_container c w
            = (Normal (VDict c),
               mkState c w
                 [Log INFO
                    (Msg "'marketing' is not being deployed. Skipping validation.")
                    []])) as Hrun.
    { unfold run_validate, validate, call_function, validate_body,
        validate_checks, initial.
      erewrite (bind_run_returned (bind _ _)) by
        (apply bind_run_returned; now apply skip_if_disabled_run).
      reflexivity. }
    split; [exact Hrun|]. now rewrite Hrun.
Qed.

(** C1, amended: on a document whose [marketing] value is a mapping or
    falsy, whose [dataflowRegion] is a string where it is present and not
    [None], and whose [location] is a string, and with a collaborator that
    throws nothing outside [Exception], [validate] does not raise: it
    returns the original document or [None], also when the collaborator
    throws. *)
Theorem validate_never_raises c w :
  marketing_is_mapping c = true ->
  region_is_string c = true ->
  location_is_string c = true ->
  (forall b d w' e,
      fst (validate_resources b d w') = Throws e -> is_Exception e = true) ->
  fst (run_validate validate_resources repr_container c w) = Normal VNone
  \/ fst (run_validate validate_resources repr_container c w)
     = Normal (VDict c).
Proof.
  intros Hmk Hreg Hloc Hcoll.
  destruct accepts_any as (HP & HG & HC & HR).
  destruct (triple_validate c any_event HP HG HC HR (initial c w) eq_refl)
    as (w' & evs & _ & _ & Ho).
  fold (run_validate validate_resources repr_container c w) in Ho.
  destruct (fst (run_validate validate_resources repr_container c w))
    as [v|v|e].
  - destruct Ho as [->| ->]; auto.
  - destruct Ho.
  - exfalso. destruct Ho as [(-> & v & Hv & Ht & Hd)|[(He & b & d & w0 & Hth)|Hr]].
    + unfold marketing_is_mapping in Hmk. rewrite Hv, Ht, Hd in Hmk.
      discriminate.
    + rewrite (Hcoll _ _ _ _ Hth) in He. discriminate.
    + destruct Hr as (md & Hmd & Hesc).
      unfold region_is_string in Hreg. rewrite Hmd in Hreg.
      unfold location_is_string in Hloc.
      destruct Hesc as [(_ & v & Hv & Hs & Hn)|[(_ & Hl)|(_ & v & Hv & Hs)]].
      * rewrite Hv, Hs, Hn in Hreg. discriminate.
      * rewrite Hl in Hloc. discriminate.
      * rewrite Hv, Hs in Hloc. discriminate.
Qed.

(** C2, amended: when validation reaches the region check with
    [dataflowRegion] "us-central1", it passes for the location "US" as it
    does for the location "us": both are compared in lower case, and
    [validate] returns the document. *)
Theorem region_us_central1_passes c w m st1 md l :
  validate_checks validate_resources repr_container (initial c w)
  = (Normal m, st1) ->
  c !! "marketing" = Some (VDict md) ->
  md !! "dataflowRegion" = Some (VStr "us-central1") ->
  c !! "location" = Some (VStr l) ->
  l = "US" \/ l = "us" ->
  run_validate validate_resources repr_container c w
  = (Normal (VDict c),
     mkState c (world st1)
       (trace st1
        ++ [Log INFO
              (Msg "✅ 'marketing' config validated successfully. Looks good.")
              []])).
Proof.
  intros Hrun Hmk Hr Hl Hcase.
  rewrite (run_validate_after_checks _ _ _ _ _ _ _ Hrun Hmk Hr Hl).
  destruct Hcase as [-> | ->]; reflexivity.
Qed.

(** C3: once the marketing-level check and every enabled sub-module
    validation are through, [validate] compares the lower-cased
    [dataflowRegion] with the lower-cased [location] and returns [None]
    exactly when the region is neither the location nor the location
    followed by a dash and more; otherwise it returns the document.  When
    an earlier check has returned or raised, the run ends there, with no
    region check. *)
Theorem region_check_after_submodules c w o st1 :
  validate_checks validate_resources repr_container (initial c w) = (o, st1) ->
  match o with
  | Normal _ =>
      forall md r l,
        c !! "marketing" = Some (VDict md) ->
        md !! "dataflowRegion" = Some (VStr r) ->
        c !! "location" = Some (VStr l) ->
        (fst (run_validate validate_resources repr_container c w) = Normal VNone
         <-> ~ region_contained r l)
        /\ (~ region_contained r l ->
            run_validate validate_resources repr_container c w
            = (Normal VNone,
               mkState c (world st1)
                 (trace st1
                  ++ [Log ERROR (Msg invalid_region_msg) [VStr r; VStr l]])))
        /\ (region_contained r l ->
            run_validate validate_resources repr_container c w
            = (Normal (VDict c),
               mkState c (world st1)
                 (trace st1
                  ++ [Log INFO
                        (Msg "✅ 'marketing' config validated successfully. Looks good.")
                        []])))
  | Returned v =>
      run_validate validate_resources repr_container c w = (Normal v, st1)
  | Raised e =>
      run_validate validate_resources repr_container c w = (Raised e, st1)
  end.
Proof.
  intros Hrun. destruct o as [m|v|e].
  - intros md r l Hmk Hr Hl.
    rewrite (run_validate_after_checks _ _ _ _ _ _ _ Hrun Hmk Hr Hl).
    pose proof (region_rejected_spec r l) as Hspec.
    destruct (region_rejected r l); simpl.
    + assert (~ region_contained r l) as Hnot
        by (intros Hc; apply Hspec in Hc; discriminate).
      split; [tauto|]. split; [reflexivity|tauto].
    + assert (region_contained r l) as Hin by now apply Hspec.
      split; [|split; [tauto|reflexivity]].
      split; [discriminate|tauto].
  - apply (run_validate_checks_stop _ _ _ _ Hrun). discriminate.
  - apply (run_validate_checks_stop _ _ _ _ Hrun). discriminate.
Qed.

(** C5: with [deployMarketing] on and a marketing mapping in place,
    [validate] checks [deployGoogleAds], [deployCM360] and [dataflowRegion]
    as a batch: the list it collects holds exactly the attributes among the
    three that have no entry, are [None] or are the empty string; when the
    list is not empty the run is rejected and its diagnostic carries that
    list; when it is empty no such diagnostic is logged. *)
Theorem marketing_attrs_batch c w md :
  truthy (default (VBool false) (c !! "deployMarketing")) = true ->
  c !! "marketing" = Some (VDict md) ->
  truthy (VDict md) = true ->
  (forall attr,
      In attr (missing_in md marketing_attrs)
      <-> In attr marketing_attrs
          /\ (md !! attr = None \/ md !! attr = Some VNone
              \/ md !! attr = Some (VStr "")))
  /\ (missing_in md marketing_attrs <> [] ->
      run_validate validate_resources repr_container c w
      = (Normal VNone,
         mkState c w
           [Log INFO (Msg "Validating 'marketing' configuration...") [];
            Log ERROR (Msg missing_marketing_msg)
              [VList (map VStr (missing_in md marketing_attrs))]]))
  /\ (missing_in md marketing_attrs = [] ->
      Forall (fun ev => missing_marketing_log ev = false)
        (trace (snd (run_validate validate_resources repr_container c w)))).
Proof.
  intros Hd Hmk Ht. split; [|split].
  - intros attr. unfold missing_in. rewrite filter_In. unfold absent.
    split.
    + intros (Hin & Ha). split; [exact Hin|].
      destruct (md !! attr) as [v|]; [|auto].
      destruct v; try discriminate; auto.
      simpl in Ha. apply String.eqb_eq in Ha. subst. auto.
    + intros (Hin & [-> |[-> | ->]]); auto.
  - intros Hne. unfold run_validate, validate, call_function.
    rewrite (validate_body_prelude c w md Hd Hmk Ht).
    destruct (missing_in md marketing_attrs); [congruence|reflexivity].
  - intros Hnil.
    assert (accepts_googleads (fun ev => missing_marketing_log ev = false))
      as HG by (repeat split).
    assert (accepts_cm360 (fun ev => missing_marketing_log ev = false))
      as HC by (repeat split).
    assert (accepts_region (fun ev => missing_marketing_log ev = false))
      as HR by (repeat split).
    unfold run_validate, validate, call_function.
    rewrite (validate_body_prelude c w md Hd Hmk Ht). rewrite Hnil.
    cbn [nonempty].
    set (st0 := mkState c w
                  [Log INFO (Msg "Validating 'marketing' configuration...") []]).
    destruct (triple_after_attrs c _ md HG HC HR Hnil st0 eq_refl)
      as (w' & evs & Hs & Hevs & _).
    destruct (after_attrs validate_resources repr_container (VDict md) st0)
      as [o st'].
    simpl in Hs. subst st'.
    assert (Forall (fun ev => missing_marketing_log ev = false)
              ([Log INFO (Msg "Validating 'marketing' configuration...") []]
               ++ evs)) as Hall
      by (apply Forall_app; split; [repeat constructor|exact Hevs]).
    destruct o; exact Hall.
Qed.

(** C4: in every run the collaborator calls of the GoogleAds part (those
    without a bucket) all come before those of the CM360 part; and when
    GoogleAds is enabled and its validation fails, by a missing or empty
    sub-mapping, by missing or empty attributes, or by anything the
    validator raises within [Exception] (a failed resource check among
    them), [validate] returns [None] and the trace holds no event of the
    CM360 part: no log record of it and no call with a bucket. *)
Theorem googleads_failure_is_final c w :
  calls_in_order
    (trace (snd (run_validate validate_resources repr_container c w)))
  /\ (forall md,
        truthy (default (VBool false) (c !! "deployMarketing")) = true ->
        c !! "marketing" = Some (VDict md) ->
        missing_in md marketing_attrs = [] ->
        truthy (entry md "deployGoogleAds") = true ->
        truthy (entry md "GoogleAds") = false
        \/ (exists g, md !! "GoogleAds" = Some (VDict g)
                      /\ missing_in g googleads_attrs <> [])
        \/ (exists e st2,
               _validate_googleads validate_resources repr_container
                 (mkState c w
                    [Log INFO (Msg "Validating 'marketing' configuration...")
                       []])
               = (Raised e, st2)
               /\ is_Exception e = true) ->
        fst (run_validate validate_resources repr_container c w)
        = Normal VNone
        /\ Forall (fun ev => cm360_event ev = false)
             (trace (snd (run_validate validate_resources repr_container c w)))).
Proof.
  split.
  - destruct (emits_validate c (initial c w) eq_refl) as (evs & Htr & Hord).
    unfold run_validate. rewrite Htr. exact Hord.
  - intros md Hd Hmk Hmissing Hflag Hfail.
    pose proof (missing_in_nil_truthy _ _ _ Hmissing) as Ht.
    unfold run_validate, validate, call_function.
    rewrite (validate_body_prelude c w md Hd Hmk Ht), Hmissing.
    cbn [nonempty].
    destruct (after_attrs_googleads_fails c w
                [Log INFO (Msg "Validating 'marketing' configuration...") []]
                md) as (st' & Hrun & Hclean).
    + now repeat constructor.
    + exact Hflag.
    + destruct Hfail as [Hg|[(g & Hg & Hmg)|Hraised]]; [now left| |now right].
      right. eexists _, _. split.
      * now apply (validate_googleads_missing_attrs c w _ md g).
      * reflexivity.
    + rewrite Hrun. split; [reflexivity|exact Hclean].
Qed.

(** C6: when the attribute checks of a sub-module pass, its validator
    hands the collaborator, in one call, exactly the dataset constraints
    [projectIdSource.raw] and [projectIdSource.cdc] (must exist, access
    checked) and [projectIdTarget.reporting] (need not exist, access
    checked), all with the configured location, and for CM360 also one
    bucket constraint for [dataTransferBucket] (must exist); a falsy reply
    makes [validate] reject at that sub-module. *)
Theorem submodule_constraints c w t md src tgt loc :
  c !! "marketing" = Some (VDict md) ->
  c !! "projectIdSource" = Some src ->
  c !! "projectIdTarget" = Some tgt ->
  c !! "location" = Some loc ->
  (forall g ds,
      md !! "GoogleAds" = Some (VDict g) ->
      missing_in g googleads_attrs = [] ->
      g !! "datasets" = Some (VDict ds) ->
      missing_in ds datasets_attrs = [] ->
      let datasets := expected_datasets repr_container src tgt loc ds in
      _validate_googleads validate_resources repr_container (mkState c w t)
      = resource_outcome c t "Validating configuration for GoogleAds..." []
          datasets (validate_resources [] datasets w)
      /\ (forall v w',
             truthy (entry md "deployGoogleAds") = true ->
             validate_resources [] datasets w = (Returns v, w') ->
             truthy v = false ->
             check_googleads validate_resources repr_container (VDict md)
               (mkState c w t)
             = (Returned VNone,
                mkState c w'
                  ((t ++ [Log INFO
                            (Msg "Validating configuration for GoogleAds...")
                            [];
                          Call [] datasets])
                   ++ [Log ERROR
                         (Msg "🛑 GoogleAds config validation failed: %s 🛑")
                         [VStr "Resource validation failed."]]))))
  /\ (forall cm ds,
        md !! "CM360" = Some (VDict cm) ->
        missing_in cm cm360_attrs = [] ->
        cm !! "datasets" = Some (VDict ds) ->
        missing_in ds datasets_attrs = [] ->
        let buckets := expected_buckets loc cm in
        let datasets := expected_datasets repr_container src tgt loc ds in
        _validate_cm360 validate_resources repr_container (mkState c w t)
        = resource_outcome c t "Validating Config file for CM360..." buckets
            datasets (validate_resources buckets datasets w)
        /\ (forall v w',
               truthy (entry md "deployCM360") = true ->
               validate_resources buckets datasets w = (Returns v, w') ->
               truthy v = false ->
               check_cm360 validate_resources repr_container (VDict md)
                 (mkState c w t)
               = (Returned VNone,
                  mkState c w'
                    ((t ++ [Log INFO
                              (Msg "Validating Config file for CM360...") [];
                            Call buckets datasets])
                     ++ [Log ERROR
                           (Msg "🛑 CM360 config validation failed: %s 🛑")
                           [VStr "Resource validation failed."]])))).
Proof.
  intros Hmk Hsrc Htgt Hloc. split.
  - intros g ds Hg Hmg Hds Hmds datasets.
    pose proof (validate_googleads_run c w t md g ds src tgt loc
                  Hmk Hg Hmg Hds Hmds Hsrc Htgt Hloc) as Hrun.
    split; [exact Hrun|].
    intros v w' Hflag Hreply Hfalsy.
    rewrite check_googleads_enabled; [|exact Hflag|].
    + rewrite Hrun. fold datasets. rewrite Hreply.
      unfold resource_outcome. rewrite Hfalsy. reflexivity.
    + unfold entry. rewrite Hg. cbn [default from_option id].
      now apply (missing_in_nil_truthy g _ _ Hmg).
  - intros cm ds Hcm Hmcm Hds Hmds buckets datasets.
    pose proof (validate_cm360_run c w t md cm ds src tgt loc
                  Hmk Hcm Hmcm Hds Hmds Hsrc Htgt Hloc) as Hrun.
    split; [exact Hrun|].
    intros v w' Hflag Hreply Hfalsy.
    rewrite check_cm360_enabled; [|exact Hflag|].
    + rewrite Hrun. fold buckets datasets. rewrite Hreply.
      unfold resource_outcome. rewrite Hfalsy. reflexivity.
    + unfold entry. rewrite Hcm. cbn [default from_option id].
      now apply (missing_in_nil_truthy cm _ _ Hmcm).
Qed.

(** C9: the presence checks go by truthiness.  With [deployMarketing] on,
    a document that binds [marketing] to an empty mapping is rejected, and
    a run on it shows the outside the same outcome, world and trace as a
    run on the document without [marketing]; the same holds for an empty
    [GoogleAds] or [CM360] sub-mapping of an enabled sub-module against the
    marketing mapping without that key. *)
Theorem empty_mapping_as_absent c w :
  truthy (default (VBool false) (c !! "deployMarketing")) = true ->
  (c !! "marketing" = Some (VDict ∅) ->
   fst (run_validate validate_resources repr_container c w) = Normal VNone
   /\ observed (run_validate validate_resources repr_container c w)
      = observed (run_validate validate_resources repr_container
                    (delete "marketing" c) w))
  /\ (forall md,
        c !! "marketing" = Some (VDict md) ->
        truthy (entry md "deployGoogleAds") = true ->
        md !! "GoogleAds" = Some (VDict ∅) ->
        fst (run_validate validate_resources repr_container c w)
        = Normal VNone
        /\ observed (run_validate validate_resources repr_container c w)
           = observed (run_validate validate_resources repr_container
                         (<["marketing" := VDict (delete "GoogleAds" md)]> c)
                         w))
  /\ (forall md,
        c !! "marketing" = Some (VDict md) ->
        truthy (entry md "deployCM360") = true ->
        md !! "CM360" = Some (VDict ∅) ->
        (forall v,
            fst (run_validate validate_resources repr_container c w)
            = Normal v -> v = VNone)
        /\ observed (run_validate validate_resources repr_container c w)
           = observed (run_validate validate_resources repr_container
                         (<["marketing" := VDict (delete "CM360" md)]> c) w)).
Proof.
  intros Hd. split; [|split].
  - intros Hmk.
    assert (truthy (entry c "marketing") = false) as Hf
      by (unfold entry; rewrite Hmk; apply truthy_empty_dict).
    rewrite (run_validate_marketing_falsy c w Hd Hf).
    rewrite (run_validate_marketing_falsy (delete "marketing" c) w).
    + split; reflexivity.
    + now rewrite lookup_delete_ne.
    + now rewrite entry_delete_eq.
  - intros md Hmk Hflag Hg.
    set (md' := delete "GoogleAds" md).
    set (c' := <["marketing" := VDict md']> c).
    assert (truthy (VDict md) = true) as Ht by (eapply lookup_some_truthy; eauto).
    assert (truthy (VDict md') = true) as Ht'.
    { apply (lookup_some_truthy md' "deployGoogleAds" (entry md "deployGoogleAds")).
      unfold md'. rewrite lookup_delete_ne; [|done].
      now apply truthy_entry_lookup. }
    assert (truthy (default (VBool false) (c' !! "deployMarketing")) = true)
      as Hd' by (unfold c'; now rewrite lookup_insert_ne).
    assert (c' !! "marketing" = Some (VDict md')) as Hmk'
      by (unfold c'; now rewrite lookup_insert_eq).
    assert (missing_in md' marketing_attrs = missing_in md marketing_attrs)
      as Hmiss.
    { apply missing_in_delete. simpl. intuition discriminate. }
    assert (truthy (entry md "GoogleAds") = false) as Hsub
      by (unfold entry; rewrite Hg; apply truthy_empty_dict).
    assert (truthy (entry md' "GoogleAds") = false) as Hsub'
      by (unfold md'; now rewrite entry_delete_eq).
    assert (truthy (entry md' "deployGoogleAds") = true) as Hflag'
      by (unfold md'; now rewrite entry_delete_ne).
    unfold run_validate, validate, call_function.
    rewrite (validate_body_prelude c w md Hd Hmk Ht).
    rewrite (validate_body_prelude c' w md' Hd' Hmk' Ht').
    rewrite Hmiss.
    destruct (nonempty (missing_in md marketing_attrs)).
    + split; reflexivity.
    + rewrite (after_attrs_googleads_missing md _ Hflag Hsub).
      rewrite (after_attrs_googleads_missing md' _ Hflag' Hsub').
      split; reflexivity.
  - intros md Hmk Hflag Hg.
    set (md' := delete "CM360" md).
    set (c' := <["marketing" := VDict md']> c).
    assert (truthy (VDict md) = true) as Ht by (eapply lookup_some_truthy; eauto).
    assert (truthy (VDict md') = true) as Ht'.
    { apply (lookup_some_truthy md' "deployCM360" (entry md "deployCM360")).
      unfold md'. rewrite lookup_delete_ne; [|done].
      now apply truthy_entry_lookup. }
    assert (truthy (default (VBool false) (c' !! "deployMarketing")) = true)
      as Hd' by (unfold c'; now rewrite lookup_insert_ne).
    assert (c' !! "marketing" = Some (VDict md')) as Hmk'
      by (unfold c'; now rewrite lookup_insert_eq).
    assert (missing_in md' marketing_attrs = missing_in md marketing_attrs)
      as Hmiss.
    { apply missing_in_delete. simpl. intuition discriminate. }
    assert (truthy (entry md "CM360") = false) as Hsub
      by (unfold entry; rewrite Hg; apply truthy_empty_dict).
    assert (truthy (entry md' "CM360") = false) as Hsub'
      by (unfold md'; now rewrite entry_delete_eq).
    assert (truthy (entry md' "deployCM360") = true) as Hflag'
      by (unfold md'; now rewrite entry_delete_ne).
    unfold run_validate, validate, call_function.
    rewrite (validate_body_prelude c w md Hd Hmk Ht).
    rewrite (validate_body_prelude c' w md' Hd' Hmk' Ht').
    rewrite Hmiss.
    destruct (nonempty (missing_in md marketing_attrs)).
    + split; [|reflexivity]. intros v [= <-]. reflexivity.
    + rewrite (after_attrs_cm360_missing md _ Hflag Hsub).
      rewrite (after_attrs_cm360_missing md' _ Hflag' Hsub').
      set (st0 := mkState c w
                    [Log INFO (Msg "Validating 'marketing' configuration...")
                       []]).
      set (st0' := mkState c' w
                     [Log INFO (Msg "Validating 'marketing' configuration...")
                        []]).
      destruct (check_googleads_agree c c' md md' st0 st0') as (Ho & Hag);
        try assumption.
      { unfold md'. now rewrite lookup_delete_ne. }
      { unfold md'. now rewrite lookup_delete_ne. }
      { unfold c'. now rewrite lookup_insert_ne. }
      { unfold c'. now rewrite lookup_insert_ne. }
      { unfold c'. now rewrite lookup_insert_ne. }
      { repeat split. }
      destruct (triple_check_googleads c any_event md
                  ltac:(repeat split) st0 eq_refl)
        as (w1 & evs1 & _ & _ & Hpost).
      destruct (check_googleads validate_resources repr_container
                  (VDict md) st0) as [o st1],
        (check_googleads validate_resources repr_container
                  (VDict md') st0') as [o' st1'].
      simpl in Ho, Hag, Hpost. subst o'.
      destruct Hag as (Hc & Hc' & Hw & Htr).
      destruct o as [[]|v|e]; unfold observed; cbn [fst snd world trace].
      * split; [intros v [= <-]; reflexivity|]. now rewrite Hw, Htr.
      * split; [intros v' [= <-]; exact Hpost|]. now rewrite Hw, Htr.
      * split; [discriminate|]. now rewrite Hw, Htr.
Qed.

(** C10: the deploy flags go by truthiness.  Any falsy [deployMarketing]
    ([False], [0], the empty string, no entry) makes [validate] return the
    document at once; the batch check reports an attribute only when it
    has no entry, is [None] or is the empty string, so a [deployGoogleAds]
    or [deployCM360] equal to [False] or [0] passes it, and the block of
    that sub-module then does nothing: no log record, no constraint, no
    call; with any truthy flag, the string "false" among them, the block
    runs the sub-module's validator, or rejects when the sub-mapping is
    falsy. *)
Theorem deploy_flags_by_truthiness :
  (forall c w,
      truthy (default (VBool false) (c !! "deployMarketing")) = false ->
      run_validate validate_resources repr_container c w
      = (Normal (VDict c),
         mkState c w
           [Log INFO
              (Msg "'marketing' is not being deployed. Skipping validation.")
              []]))
  /\ (forall c,
        c !! "deployMarketing" = None
        \/ c !! "deployMarketing" = Some (VBool false)
        \/ c !! "deployMarketing" = Some (VInt 0)
        \/ c !! "deployMarketing" = Some (VStr "") ->
        truthy (default (VBool false) (c !! "deployMarketing")) = false)
  /\ (forall md attrs st,
        collect_missing (VDict md) attrs [] st
        = (Normal (List.filter (absent md) attrs), st))
  /\ (forall md attr,
        absent md attr = true
        <-> md !! attr = None \/ md !! attr = Some VNone
            \/ md !! attr = Some (VStr ""))
  /\ (forall md flag st,
        flag = VBool false \/ flag = VInt 0 ->
        (md !! "deployGoogleAds" = Some flag ->
         absent md "deployGoogleAds" = false
         /\ check_googleads validate_resources repr_container (VDict md) st
            = (Normal tt, st))
        /\ (md !! "deployCM360" = Some flag ->
            absent md "deployCM360" = false
            /\ check_cm360 validate_resources repr_container (VDict md) st
               = (Normal tt, st)))
  /\ (forall md flag st,
        truthy flag = true ->
        (md !! "deployGoogleAds" = Some flag ->
         check_googleads validate_resources repr_container (VDict md) st
         = if truthy (entry md "GoogleAds")
           then guarded "🛑 GoogleAds config validation failed: %s 🛑"
                  "🛑 GoogleAds config validation failed. 🛑"
                  (_validate_googleads validate_resources repr_container st)
           else (Returned VNone,
                 mkState (cfg st) (world st)
                   (trace st
                    ++ [Log ERROR
                          (Msg "🛑 Missing 'marketing' 'GoogleAds' attribute in the config file. 🛑")
                          []])))
        /\ (md !! "deployCM360" = Some flag ->
            check_cm360 validate_resources repr_container (VDict md) st
            = if truthy (entry md "CM360")
              then guarded "🛑 CM360 config validation failed: %s 🛑"
                     "🛑 CM360 config validation failed. 🛑"
                     (_validate_cm360 validate_resources repr_container st)
              else (Returned VNone,
                    mkState (cfg st) (world st)
                      (trace st
                       ++ [Log ERROR
                             (Msg "🛑 Missing 'marketing' 'CM360' attribute in the config file. 🛑")
                             []]))))
  /\ truthy (VStr "false") = true.
Proof.
  split; [exact run_validate_skip|].
  split; [intros c [-> |[-> |[-> | ->]]]; reflexivity|].
  split; [intros md attrs st; apply collect_missing_dict|].
  split; [exact absent_spec|].
  split; [|split; [|reflexivity]].
  - intros md flag st Hflag. split; intros Hlook.
    + split.
      * unfold absent. rewrite Hlook. now destruct Hflag as [-> | ->].
      * apply check_googleads_disabled. unfold entry. rewrite Hlook.
        now destruct Hflag as [-> | ->].
    + split.
      * unfold absent. rewrite Hlook. now destruct Hflag as [-> | ->].
      * apply check_cm360_disabled. unfold entry. rewrite Hlook.
        now destruct Hflag as [-> | ->].
  - intros md flag st Hflag. split; intros Hlook.
    + assert (truthy (entry md "deployGoogleAds") = true) as Hd
        by (unfold entry; now rewrite Hlook).
      destruct (truthy (entry md "GoogleAds")) eqn:Hsub.
      * now apply check_googleads_enabled.
      * now apply check_googleads_missing.
    + assert (truthy (entry md "deployCM360") = true) as Hd
        by (unfold entry; now rewrite Hlook).
      destruct (truthy (entry md "CM360")) eqn:Hsub.
      * now apply check_cm360_enabled.
      * now apply check_cm360_missing.
Qed.

(** *** Outcomes and traces of whole runs *)

Import RunSpec.
Local Abbreviation hoare := (@RunSpec.hoare World _).

Lemma hoare_conseq {A} c (post post' : outcome A -> list event -> Prop)
    (m : M World A) :
  hoare c post m -> (forall o evs, post o evs -> post' o evs) ->
  hoare c post' m.
Proof.
  intros Hm Himp st Hst. destruct (Hm st Hst) as (w' & evs & Hs & Hp).
  exists w', evs. auto.
Qed.

Lemma hoare_pure {A} c (post : outcome A -> list event -> Prop)
    (m : M World A) (o : outcome A) :
  (forall st, m st = (o, st)) -> post o [] -> hoare c post m.
Proof.
  intros Hm Hp st Hst. exists (world st), []. rewrite Hm, app_nil_r.
  subst c. split; [now destruct st|exact Hp].
Qed.

Lemma hoare_ret {A} c (post : outcome A -> list event -> Prop) (a : A) :
  post (Normal a) [] -> hoare c post (ret a).
Proof. intros. now apply (hoare_pure c post _ (Normal a)). Qed.

Lemma hoare_raise {A} c (post : outcome A -> list event -> Prop) (e : exn) :
  post (Raised e) [] -> hoare c post (raise e).
Proof. intros. now apply (hoare_pure c post _ (Raised e)). Qed.

Lemma hoare_return {A} c (post : outcome A -> list event -> Prop) v :
  post (Returned v) [] -> hoare c post (return_ v).
Proof. intros. now apply (hoare_pure c post _ (Returned v)). Qed.

Lemma hoare_emit c (post : outcome unit -> list event -> Prop) ev :
  post (Normal tt) [ev] -> hoare c post (emit ev).
Proof.
  intros Hp st Hst. exists (world st), [ev]. subst c. split; [reflexivity|].
  exact Hp.
Qed.

Lemma hoare_load_cfg c (post : outcome pyval -> list event -> Prop) :
  post (Normal (VDict c)) [] -> hoare c post load_cfg.
Proof.
  intros Hp st Hst. exists (world st), []. rewrite app_nil_r. subst c.
  split; [now destruct st|exact Hp].
Qed.

Lemma hoare_call c (post : outcome pyval -> list event -> Prop)
    buckets datasets :
  (forall v, post (Normal v) [Call buckets datasets]) ->
  (forall e, thrown e -> post (Raised e) [Call buckets datasets]) ->
  hoare c post (call_validate_resources validate_resources buckets datasets).
Proof.
  intros Hv He st Hst. unfold call_validate_resources.
  destruct (validate_resources buckets datasets (world st)) as [[v|e] w'] eqn:Hr;
    exists w', [Call buckets datasets]; subst c; (split; [reflexivity|]);
    cbn [fst]; [apply Hv|apply He].
  exists buckets, datasets, (world st). now rewrite Hr.
Qed.

Lemma hoare_py_get c (post : outcome pyval -> list event -> Prop)
    obj key dflt :
  (forall d, obj = VDict d -> post (Normal (default dflt (d !! key))) []) ->
  (is_dict obj = false -> post (Raised (AttributeError "get")) []) ->
  hoare c post (py_get obj key dflt).
Proof.
  intros Hd Hn. destruct obj;
    try (apply (hoare_pure c post _ (Raised (AttributeError "get")));
         [reflexivity|now apply Hn]).
  apply (hoare_pure c post _ (Normal (default dflt (d !! key))));
    [reflexivity|now apply Hd].
Qed.

Lemma hoare_py_getitem c (post : outcome pyval -> list event -> Prop)
    obj key :
  (forall d v, obj = VDict d -> d !! key = Some v -> post (Normal v) []) ->
  (forall d, obj = VDict d -> d !! key = None ->
             post (Raised (KeyError key)) []) ->
  (is_dict obj = false -> post (Raised (TypeError "subscript")) []) ->
  hoare c post (py_getitem obj key).
Proof.
  intros Hs Hk Hn. destruct obj;
    try (apply (hoare_pure c post _ (Raised (TypeError "subscript")));
         [reflexivity|now apply Hn]).
  destruct (d !! key) as [v|] eqn:Hlook.
  - apply (hoare_pure c post _ (Normal v));
      [intros st; now apply py_getitem_some|now apply (Hs d)].
  - apply (hoare_pure c post _ (Raised (KeyError key)));
      [intros st; now apply py_getitem_none|now apply (Hk d)].
Qed.

Lemma hoare_py_lower c (post : outcome string -> list event -> Prop) obj :
  (forall s, obj = VStr s -> post (Normal (str_lower s)) []) ->
  (is_str obj = false -> post (Raised (AttributeError "lower")) []) ->
  hoare c post (py_lower obj).
Proof.
  intros Hs Hn. destruct obj;
    try (apply (hoare_pure c post _ (Raised (AttributeError "lower")));
         [reflexivity|now apply Hn]).
  apply (hoare_pure c post _ (Normal (str_lower s)));
    [reflexivity|now apply Hs].
Qed.

Lemma hoare_collect_missing c (post : outcome (list string) -> list event -> Prop)
    obj attr rest acc :
  (forall d, obj = VDict d ->
             post (Normal (acc ++ missing_in d (attr :: rest))) []) ->
  (is_dict obj = false -> post (Raised (AttributeError "get")) []) ->
  hoare c post (collect_missing obj (attr :: rest) acc).
Proof.
  intros Hd Hn. destruct (is_dict obj) eqn:Hdict.
  - destruct obj; try discriminate.
    apply (hoare_pure c post _
             (Normal (acc ++ missing_in d (attr :: rest))));
      [intros st; apply collect_missing_dict|now apply Hd].
  - apply (hoare_pure c post _ (Raised (AttributeError "get")));
      [intros st; now apply collect_missing_not_dict|now apply Hn].
Qed.

Lemma hoare_bind {A B} c (post : outcome B -> list event -> Prop)
    (m : M World A) (k : A -> M World B) :
  hoare c
    (fun o evs =>
       match o with
       | Normal a => hoare c (fun o' evs' => post o' (evs ++ evs')) (k a)
       | Returned v => post (Returned v) evs
       | Raised e => post (Raised e) evs
       end) m ->
  hoare c post (bind m k).
Proof.
  intros Hm st Hst. destruct (Hm st Hst) as (w1 & evs1 & Hs1 & Hp1).
  unfold bind. destruct (m st) as [[a|v|e] st1]; simpl in Hs1, Hp1; subst st1.
  - destruct (Hp1 (mkState c w1 (trace st ++ evs1)) eq_refl)
      as (w2 & evs2 & Hs2 & Hp2).
    exists w2, (evs1 ++ evs2). rewrite Hs2. cbn [trace].
    rewrite app_assoc. auto.
  - exists w1, evs1. auto.
  - exists w1, evs1. auto.
Qed.

Lemma hoare_try {A} c (post : outcome A -> list event -> Prop)
    (body : M World A) (handler : exn -> option (M World A)) :
  hoare c
    (fun o evs =>
       match o with
       | Normal a => post (Normal a) evs
       | Returned v => post (Returned v) evs
       | Raised e =>
           match handler e with
           | Some h => hoare c (fun o' evs' => post o' (evs ++ evs')) h
           | None => post (Raised e) evs
           end
       end) body ->
  hoare c post (try_except body handler).
Proof.
  intros Hb st Hst. destruct (Hb st Hst) as (w1 & evs1 & Hs1 & Hp1).
  unfold try_except.
  destruct (body st) as [[a|v|e] st1]; simpl in Hs1, Hp1; subst st1.
  - exists w1, evs1. auto.
  - exists w1, evs1. auto.
  - destruct (handler e) as [h|].
    + destruct (Hp1 (mkState c w1 (trace st ++ evs1)) eq_refl)
        as (w2 & evs2 & Hs2 & Hp2).
      exists w2, (evs1 ++ evs2). rewrite Hs2. cbn [trace].
      rewrite app_assoc. auto.
    + exists w1, evs1. auto.
Qed.

Lemma hoare_call_function c (post : outcome pyval -> list event -> Prop)
    (body : M World unit) :
  hoare c
    (fun o evs =>
       match o with
       | Normal _ => post (Normal VNone) evs
       | Returned v => post (Normal v) evs
       | Raised e => post (Raised e) evs
       end) body ->
  hoare c post (call_function body).
Proof.
  intros Hb st Hst. destruct (Hb st Hst) as (w1 & evs1 & Hs1 & Hp1).
  unfold call_function.
  destruct (body st) as [[a|v|e] st1]; simpl in Hs1, Hp1; subst st1;
    exists w1, evs1; auto.
Qed.

Ltac hclean :=
  repeat match goal with
    | H : VDict _ = VDict _ |- _ => injection H as <-
    | H : VStr _ = VStr _ |- _ => injection H as <-
    | H : ?x = VDict _ |- _ => is_var x; subst x
    | H : ?x = VStr _ |- _ => is_var x; subst x
    | H : is_dict (VDict _) = false |- _ => discriminate H
    | H : is_str (VStr _) = false |- _ => discriminate H
    end.

Ltac hstep :=
  lazymatch goal with
  | |- @RunSpec.hoare _ _ _ _ ?m =>
      lazymatch m with
      | bind _ _ => apply hoare_bind
      | try_except _ _ => apply hoare_try
      | call_function _ => apply hoare_call_function
      | emit _ => apply hoare_emit
      | load_cfg => apply hoare_load_cfg
      | call_validate_resources _ _ _ =>
          apply hoare_call; [intros ?|intros ? ?]
      | py_get _ _ _ => apply hoare_py_get; [intros ? ?|intros ?]
      | py_getitem _ _ =>
          apply hoare_py_getitem; [intros ? ? ? ?|intros ? ? ?|intros ?]
      | py_lower _ => apply hoare_py_lower; [intros ? ?|intros ?]
      | collect_missing _ (_ :: _) _ =>
          apply hoare_collect_missing; [intros ? ?|intros ?]
      | ret _ => apply hoare_ret
      | raise _ => apply hoare_raise
      | return_ _ => apply hoare_return
      | (if ?b then _ else _) => destruct b eqn:?
      end
  | |- context [match ?e with ValueError _ => _ | _ => _ end] =>
      is_var e; destruct e
  end;
  lazy beta iota; cbn [app]; hclean.

Ltac hunfold :=
  unfold validate, validate_body, validate_checks, skip_if_disabled,
    load_marketing, check_marketing_attrs, marketing_attrs, check_googleads,
    check_cm360, check_region, _validate_googleads, _validate_googleads_body,
    _validate_cm360, _validate_cm360_body, dataset_constraints,
    logging_info, logging_error, logging_error_exn.

Lemma default_none_dict (o : option pyval) d :
  default VNone o = VDict d -> o = Some (VDict d).
Proof. destruct o; simpl; [now intros ->|discriminate]. Qed.

Lemma nonempty_false {A} (l : list A) : nonempty l = false -> l = [].
Proof. now destruct l. Qed.

Ltac hnorm :=
  repeat match goal with
    | H : default VNone _ = VDict _ |- _ => apply default_none_dict in H
    | H : nonempty _ = false |- _ => apply nonempty_false in H
    end;
  repeat match goal with
    | H1 : ?x = Some ?a, H2 : ?x = Some ?b |- _ =>
        rewrite H1 in H2; simplify_eq
    end.

Ltac use_lookups :=
  unfold expected_datasets, expected_buckets, entry;
  repeat match goal with
    | H : ?d !! ?k = Some _ |- context [?d !! ?k] => rewrite H
    end;
  cbn [default from_option id].

Ltac find_event := simpl; repeat (first [left; reflexivity|right]).

Ltac sound_leaf :=
  let Hdeploy := fresh "Hdeploy" in
  intros Hdeploy; hnorm;
  first
    [ (* the pass-through does not deploy marketing *)
      match goal with
      | H : negb (truthy (default (VBool false) _)) = true |- _ =>
          rewrite Hdeploy in H; discriminate H
      end
    | unfold accepted_sound, submodule_validated;
      eexists _, _, _;
      repeat match goal with |- _ /\ _ => split end;
      try eassumption;
      try (match goal with
           | H : negb (_ =? _)%string && negb (startswith _ _) = false
             |- region_rejected _ _ = false => exact H
           end);
      try (intros Hflag; unfold entry in Hflag;
           first
             [ congruence
             | eexists _, _;
               repeat match goal with |- _ /\ _ => split end;
               try eassumption; try (eexists; eassumption);
               use_lookups; find_event ]) ].

(** Everything [verdict] says holds of every run of [validate]. *)
Lemma hoare_validate_verdict c :
  hoare c (verdict repr_container c)
    (validate validate_resources repr_container).
Proof.
  hunfold. repeat hstep.
  all: unfold verdict; (split; [reflexivity|]).
  all: try reflexivity.
  all: repeat match goal with |- _ /\ _ => split end; try reflexivity.
  all: sound_leaf.
Qed.

(** *** Where the sub-module validators fail *)

Ltac run_raise :=
  erewrite bind_run_raised by
    first [reflexivity
          |apply py_getitem_none; cbn [cfg]; eassumption
          |now apply collect_missing_not_dict].

Lemma validate_googleads_missing_datasets c w t md g ds :
  c !! "marketing" = Some (VDict md) ->
  md !! "GoogleAds" = Some (VDict g) ->
  missing_in g googleads_attrs = [] ->
  g !! "datasets" = Some (VDict ds) ->
  missing_in ds datasets_attrs <> [] ->
  _validate_googleads validate_resources repr_container (mkState c w t)
  = (Raised
       (ValueError
          ("Config file is missing some GoogleAds datasets attributes or has empty value: "
           +:+ repr_names (missing_in ds datasets_attrs) +:+ " ")),
     mkState c w
       (t ++ [Log INFO (Msg "Validating configuration for GoogleAds...") []])).
Proof.
  intros Hmk Hg Hmg Hds Hmds. unfold googleads_attrs, datasets_attrs in *.
  unfold _validate_googleads, call_function, _validate_googleads_body.
  repeat run_bind. rewrite app_nil_l, Hmg. cbn [nonempty].
  repeat run_bind. rewrite app_nil_l.
  destruct (missing_in ds ["cdc"; "raw"; "reporting"]) as [|a l] eqn:Hm;
    [congruence|].
  cbn [nonempty]. run_raise. reflexivity.
Qed.

Lemma validate_googleads_not_mapping c w t md sub :
  c !! "marketing" = Some (VDict md) ->
  md !! "GoogleAds" = Some sub ->
  is_dict sub = false ->
  _validate_googleads validate_resources repr_container (mkState c w t)
  = (Raised (AttributeError "get"),
     mkState c w
       (t ++ [Log INFO (Msg "Validating configuration for GoogleAds...") []])).
Proof.
  intros Hmk Hg Hsub.
  unfold _validate_googleads, call_function, _validate_googleads_body.
  repeat run_bind. run_raise. reflexivity.
Qed.

Lemma validate_googleads_datasets_not_mapping c w t md g dv :
  c !! "marketing" = Some (VDict md) ->
  md !! "GoogleAds" = Some (VDict g) ->
  missing_in g googleads_attrs = [] ->
  g !! "datasets" = Some dv ->
  is_dict dv = false ->
  _validate_googleads validate_resources repr_container (mkState c w t)
  = (Raised (AttributeError "get"),
     mkState c w
       (t ++ [Log INFO (Msg "Validating configuration for GoogleAds...") []])).
Proof.
  intros Hmk Hg Hmg Hds Hdv. unfold googleads_attrs in *.
  unfold _validate_googleads, call_function, _validate_googleads_body.
  repeat run_bind. rewrite app_nil_l, Hmg. cbn [nonempty].
  repeat run_bind. run_raise. reflexivity.
Qed.

Lemma validate_googleads_missing_root c w t md g ds key :
  c !! "marketing" = Some (VDict md) ->
  md !! "GoogleAds" = Some (VDict g) ->
  missing_in g googleads_attrs = [] ->
  g !! "datasets" = Some (VDict ds) ->
  missing_in ds datasets_attrs = [] ->
  (key = "projectIdSource" /\ c !! "projectIdSource" = None)
  \/ (key = "projectIdTarget" /\ is_Some (c !! "projectIdSource")
      /\ c !! "projectIdTarget" = None)
  \/ (key = "location" /\ is_Some (c !! "projectIdSource")
      /\ is_Some (c !! "projectIdTarget") /\ c !! "location" = None) ->
  _validate_googleads validate_resources repr_container (mkState c w t)
  = (Raised (KeyError key),
     mkState c w
       (t ++ [Log INFO (Msg "Validating configuration for GoogleAds...") []])).
Proof.
  intros Hmk Hg Hmg Hds Hmds Hroot. unfold googleads_attrs, datasets_attrs in *.
  unfold _validate_googleads, call_function, _validate_googleads_body.
  repeat run_bind. rewrite app_nil_l, Hmg. cbn [nonempty].
  repeat run_bind. rewrite app_nil_l, Hmds. cbn [nonempty].
  destruct Hroot as [(-> & Hsrc)|[(-> & (src & Hsrc) & Htgt)
                                 |(-> & (src & Hsrc) & (tgt & Htgt) & Hloc)]];
    repeat run_bind; run_raise; reflexivity.
Qed.

Lemma validate_cm360_missing_attrs c w t md cm :
  c !! "marketing" = Some (VDict md) ->
  md !! "CM360" = Some (VDict cm) ->
  missing_in cm cm360_attrs <> [] ->
  _validate_cm360 validate_resources repr_container (mkState c w t)
  = (Raised
       (ValueError
          ("Config file is missing some CM360 attributes or has empty value: "
           +:+ repr_names (missing_in cm cm360_attrs))),
     mkState c w
       (t ++ [Log INFO (Msg "Validating Config file for CM360...") []])).
Proof.
  intros Hmk Hcm Hmcm. unfold cm360_attrs in *.
  unfold _validate_cm360, call_function, _validate_cm360_body.
  repeat run_bind. rewrite app_nil_l.
  destruct (missing_in cm ["deployCDC"; "dataTransferBucket"; "datasets"])
    as [|a l] eqn:Hm; [congruence|].
  cbn [nonempty]. run_raise. reflexivity.
Qed.

Lemma validate_cm360_missing_datasets c w t md cm ds :
  c !! "marketing" = Some (VDict md) ->
  md !! "CM360" = Some (VDict cm) ->
  missing_in cm cm360_attrs = [] ->
  cm !! "datasets" = Some (VDict ds) ->
  missing_in ds datasets_attrs <> [] ->
  _validate_cm360 validate_resources repr_container (mkState c w t)
  = (Raised
       (ValueError
          ("Config file is missing some CM360 datasets attributes or has empty value: "
           +:+ repr_names (missing_in ds datasets_attrs) +:+ " ")),
     mkState c w
       (t ++ [Log INFO (Msg "Validating Config file for CM360...") []])).
Proof.
  intros Hmk Hcm Hmcm Hds Hmds. unfold cm360_attrs, datasets_attrs in *.
  unfold _validate_cm360, call_function, _validate_cm360_body.
  repeat run_bind. rewrite app_nil_l, Hmcm. cbn [nonempty].
  repeat run_bind. rewrite app_nil_l.
  destruct (missing_in ds ["cdc"; "raw"; "reporting"]) as [|a l] eqn:Hm;
    [congruence|].
  cbn [nonempty]. run_raise. reflexivity.
Qed.

Lemma validate_cm360_not_mapping c w t md sub :
  c !! "marketing" = Some (VDict md) ->
  md !! "CM360" = Some sub ->
  is_dict sub = false ->
  _validate_cm360 validate_resources repr_container (mkState c w t)
  = (Raised (AttributeError "get"),
     mkState c w
       (t ++ [Log INFO (Msg "Validating Config file for CM360...") []])).
Proof.
  intros Hmk Hcm Hsub.
  unfold _validate_cm360, call_function, _validate_cm360_body.
  repeat run_bind. run_raise. reflexivity.
Qed.

Lemma validate_cm360_datasets_not_mapping c w t md cm dv :
  c !! "marketing" = Some (VDict md) ->
  md !! "CM360" = Some (VDict cm) ->
  missing_in cm cm360_attrs = [] ->
  cm !! "datasets" = Some dv ->
  is_dict dv = false ->
  _validate_cm360 validate_resources repr_container (mkState c w t)
  = (Raised (AttributeError "get"),
     mkState c w
       (t ++ [Log INFO (Msg "Validating Config file for CM360...") []])).
Proof.
  intros Hmk Hcm Hmcm Hds Hdv. unfold cm360_attrs in *.
  unfold _validate_cm360, call_function, _validate_cm360_body.
  repeat run_bind. rewrite app_nil_l, Hmcm. cbn [nonempty].
  repeat run_bind. run_raise. reflexivity.
Qed.

Lemma validate_cm360_missing_root c w t md cm ds key :
  c !! "marketing" = Some (VDict md) ->
  md !! "CM360" = Some (VDict cm) ->
  missing_in cm cm360_attrs = [] ->
  cm !! "datasets" = Some (VDict ds) ->
  missing_in ds datasets_attrs = [] ->
  (key = "projectIdSource" /\ c !! "projectIdSource" = None)
  \/ (key = "projectIdTarget" /\ is_Some (c !! "projectIdSource")
      /\ c !! "projectIdTarget" = None)
  \/ (key = "location" /\ is_Some (c !! "projectIdSource")
      /\ is_Some (c !! "projectIdTarget") /\ c !! "location" = None) ->
  _validate_cm360 validate_resources repr_container (mkState c w t)
  = (Raised (KeyError key),
     mkState c w
       (t ++ [Log INFO (Msg "Validating Config file for CM360...") []])).
Proof.
  intros Hmk Hcm Hmcm Hds Hmds Hroot. unfold cm360_attrs, datasets_attrs in *.
  unfold _validate_cm360, call_function, _validate_cm360_body.
  repeat run_bind. rewrite app_nil_l, Hmcm. cbn [nonempty].
  repeat run_bind. rewrite app_nil_l, Hmds. cbn [nonempty].
  destruct Hroot as [(-> & Hsrc)|[(-> & (src & Hsrc) & Htgt)
                                 |(-> & (src & Hsrc) & (tgt & Htgt) & Hloc)]];
    repeat run_bind; run_raise; reflexivity.
Qed.

(** *** The body of [validate] block by block *)

Lemma after_attrs_steps md st :
  after_attrs validate_resources repr_container (VDict md) st
  = match check_googleads validate_resources repr_container (VDict md) st with
    | (Normal _, st1) =>
        match check_cm360 validate_resources repr_container (VDict md) st1 with
        | (Normal _, st2) =>
            match check_region (VDict md) st2 with
            | (Normal _, st3) =>
                (Returned (VDict (cfg st3)),
                 mkState (cfg st3) (world st3)
                   (trace st3
                    ++ [Log INFO
                          (Msg "✅ 'marketing' config validated successfully. Looks good.")
                          []]))
            | (Returned v, st3) => (Returned v, st3)
            | (Raised e, st3) => (Raised e, st3)
            end
        | (Returned v, st2) => (Returned v, st2)
        | (Raised e, st2) => (Raised e, st2)
        end
    | (Returned v, st1) => (Returned v, st1)
    | (Raised e, st1) => (Raised e, st1)
    end.
Proof.
  unfold after_attrs. rewrite bind_assoc_run. unfold bind at 1.
  destruct (check_googleads validate_resources repr_container (VDict md) st)
    as [[[]|v|e] st1]; try reflexivity.
  rewrite bind_assoc_run. unfold bind at 1.
  destruct (check_cm360 validate_resources repr_container (VDict md) st1)
    as [[[]|v|e] st2]; try reflexivity.
Qed.

Lemma truthy_dict_entry md key sub :
  md !! key = Some (VDict sub) -> forall attr rest,
  missing_in sub (attr :: rest) = [] -> truthy (entry md key) = true.
Proof.
  intros Hk attr rest Hm. unfold entry. rewrite Hk. cbn [default from_option id].
  now apply (missing_in_nil_truthy sub attr rest).
Qed.

Lemma check_googleads_passes c w t md g ds src tgt loc v w1 :
  c !! "marketing" = Some (VDict md) ->
  submodule_ready md "deployGoogleAds" "GoogleAds" googleads_attrs g ds ->
  c !! "projectIdSource" = Some src ->
  c !! "projectIdTarget" = Some tgt ->
  c !! "location" = Some loc ->
  validate_resources [] (expected_datasets repr_container src tgt loc ds) w
  = (Returns v, w1) ->
  truthy v = true ->
  check_googleads validate_resources repr_container (VDict md) (mkState c w t)
  = (Normal tt,
     mkState c w1
       ((t ++ [Log INFO (Msg "Validating configuration for GoogleAds...") [];
               Call [] (expected_datasets repr_container src tgt loc ds)])
        ++ [Log INFO
              (Msg "✅ Config file validated for GoogleAds and is looking good.")
              []])).
Proof.
  intros Hmk (Hflag & Hg & Hmg & Hds & Hmds) Hsrc Htgt Hloc Hreply Hv.
  rewrite check_googleads_enabled;
    [|exact Hflag|now apply (truthy_dict_entry md _ g Hg _ _ Hmg)].
  rewrite (validate_googleads_run c w t md g ds src tgt loc);
    try assumption.
  rewrite Hreply. unfold resource_outcome. rewrite Hv. reflexivity.
Qed.

Lemma check_cm360_passes c w t md cm ds src tgt loc v w1 :
  c !! "marketing" = Some (VDict md) ->
  submodule_ready md "deployCM360" "CM360" cm360_attrs cm ds ->
  c !! "projectIdSource" = Some src ->
  c !! "projectIdTarget" = Some tgt ->
  c !! "location" = Some loc ->
  validate_resources (expected_buckets loc cm)
    (expected_datasets repr_container src tgt loc ds) w
  = (Returns v, w1) ->
  truthy v = true ->
  check_cm360 validate_resources repr_container (VDict md) (mkState c w t)
  = (Normal tt,
     mkState c w1
       ((t ++ [Log INFO (Msg "Validating Config file for CM360...") [];
               Call (expected_buckets loc cm)
                 (expected_datasets repr_container src tgt loc ds)])
        ++ [Log INFO
              (Msg "✅ Config file validated for GoogleAds and is looking good.")
              []])).
Proof.
  intros Hmk (Hflag & Hcm & Hmcm & Hds & Hmds) Hsrc Htgt Hloc Hreply Hv.
  rewrite check_cm360_enabled;
    [|exact Hflag|now apply (truthy_dict_entry md _ cm Hcm _ _ Hmcm)].
  rewrite (validate_cm360_run c w t md cm ds src tgt loc);
    try assumption.
  rewrite Hreply. unfold resource_outcome. rewrite Hv. reflexivity.
Qed.

Lemma run_validate_after_prelude c w md :
  truthy (default (VBool false) (c !! "deployMarketing")) = true ->
  c !! "marketing" = Some (VDict md) ->
  missing_in md marketing_attrs = [] ->
  run_validate validate_resources repr_container c w
  = call_function
      (after_attrs validate_resources repr_container (VDict md))
      (mkState c w
         [Log INFO (Msg "Validating 'marketing' configuration...") []]).
Proof.
  intros Hd Hmk Hmissing.
  pose proof (missing_in_nil_truthy _ _ _ Hmissing) as Ht.
  unfold run_validate, validate, call_function.
  now rewrite (validate_body_prelude c w md Hd Hmk Ht), Hmissing.
Qed.

Lemma load_marketing_truthy c w t :
  truthy (entry c "marketing") = true ->
  load_marketing (mkState c w t)
  = (Normal (entry c "marketing"),
     mkState c w
       (t ++ [Log INFO (Msg "Validating 'marketing' configuration...") []])).
Proof.
  intros Ht. unfold load_marketing. repeat run_bind.
  cbn [cfg]. fold (entry c "marketing"). rewrite Ht. reflexivity.
Qed.

(** *** Where a sub-module validator raises *)

Lemma check_googleads_keeps_cfg md st o st1 :
  check_googleads validate_resources repr_container (VDict md) st = (o, st1) ->
  cfg st1 = cfg st.
Proof.
  intros Hrun.
  destruct (triple_run _ _ _ _ _ _ st _ _
              (triple_check_googleads (cfg st) (fun _ => True) md
                 ltac:(repeat split)) eq_refl Hrun) as (evs & Hst1 & _).
  now rewrite Hst1.
Qed.

Lemma run_validate_googleads_raised c w md e st2 :
  truthy (default (VBool false) (c !! "deployMarketing")) = true ->
  c !! "marketing" = Some (VDict md) ->
  missing_in md marketing_attrs = [] ->
  truthy (entry md "deployGoogleAds") = true ->
  truthy (entry md "GoogleAds") = true ->
  _validate_googleads validate_resources repr_container
    (mkState c w [Log INFO (Msg "Validating 'marketing' configuration...") []])
  = (Raised e, st2) ->
  run_validate validate_resources repr_container c w
  = match handled "🛑 GoogleAds config validation failed: %s 🛑"
            "🛑 GoogleAds config validation failed. 🛑" e st2 with
    | (Normal _, st) => (Normal VNone, st)
    | (Returned v, st) => (Normal v, st)
    | (Raised e', st) => (Raised e', st)
    end.
Proof.
  intros Hd Hmk Hmissing Hflag Hsub Hrun.
  rewrite (run_validate_after_prelude c w md Hd Hmk Hmissing).
  unfold call_function. rewrite after_attrs_steps.
  rewrite (check_googleads_enabled md _ Hflag Hsub), Hrun.
  unfold guarded, handled. destruct e; reflexivity.
Qed.

Lemma run_validate_cm360_raised c w md st1 e st2 :
  truthy (default (VBool false) (c !! "deployMarketing")) = true ->
  c !! "marketing" = Some (VDict md) ->
  missing_in md marketing_attrs = [] ->
  check_googleads validate_resources repr_container (VDict md)
    (mkState c w [Log INFO (Msg "Validating 'marketing' configuration...") []])
  = (Normal tt, st1) ->
  truthy (entry md "deployCM360") = true ->
  truthy (entry md "CM360") = true ->
  _validate_cm360 validate_resources repr_container st1 = (Raised e, st2) ->
  run_validate validate_resources repr_container c w
  = match handled "🛑 CM360 config validation failed: %s 🛑"
            "🛑 CM360 config validation failed. 🛑" e st2 with
    | (Normal _, st) => (Normal VNone, st)
    | (Returned v, st) => (Normal v, st)
    | (Raised e', st) => (Raised e', st)
    end.
Proof.
  intros Hd Hmk Hmissing Hgads Hflag Hsub Hrun.
  rewrite (run_validate_after_prelude c w md Hd Hmk Hmissing).
  unfold call_function. rewrite after_attrs_steps, Hgads.
  rewrite (check_cm360_enabled md _ Hflag Hsub), Hrun.
  unfold guarded, handled. destruct e; reflexivity.
Qed.

Lemma truthy_entry_dict md key sub :
  md !! key = Some sub -> truthy sub = true -> truthy (entry md key) = true.
Proof. intros Hk Ht. unfold entry. now rewrite Hk. Qed.

Lemma check_region_raises c w t md rv e :
  md !! "dataflowRegion" = Some rv ->
  (is_str rv = false /\ e = AttributeError "lower")
  \/ (is_str rv = true /\ c !! "location" = None /\ e = KeyError "location")
  \/ (is_str rv = true
      /\ exists lv, c !! "location" = Some lv /\ is_str lv = false
                    /\ e = AttributeError "lower") ->
  check_region (VDict md) (mkState c w t) = (Raised e, mkState c w t).
Proof.
  intros Hr [(Hs & ->)|[(Hs & Hl & ->)|(Hs & lv & Hl & Hls & ->)]];
    unfold check_region; run_bind;
    destruct rv; try discriminate Hs; try reflexivity.
  - repeat run_bind. run_raise. reflexivity.
  - repeat run_bind. destruct lv; try discriminate Hls; reflexivity.
Qed.

(** *** Further properties of [validate] *)

(** X4: [validate] returns [None] only right after a record of level
    [ERROR]; it returns the document only right after a record of level
    [INFO] and with no record of level [ERROR] in the trace; and when it
    raises, it has logged no record of level [ERROR]. *)
Theorem validate_verdict_logged c w :
  match fst (run_validate validate_resources repr_container c w) with
  | Normal v =>
      (v = VNone
       /\ last_level
            (trace (snd (run_validate validate_resources repr_container c w)))
          = Some ERROR)
      \/ (v = VDict c
          /\ last_level
               (trace (snd (run_validate validate_resources repr_container c w)))
             = Some INFO
          /\ error_free
               (trace (snd (run_validate validate_resources repr_container c w)))
             = true)
  | Returned _ => False
  | Raised _ =>
      error_free
        (trace (snd (run_validate validate_resources repr_container c w)))
      = true
  end.
Proof.
  destruct (hoare_validate_verdict c (initial c w) eq_refl)
    as (w' & evs & Hs & _ & Hpost).
  fold (run_validate validate_resources repr_container c w) in Hs, Hpost.
  rewrite Hs. cbn [trace initial app].
  destruct (fst (run_validate validate_resources repr_container c w))
    as [v|v|e]; [|exact Hpost|exact Hpost].
  destruct v; try (right; destruct Hpost as (Hv & Hl & Hf & _); now auto).
  now left.
Qed.

(** X5: in every run [validate] calls the collaborator at most twice: at
    most once without a bucket (GoogleAds) and, after that, at most once
    with exactly one bucket (CM360). *)
Theorem validate_call_shape c w :
  call_shape
    (calls_of
       (trace (snd (run_validate validate_resources repr_container c w))))
  = true.
Proof.
  destruct (hoare_validate_verdict c (initial c w) eq_refl)
    as (w' & evs & Hs & Hshape & _).
  fold (run_validate validate_resources repr_container c w) in Hs.
  rewrite Hs. exact Hshape.
Qed.

(** X6: when [validate] accepts a document that deploys marketing, the
    document holds a marketing mapping with its three attributes, string
    values for [dataflowRegion] and [location] that pass the region test,
    and, for each sub-module whose deploy flag is truthy, the sub-mapping
    with all its required attributes, the three dataset names and the two
    project ids; and the collaborator has been called with the constraints
    built from them. *)
Theorem validate_accepted_sound c w v :
  fst (run_validate validate_resources repr_container c w) = Normal v ->
  v <> VNone ->
  truthy (default (VBool false) (c !! "deployMarketing")) = true ->
  accepted_sound repr_container c
    (trace (snd (run_validate validate_resources repr_container c w))).
Proof.
  intros Hv Hnone Hdeploy.
  destruct (hoare_validate_verdict c (initial c w) eq_refl)
    as (w' & evs & Hs & _ & Hpost).
  fold (run_validate validate_resources repr_container c w) in Hs, Hpost.
  rewrite Hs. cbn [trace initial app]. rewrite Hv in Hpost.
  destruct v; try (destruct Hpost as (_ & _ & _ & Hsound); now apply Hsound).
  congruence.
Qed.

(** X7: [validate] accepts a document with marketing and both sub-modules
    enabled when every attribute check passes, the two project ids are
    there, [location] and [dataflowRegion] are strings that pass the
    region test and the collaborator gives a truthy reply to both calls:
    it returns the document after exactly these eight events, the call
    for GoogleAds before the call for CM360. *)
Theorem validate_accepts c w md g dsg cm dsc src tgt l r v1 w1 v2 w2 :
  truthy (default (VBool false) (c !! "deployMarketing")) = true ->
  c !! "marketing" = Some (VDict md) ->
  missing_in md marketing_attrs = [] ->
  submodule_ready md "deployGoogleAds" "GoogleAds" googleads_attrs g dsg ->
  submodule_ready md "deployCM360" "CM360" cm360_attrs cm dsc ->
  c !! "projectIdSource" = Some src ->
  c !! "projectIdTarget" = Some tgt ->
  c !! "location" = Some (VStr l) ->
  md !! "dataflowRegion" = Some (VStr r) ->
  region_rejected r l = false ->
  validate_resources []
    (expected_datasets repr_container src tgt (VStr l) dsg) w
  = (Returns v1, w1) ->
  truthy v1 = true ->
  validate_resources (expected_buckets (VStr l) cm)
    (expected_datasets repr_container src tgt (VStr l) dsc) w1
  = (Returns v2, w2) ->
  truthy v2 = true ->
  run_validate validate_resources repr_container c w
  = (Normal (VDict c),
     mkState c w2
       [Log INFO (Msg "Validating 'marketing' configuration...") [];
        Log INFO (Msg "Validating configuration for GoogleAds...") [];
        Call [] (expected_datasets repr_container src tgt (VStr l) dsg);
        Log INFO
          (Msg "✅ Config file validated for GoogleAds and is looking good.")
          [];
        Log INFO (Msg "Validating Config file for CM360...") [];
        Call (expected_buckets (VStr l) cm)
          (expected_datasets repr_container src tgt (VStr l) dsc);
        Log INFO
          (Msg "✅ Config file validated for GoogleAds and is looking good.")
          [];
        Log INFO
          (Msg "✅ 'marketing' config validated successfully. Looks good.")
          []]).
Proof.
  intros Hd Hmk Hmissing Hg Hcm Hsrc Htgt Hloc Hr Hregion Hv1 Ht1 Hv2 Ht2.
  rewrite (run_validate_after_prelude c w md Hd Hmk Hmissing).
  unfold call_function. rewrite after_attrs_steps.
  rewrite (check_googleads_passes c w _ md g dsg src tgt (VStr l) v1 w1
             Hmk Hg Hsrc Htgt Hloc Hv1 Ht1).
  rewrite (check_cm360_passes c w1 _ md cm dsc src tgt (VStr l) v2 w2
             Hmk Hcm Hsrc Htgt Hloc Hv2 Ht2).
  rewrite (check_region_run c w2 _ md r l Hr Hloc), Hregion.
  reflexivity.
Qed.

(** X8: when the GoogleAds block has passed or was skipped, CM360 is
    enabled and its validation fails, by a falsy sub-mapping, by missing
    or empty attributes or by any exception within [Exception],
    [validate] returns [None] and the trace holds no record of the region
    check. *)
Theorem cm360_failure_is_final c w md st1 :
  truthy (default (VBool false) (c !! "deployMarketing")) = true ->
  c !! "marketing" = Some (VDict md) ->
  missing_in md marketing_attrs = [] ->
  check_googleads validate_resources repr_container (VDict md)
    (mkState c w [Log INFO (Msg "Validating 'marketing' configuration...") []])
  = (Normal tt, st1) ->
  truthy (entry md "deployCM360") = true ->
  truthy (entry md "CM360") = false
  \/ (exists cm, md !! "CM360" = Some (VDict cm)
                 /\ missing_in cm cm360_attrs <> [])
  \/ (exists e st2,
         _validate_cm360 validate_resources repr_container st1
         = (Raised e, st2)
         /\ is_Exception e = true) ->
  fst (run_validate validate_resources repr_container c w) = Normal VNone
  /\ Forall (fun ev => region_event ev = false)
       (trace (snd (run_validate validate_resources repr_container c w))).
Proof.
  intros Hd Hmk Hmissing Hgads Hflag Hfail.
  rewrite (run_validate_after_prelude c w md Hd Hmk Hmissing).
  unfold call_function. rewrite after_attrs_steps, Hgads.
  pose proof (triple_check_googleads c (fun ev => region_event ev = false) md
                ltac:(repeat split)) as Hg3.
  destruct (triple_run _ _ _ _ _ _
              (mkState c w
                 [Log INFO (Msg "Validating 'marketing' configuration...") []])
              _ _ Hg3 eq_refl Hgads) as (evs1 & Hst1 & Hevs1 & _).
  assert (Forall (fun ev => region_event ev = false) (trace st1)) as Ht1.
  { rewrite Hst1. cbn [trace]. apply Forall_app. split; [|exact Hevs1].
    now repeat constructor. }
  assert (cfg st1 = c) as Hc1 by now rewrite Hst1.
  assert (truthy (entry md "CM360") = false
          \/ exists e st2,
               _validate_cm360 validate_resources repr_container st1
               = (Raised e, st2) /\ is_Exception e = true) as Hfail'.
  { destruct Hfail as [Hsub|[(cm & Hcm & Hmcm)|Hraised]];
      [now left| |now right].
    right. destruct st1 as [c1 w1 t1]. cbn [cfg] in Hc1. subst c1.
    eexists _, _. split.
    - now apply (validate_cm360_missing_attrs c w1 t1 md cm).
    - reflexivity. }
  destruct (truthy (entry md "CM360")) eqn:Hsub.
  - destruct Hfail' as [?|(e & st2 & Hrun & He)]; [discriminate|].
    rewrite (check_cm360_enabled md st1 Hflag Hsub), Hrun.
    pose proof (triple_validate_cm360 c (fun _ => True)
                  (fun _ _ => I) (fun _ _ _ _ _ => I)
                  (fun ev => region_event ev = false) (fun _ => True)
                  ltac:(repeat split)) as Hc3.
    destruct (triple_run _ _ _ _ _ _ st1 _ _ Hc3 Hc1 Hrun)
      as (evs2 & Hst2 & Hevs2 & _).
    assert (Forall (fun ev => region_event ev = false) (trace st2)) as Ht2.
    { rewrite Hst2. cbn [trace]. apply Forall_app. auto. }
    unfold guarded.
    destruct e; try discriminate; cbn [handled fst snd trace];
      (split; [reflexivity|]);
      (apply Forall_app; split; [exact Ht2|now repeat constructor]).
  - rewrite (check_cm360_missing md st1 Hflag Hsub). cbn [fst snd trace].
    split; [reflexivity|].
    apply Forall_app. split; [exact Ht1|now repeat constructor].
Qed.

(** X9: with GoogleAds enabled and a non-empty GoogleAds mapping, missing
    or empty attributes are reported in one diagnostic that carries the
    message of the validator with the list of their names: the attributes
    of the mapping itself first, those of its [datasets] mapping (a message
    that ends in a space) only when none of the mapping is missing.  The
    run is rejected after three records, with no call of the
    collaborator. *)
Theorem googleads_missing_reported c w md g msg :
  truthy (default (VBool false) (c !! "deployMarketing")) = true ->
  c !! "marketing" = Some (VDict md) ->
  missing_in md marketing_attrs = [] ->
  truthy (entry md "deployGoogleAds") = true ->
  md !! "GoogleAds" = Some (VDict g) ->
  truthy (VDict g) = true ->
  (missing_in g googleads_attrs <> []
   /\ msg = "Config file is missing some GoogleAds attributes or has empty values: "
            +:+ repr_names (missing_in g googleads_attrs))
  \/ (missing_in g googleads_attrs = []
      /\ exists ds,
           g !! "datasets" = Some (VDict ds)
           /\ missing_in ds datasets_attrs <> []
           /\ msg = "Config file is missing some GoogleAds datasets attributes or has empty value: "
                    +:+ repr_names (missing_in ds datasets_attrs) +:+ " ") ->
  run_validate validate_resources repr_container c w
  = (Normal VNone,
     mkState c w
       [Log INFO (Msg "Validating 'marketing' configuration...") [];
        Log INFO (Msg "Validating configuration for GoogleAds...") [];
        Log ERROR (Msg "🛑 GoogleAds config validation failed: %s 🛑")
          [VStr msg]]).
Proof.
  intros Hd Hmk Hmissing Hflag Hg Hgt Hcase.
  pose proof (truthy_entry_dict md _ _ Hg Hgt) as Hsub.
  destruct Hcase as [(Hmg & ->)|(Hmg & ds & Hds & Hmds & ->)].
  - rewrite (run_validate_googleads_raised c w md _ _
               Hd Hmk Hmissing Hflag Hsub
               (validate_googleads_missing_attrs c w _ md g Hmk Hg Hmg)).
    reflexivity.
  - rewrite (run_validate_googleads_raised c w md _ _
               Hd Hmk Hmissing Hflag Hsub
               (validate_googleads_missing_datasets c w _ md g ds
                  Hmk Hg Hmg Hds Hmds)).
    reflexivity.
Qed.

(** X10: the same for CM360, once the GoogleAds block is through: the
    diagnostic of CM360 carries the message of its validator with the
    names of the missing attributes of the mapping or, when none of these
    is missing, of its [datasets] mapping; the run is rejected with the
    world as the GoogleAds block left it. *)
Theorem cm360_missing_reported c w md st1 cm msg :
  truthy (default (VBool false) (c !! "deployMarketing")) = true ->
  c !! "marketing" = Some (VDict md) ->
  missing_in md marketing_attrs = [] ->
  check_googleads validate_resources repr_container (VDict md)
    (mkState c w [Log INFO (Msg "Validating 'marketing' configuration...") []])
  = (Normal tt, st1) ->
  truthy (entry md "deployCM360") = true ->
  md !! "CM360" = Some (VDict cm) ->
  truthy (VDict cm) = true ->
  (missing_in cm cm360_attrs <> []
   /\ msg = "Config file is missing some CM360 attributes or has empty value: "
            +:+ repr_names (missing_in cm cm360_attrs))
  \/ (missing_in cm cm360_attrs = []
      /\ exists ds,
           cm !! "datasets" = Some (VDict ds)
           /\ missing_in ds datasets_attrs <> []
           /\ msg = "Config file is missing some CM360 datasets attributes or has empty value: "
                    +:+ repr_names (missing_in ds datasets_attrs) +:+ " ") ->
  run_validate validate_resources repr_container c w
  = (Normal VNone,
     mkState c (world st1)
       (trace st1
        ++ [Log INFO (Msg "Validating Config file for CM360...") [];
            Log ERROR (Msg "🛑 CM360 config validation failed: %s 🛑")
              [VStr msg]])).
Proof.
  intros Hd Hmk Hmissing Hgads Hflag Hcm Hcmt Hcase.
  pose proof (truthy_entry_dict md _ _ Hcm Hcmt) as Hsub.
  pose proof (check_googleads_keeps_cfg _ _ _ _ Hgads) as Hc1.
  destruct st1 as [c1 w1 t1]. cbn [cfg] in Hc1. subst c1.
  destruct Hcase as [(Hmc & ->)|(Hmc & ds & Hds & Hmds & ->)].
  - rewrite (run_validate_cm360_raised c w md _ _ _
               Hd Hmk Hmissing Hgads Hflag Hsub
               (validate_cm360_missing_attrs c w1 t1 md cm Hmk Hcm Hmc)).
    cbn [handled cfg world trace]. now rewrite <- app_assoc.
  - rewrite (run_validate_cm360_raised c w md _ _ _
               Hd Hmk Hmissing Hgads Hflag Hsub
               (validate_cm360_missing_datasets c w1 t1 md cm ds
                  Hmk Hcm Hmc Hds Hmds)).
    cbn [handled cfg world trace]. now rewrite <- app_assoc.
Qed.

(** X11: the project ids and the location are looked up only inside a
    sub-module validator.  With GoogleAds enabled and its attribute checks
    passed, a document without [projectIdSource], [projectIdTarget] or
    [location] is rejected by the broad handler: two records of level
    [ERROR], the second being the [KeyError] of the first field that is
    missing, and no call of the collaborator. *)
Theorem googleads_missing_root_field c w md g ds key :
  truthy (default (VBool false) (c !! "deployMarketing")) = true ->
  c !! "marketing" = Some (VDict md) ->
  missing_in md marketing_attrs = [] ->
  submodule_ready md "deployGoogleAds" "GoogleAds" googleads_attrs g ds ->
  first_missing_root c key ->
  run_validate validate_resources repr_container c w
  = (Normal VNone,
     mkState c w
       [Log INFO (Msg "Validating 'marketing' configuration...") [];
        Log INFO (Msg "Validating configuration for GoogleAds...") [];
        Log ERROR (Msg "🛑 GoogleAds config validation failed. 🛑") [];
        Log ERROR (MsgExn (KeyError key)) []]).
Proof.
  intros Hd Hmk Hmissing (Hflag & Hg & Hmg & Hds & Hmds) Hroot.
  rewrite (run_validate_googleads_raised c w md _ _
             Hd Hmk Hmissing Hflag
             (truthy_dict_entry md _ g Hg _ _ Hmg)
             (validate_googleads_missing_root c w _ md g ds key
                Hmk Hg Hmg Hds Hmds Hroot)).
  reflexivity.
Qed.

(** X12: the same for CM360, once the GoogleAds block is through: a
    missing [projectIdSource], [projectIdTarget] or [location] is reported
    by the broad handler of the CM360 block as a [KeyError], with no call
    of the collaborator for CM360. *)
Theorem cm360_missing_root_field c w md st1 cm ds key :
  truthy (default (VBool false) (c !! "deployMarketing")) = true ->
  c !! "marketing" = Some (VDict md) ->
  missing_in md marketing_attrs = [] ->
  check_googleads validate_resources repr_container (VDict md)
    (mkState c w [Log INFO (Msg "Validating 'marketing' configuration...") []])
  = (Normal tt, st1) ->
  submodule_ready md "deployCM360" "CM360" cm360_attrs cm ds ->
  first_missing_root c key ->
  run_validate validate_resources repr_container c w
  = (Normal VNone,
     mkState c (world st1)
       (trace st1
        ++ [Log INFO (Msg "Validating Config file for CM360...") [];
            Log ERROR (Msg "🛑 CM360 config validation failed. 🛑") [];
            Log ERROR (MsgExn (KeyError key)) []])).
Proof.
  intros Hd Hmk Hmissing Hgads (Hflag & Hcm & Hmc & Hds & Hmds) Hroot.
  pose proof (check_googleads_keeps_cfg _ _ _ _ Hgads) as Hc1.
  destruct st1 as [c1 w1 t1]. cbn [cfg] in Hc1. subst c1.
  rewrite (run_validate_cm360_raised c w md _ _ _
             Hd Hmk Hmissing Hgads Hflag
             (truthy_dict_entry md _ cm Hcm _ _ Hmc)
             (validate_cm360_missing_root c w1 t1 md cm ds key
                Hmk Hcm Hmc Hds Hmds Hroot)).
  cbn [handled cfg world trace]. now rewrite <- app_assoc.
Qed.

(** X13: with GoogleAds enabled, a truthy [GoogleAds] value that is not a
    mapping (a string, a number, a list) or a [datasets] value that is not
    a mapping makes the validator fail on [.get]; the broad handler turns
    this into a rejection with two records of level [ERROR], the second
    being the [AttributeError]. *)
Theorem googleads_not_a_mapping c w md :
  truthy (default (VBool false) (c !! "deployMarketing")) = true ->
  c !! "marketing" = Some (VDict md) ->
  missing_in md marketing_attrs = [] ->
  truthy (entry md "deployGoogleAds") = true ->
  (exists sub,
      md !! "GoogleAds" = Some sub /\ truthy sub = true
      /\ is_dict sub = false)
  \/ (exists g dv,
         md !! "GoogleAds" = Some (VDict g)
         /\ missing_in g googleads_attrs = []
         /\ g !! "datasets" = Some dv /\ is_dict dv = false) ->
  run_validate validate_resources repr_container c w
  = (Normal VNone,
     mkState c w
       [Log INFO (Msg "Validating 'marketing' configuration...") [];
        Log INFO (Msg "Validating configuration for GoogleAds...") [];
        Log ERROR (Msg "🛑 GoogleAds config validation failed. 🛑") [];
        Log ERROR (MsgExn (AttributeError "get")) []]).
Proof.
  intros Hd Hmk Hmissing Hflag
    [(sub & Hg & Hgt & Hnd)|(g & dv & Hg & Hmg & Hds & Hnd)].
  - rewrite (run_validate_googleads_raised c w md _ _
               Hd Hmk Hmissing Hflag (truthy_entry_dict md _ _ Hg Hgt)
               (validate_googleads_not_mapping c w _ md sub Hmk Hg Hnd)).
    reflexivity.
  - rewrite (run_validate_googleads_raised c w md _ _
               Hd Hmk Hmissing Hflag
               (truthy_dict_entry md _ g Hg _ _ Hmg)
               (validate_googleads_datasets_not_mapping c w _ md g dv
                  Hmk Hg Hmg Hds Hnd)).
    reflexivity.
Qed.

(** X14: the same for CM360, once the GoogleAds block is through: a
    truthy [CM360] value or a [datasets] value that is not a mapping is
    rejected by the broad handler of the CM360 block with the
    [AttributeError]. *)
Theorem cm360_not_a_mapping c w md st1 :
  truthy (default (VBool false) (c !! "deployMarketing")) = true ->
  c !! "marketing" = Some (VDict md) ->
  missing_in md marketing_attrs = [] ->
  check_googleads validate_resources repr_container (VDict md)
    (mkState c w [Log INFO (Msg "Validating 'marketing' configuration...") []])
  = (Normal tt, st1) ->
  truthy (entry md "deployCM360") = true ->
  (exists sub,
      md !! "CM360" = Some sub /\ truthy sub = true /\ is_dict sub = false)
  \/ (exists cm dv,
         md !! "CM360" = Some (VDict cm)
         /\ missing_in cm cm360_attrs = []
         /\ cm !! "datasets" = Some dv /\ is_dict dv = false) ->
  run_validate validate_resources repr_container c w
  = (Normal VNone,
     mkState c (world st1)
       (trace st1
        ++ [Log INFO (Msg "Validating Config file for CM360...") [];
            Log ERROR (Msg "🛑 CM360 config validation failed. 🛑") [];
            Log ERROR (MsgExn (AttributeError "get")) []])).
Proof.
  intros Hd Hmk Hmissing Hgads Hflag Hcase.
  pose proof (check_googleads_keeps_cfg _ _ _ _ Hgads) as Hc1.
  destruct st1 as [c1 w1 t1]. cbn [cfg] in Hc1. subst c1.
  destruct Hcase as [(sub & Hcm & Hcmt & Hnd)|(cm & dv & Hcm & Hmc & Hds & Hnd)].
  - rewrite (run_validate_cm360_raised c w md _ _ _
               Hd Hmk Hmissing Hgads Hflag (truthy_entry_dict md _ _ Hcm Hcmt)
               (validate_cm360_not_mapping c w1 t1 md sub Hmk Hcm Hnd)).
    cbn [handled cfg world trace]. now rewrite <- app_assoc.
  - rewrite (run_validate_cm360_raised c w md _ _ _
               Hd Hmk Hmissing Hgads Hflag
               (truthy_dict_entry md _ cm Hcm _ _ Hmc)
               (validate_cm360_datasets_not_mapping c w1 t1 md cm dv
                  Hmk Hcm Hmc Hds Hnd)).
    cbn [handled cfg world trace]. now rewrite <- app_assoc.
Qed.

(** X15: what becomes of an exception the collaborator throws at the call
    for CM360, once the GoogleAds block is through: a [ValueError] is
    reported in one record that carries its message, any other exception
    within [Exception] in two records, the second being the exception
    itself, and both reject the run; an exception outside [Exception]
    leaves [validate] as it is.  The world is the one the failed call
    left. *)
Theorem cm360_collaborator_throws c w md st1 cm ds src tgt loc e w2 :
  truthy (default (VBool false) (c !! "deployMarketing")) = true ->
  c !! "marketing" = Some (VDict md) ->
  missing_in md marketing_attrs = [] ->
  check_googleads validate_resources repr_container (VDict md)
    (mkState c w [Log INFO (Msg "Validating 'marketing' configuration...") []])
  = (Normal tt, st1) ->
  submodule_ready md "deployCM360" "CM360" cm360_attrs cm ds ->
  c !! "projectIdSource" = Some src ->
  c !! "projectIdTarget" = Some tgt ->
  c !! "location" = Some loc ->
  validate_resources (expected_buckets loc cm)
    (expected_datasets repr_container src tgt loc ds) (world st1)
  = (Throws e, w2) ->
  run_validate validate_resources repr_container c w
  = let t2 :=
      trace st1
      ++ [Log INFO (Msg "Validating Config file for CM360...") [];
          Call (expected_buckets loc cm)
            (expected_datasets repr_container src tgt loc ds)] in
    match e with
    | ValueError msg =>
        (Normal VNone,
         mkState c w2
           (t2 ++ [Log ERROR (Msg "🛑 CM360 config validation failed: %s 🛑")
                     [VStr msg]]))
    | NonException _ => (Raised e, mkState c w2 t2)
    | _ =>
        (Normal VNone,
         mkState c w2
           (t2 ++ [Log ERROR (Msg "🛑 CM360 config validation failed. 🛑") [];
                   Log ERROR (MsgExn e) []]))
    end.
Proof.
  intros Hd Hmk Hmissing Hgads (Hflag & Hcm & Hmc & Hds & Hmds)
    Hsrc Htgt Hloc Hreply.
  pose proof (check_googleads_keeps_cfg _ _ _ _ Hgads) as Hc1.
  destruct st1 as [c1 w1 t1]. cbn [cfg] in Hc1. subst c1.
  cbn [world] in Hreply.
  assert (_validate_cm360 validate_resources repr_container (mkState c w1 t1)
          = (Raised e,
             mkState c w2
               (t1 ++ [Log INFO (Msg "Validating Config file for CM360...") [];
                       Call (expected_buckets loc cm)
                         (expected_datasets repr_container src tgt loc ds)])))
    as Hrun.
  { rewrite (validate_cm360_run c w1 t1 md cm ds src tgt loc
               Hmk Hcm Hmc Hds Hmds Hsrc Htgt Hloc).
    now rewrite Hreply. }
  rewrite (run_validate_cm360_raised c w md _ _ _
             Hd Hmk Hmissing Hgads Hflag
             (truthy_dict_entry md _ cm Hcm _ _ Hmc) Hrun).
  destruct e; reflexivity.
Qed.

(** X16: [validate] takes [marketing] for a mapping without a test.  With
    [deployMarketing] on, a truthy [marketing] value that is not a mapping
    (a string, a number, a list) makes the attribute check fail on [.get]
    outside every [try]: [validate] raises [AttributeError] after its
    first record, with no diagnostic. *)
Theorem marketing_not_a_mapping_raises c w mv :
  truthy (default (VBool false) (c !! "deployMarketing")) = true ->
  c !! "marketing" = Some mv ->
  truthy mv = true ->
  is_dict mv = false ->
  run_validate validate_resources repr_container c w
  = (Raised (AttributeError "get"),
     mkState c w
       [Log INFO (Msg "Validating 'marketing' configuration...") []]).
Proof.
  intros Hd Hmk Ht Hnd.
  assert (entry c "marketing" = mv) as Hent by (unfold entry; now rewrite Hmk).
  unfold run_validate, validate, call_function, validate_body,
    validate_checks, initial.
  rewrite bind_assoc_run.
  rewrite (bind_run_normal _ _ _ _ _ (skip_if_disabled_pass c w [] Hd)).
  rewrite bind_assoc_run.
  rewrite (bind_run_normal _ _ _ _ _
             (load_marketing_truthy c w []
                ltac:(rewrite Hent; exact Ht))).
  rewrite Hent, bind_assoc_run.
  erewrite bind_run_raised; [reflexivity|].
  unfold check_marketing_attrs, marketing_attrs.
  apply bind_run_raised. now apply collect_missing_not_dict.
Qed.

(** X17: the region check runs outside every [try].  Once the checks
    before it are through, a [dataflowRegion] that is not a string, a
    document without [location], or a [location] that is not a string
    makes [validate] raise ([AttributeError] for [.lower], [KeyError] for
    the lookup) with no record added: the trace ends with the events of
    the checks, the success records of the sub-modules among them. *)
Theorem region_check_raises c w m st1 md rv e :
  validate_checks validate_resources repr_container (initial c w)
  = (Normal m, st1) ->
  c !! "marketing" = Some (VDict md) ->
  md !! "dataflowRegion" = Some rv ->
  (is_str rv = false /\ e = AttributeError "lower")
  \/ (is_str rv = true /\ c !! "location" = None /\ e = KeyError "location")
  \/ (is_str rv = true
      /\ exists lv, c !! "location" = Some lv /\ is_str lv = false
                    /\ e = AttributeError "lower") ->
  run_validate validate_resources repr_container c w = (Raised e, st1).
Proof.
  intros Hrun Hmk Hr Hcase.
  destruct (checks_normal _ _ _ _ Hrun) as ((md' & Hmk' & -> & _) & Hc).
  rewrite Hmk in Hmk'. injection Hmk' as <-.
  unfold run_validate, validate, call_function, validate_body.
  rewrite (bind_run_normal _ _ _ _ _ Hrun).
  destruct st1 as [c1 w1 t1]. cbn [cfg] in Hc. subst c1.
  rewrite (bind_run_raised _ _ _ _ _
             (check_region_raises c w1 t1 md rv e Hr Hcase)).
  reflexivity.
Qed.

End Facts.

(** *** The claims on concrete documents *)

(** C1 as stated fails: with both sub-modules switched off and no
    [location] in the document, the region check raises [KeyError]. *)
Lemma validate_raises_without_location :
  fst (run_validate accepting plain_repr
         (delete "location" (cfg_flags_off "us" "us-central1")) tt)
  = Raised (KeyError "location").
Proof. vm_compute. reflexivity. Qed.

Lemma validate_never_raises_witness :
  let c := cfg_with "us" (marketing_with "us-central1" (VBool true)
                            (VBool true) googleads_block cm360_block) in
  fst (run_validate forbidding plain_repr c tt) = Normal VNone
  \/ fst (run_validate forbidding plain_repr c tt) = Normal (VDict c).
Proof.
  intros c. apply (validate_never_raises forbidding plain_repr c tt).
  - vm_compute. reflexivity.
  - vm_compute. reflexivity.
  - vm_compute. reflexivity.
  - intros b d w' e H. simpl in H. injection H as <-. reflexivity.
Defined.

(** C2 as stated fails: the location "US" with the region "us-central1" is
    not rejected. *)
Lemma region_US_not_rejected :
  fst (run_validate accepting plain_repr
         (cfg_flags_off "US" "us-central1") tt)
  <> Normal VNone.
Proof. vm_compute. discriminate. Qed.

Lemma region_us_central1_passes_witness :
  let c := cfg_flags_off "US" "us-central1" in
  run_validate accepting plain_repr c tt
  = (Normal (VDict c),
     mkState c tt
       [Log INFO (Msg "Validating 'marketing' configuration...") [];
        Log INFO
          (Msg "✅ 'marketing' config validated successfully. Looks good.")
          []]).
Proof.
  intros c.
  apply (region_us_central1_passes accepting plain_repr c tt
           (VDict (marketing_flags_off "us-central1"))
           (mkState c tt
              [Log INFO (Msg "Validating 'marketing' configuration...") []])
           (marketing_flags_off "us-central1") "US").
  - vm_compute. reflexivity.
  - vm_compute. reflexivity.
  - vm_compute. reflexivity.
  - vm_compute. reflexivity.
  - left. reflexivity.
Defined.

Lemma region_check_after_submodules_witness :
  let c := cfg_flags_off "eu" "us-central1" in
  fst (run_validate accepting plain_repr c tt) = Normal VNone
  <-> ~ region_contained "us-central1" "eu".
Proof.
  intros c.
  apply (region_check_after_submodules accepting plain_repr c tt
           (Normal (VDict (marketing_flags_off "us-central1")))
           (mkState c tt
              [Log INFO (Msg "Validating 'marketing' configuration...") []])
           ltac:(vm_compute; reflexivity)
           (marketing_flags_off "us-central1") "us-central1" "eu").
  - vm_compute. reflexivity.
  - vm_compute. reflexivity.
  - vm_compute. reflexivity.
Defined.

Lemma marketing_attrs_batch_witness :
  let md := delete "deployCM360"
              (delete "dataflowRegion" (marketing_flags_off "us-central1")) in
  let c := <["marketing" := VDict md]> (cfg_flags_off "us" "us-central1") in
  run_validate accepting plain_repr c tt
  = (Normal VNone,
     mkState c tt
       [Log INFO (Msg "Validating 'marketing' configuration...") [];
        Log ERROR (Msg missing_marketing_msg)
          [VList [VStr "deployCM360"; VStr "dataflowRegion"]]]).
Proof.
  intros md c.
  destruct (marketing_attrs_batch accepting plain_repr c tt md)
    as (_ & Hreject & _).
  - vm_compute. reflexivity.
  - vm_compute. reflexivity.
  - vm_compute. reflexivity.
  - rewrite Hreject; [|vm_compute; discriminate].
    vm_compute. reflexivity.
Defined.

Lemma validate_leaves_config_witness :
  let c := <["deployMarketing" := VInt 0]> (cfg_flags_off "us" "us-central1") in
  run_validate forbidding plain_repr c tt
  = (Normal (VDict c),
     mkState c tt
       [Log INFO
          (Msg "'marketing' is not being deployed. Skipping validation.")
          []]).
Proof.
  intros c.
  destruct (validate_leaves_config forbidding plain_repr c tt)
    as (_ & _ & Hskip).
  apply Hskip. vm_compute. reflexivity.
Defined.

Lemma googleads_failure_is_final_witness :
  let md := marketing_with "us-central1" (VBool true) (VBool true)
              (VDict googleads_no_lookback) (VDict cm360_broken) in
  let c := cfg_with "us" md in
  fst (run_validate accepting plain_repr c tt) = Normal VNone
  /\ Forall (fun ev => cm360_event ev = false)
       (trace (snd (run_validate accepting plain_repr c tt))).
Proof.
  intros md c.
  destruct (googleads_failure_is_final accepting plain_repr c tt)
    as (_ & Hfinal).
  apply (Hfinal md).
  - vm_compute. reflexivity.
  - vm_compute. reflexivity.
  - vm_compute. reflexivity.
  - vm_compute. reflexivity.
  - right. left. exists googleads_no_lookback. split.
    + vm_compute. reflexivity.
    + vm_compute. discriminate.
Defined.

Lemma submodule_constraints_witness :
  let md := marketing_with "us-central1" (VBool true) (VBool true)
              googleads_block cm360_block in
  let c := cfg_with "us" md in
  _validate_cm360 refusing plain_repr (mkState c tt [])
  = (Raised (ValueError "Resource validation failed."),
     mkState c tt
       [Log INFO (Msg "Validating Config file for CM360...") [];
        Call
          [ {| bucket_name := VStr "cm360-bucket";
               bucket_must_exist := true;
               bucket_location := VStr "us" |} ]
          [ {| full_name := "src-project.ads_raw"; must_exist := true;
               check_access := true; location := VStr "us" |};
            {| full_name := "src-project.ads_cdc"; must_exist := true;
               check_access := true; location := VStr "us" |};
            {| full_name := "tgt-project.ads_rep"; must_exist := false;
               check_access := true; location := VStr "us" |} ]]).
Proof.
  intros md c.
  destruct (submodule_constraints refusing plain_repr c tt [] md
              (VStr "src-project") (VStr "tgt-project") (VStr "us"))
    as (_ & Hcm).
  - vm_compute. reflexivity.
  - vm_compute. reflexivity.
  - vm_compute. reflexivity.
  - vm_compute. reflexivity.
  - destruct (Hcm cm360_map datasets_map) as (Hrun & _).
    + vm_compute. reflexivity.
    + vm_compute. reflexivity.
    + vm_compute. reflexivity.
    + vm_compute. reflexivity.
    + rewrite Hrun. vm_compute. reflexivity.
Defined.

Lemma empty_mapping_as_absent_witness :
  let c := <["marketing" := VDict ∅]> (cfg_flags_off "us" "us-central1") in
  fst (run_validate accepting plain_repr c tt) = Normal VNone
  /\ observed (run_validate accepting plain_repr c tt)
     = observed (run_validate accepting plain_repr (delete "marketing" c) tt).
Proof.
  intros c.
  destruct (empty_mapping_as_absent accepting plain_repr c tt) as (Hempty & _).
  - vm_compute. reflexivity.
  - apply Hempty. unfold c. apply lookup_insert_eq.
Defined.

Lemma deploy_flags_by_truthiness_witness :
  let md := marketing_with "us-central1" (VStr "false") (VInt 0)
              googleads_block cm360_block in
  let st := mkState (cfg_with "us" md) tt [] in
  check_cm360 accepting plain_repr (VDict md) st = (Normal tt, st)
  /\ check_googleads accepting plain_repr (VDict md) st
     = (Normal tt,
        mkState (cfg_with "us" md) tt
          [Log INFO (Msg "Validating configuration for GoogleAds...") [];
           Call []
             [ {| full_name := "src-project.ads_raw"; must_exist := true;
                  check_access := true; location := VStr "us" |};
               {| full_name := "src-project.ads_cdc"; must_exist := true;
                  check_access := true; location := VStr "us" |};
               {| full_name := "tgt-project.ads_rep"; must_exist := false;
                  check_access := true; location := VStr "us" |} ];
           Log INFO
             (Msg "✅ Config file validated for GoogleAds and is looking good.")
             []]).
Proof.
  intros md st.
  destruct (deploy_flags_by_truthiness accepting plain_repr)
    as (_ & _ & _ & _ & Hoff & Hon & _).
  split.
  - apply (Hoff md (VInt 0) st); [now right|]. vm_compute. reflexivity.
  - destruct (Hon md (VStr "false") st eq_refl) as (Hg & _).
    rewrite Hg; [|vm_compute; reflexivity]. vm_compute. reflexivity.
Defined.

(** *** The further properties on concrete documents *)

Import RunSpec.

Ltac by_computation :=
  vm_compute; repeat split; first [reflexivity | discriminate].

Lemma validate_accepted_sound_witness :
  let c := cfg_with "us" (marketing_with "us-central1" (VBool true)
                            (VBool true) googleads_block cm360_block) in
  accepted_sound plain_repr c
    (trace (snd (run_validate accepting plain_repr c tt))).
Proof.
  intros c.
  apply (validate_accepted_sound accepting plain_repr c tt (VDict c)).
  - by_computation.
  - discriminate.
  - by_computation.
Defined.

Lemma validate_accepts_witness :
  let md := marketing_with "us-central1" (VBool true) (VBool true)
              googleads_block cm360_block in
  let c := cfg_with "US" md in
  fst (run_validate accepting plain_repr c tt) = Normal (VDict c)
  /\ calls_of (trace (snd (run_validate accepting plain_repr c tt)))
     = [([], expected_datasets plain_repr (VStr "src-project")
               (VStr "tgt-project") (VStr "US") datasets_map);
        (expected_buckets (VStr "US") cm360_map,
         expected_datasets plain_repr (VStr "src-project")
           (VStr "tgt-project") (VStr "US") datasets_map)].
Proof.
  intros md c.
  rewrite (validate_accepts accepting plain_repr c tt md
             googleads_map datasets_map cm360_map datasets_map
             (VStr "src-project") (VStr "tgt-project") "US" "us-central1"
             (VBool true) tt (VBool true) tt);
    [split; reflexivity|..]; by_computation.
Defined.

Lemma cm360_failure_is_final_witness :
  let md := marketing_with "europe-west1" (VBool true) (VBool true)
              googleads_block (VDict cm360_broken) in
  let c := cfg_with "us" md in
  fst (run_validate accepting plain_repr c tt) = Normal VNone
  /\ Forall (fun ev => region_event ev = false)
       (trace (snd (run_validate accepting plain_repr c tt))).
Proof.
  intros md c.
  eapply (cm360_failure_is_final accepting plain_repr c tt md).
  - by_computation.
  - by_computation.
  - by_computation.
  - vm_compute. reflexivity.
  - by_computation.
  - right. left. exists cm360_broken. by_computation.
Defined.

Lemma googleads_missing_reported_witness :
  let md := marketing_with "us-central1" (VBool true) (VBool false)
              (VDict googleads_no_lookback) cm360_block in
  let c := cfg_with "us" md in
  run_validate accepting plain_repr c tt
  = (Normal VNone,
     mkState c tt
       [Log INFO (Msg "Validating 'marketing' configuration...") [];
        Log INFO (Msg "Validating configuration for GoogleAds...") [];
        Log ERROR (Msg "🛑 GoogleAds config validation failed: %s 🛑")
          [VStr "Config file is missing some GoogleAds attributes or has empty values: ['lookbackDays']"]]).
Proof.
  intros md c.
  apply (googleads_missing_reported accepting plain_repr c tt md
           googleads_no_lookback).
  - by_computation.
  - by_computation.
  - by_computation.
  - by_computation.
  - by_computation.
  - by_computation.
  - left. by_computation.
Defined.

Lemma cm360_missing_reported_witness :
  let md := marketing_with "us-central1" (VBool false) (VBool true)
              googleads_block (VDict cm360_broken) in
  let c := cfg_with "us" md in
  run_validate accepting plain_repr c tt
  = (Normal VNone,
     mkState c tt
       [Log INFO (Msg "Validating 'marketing' configuration...") [];
        Log INFO (Msg "Validating Config file for CM360...") [];
        Log ERROR (Msg "🛑 CM360 config validation failed: %s 🛑")
          [VStr "Config file is missing some CM360 attributes or has empty value: ['dataTransferBucket', 'datasets']"]]).
Proof.
  intros md c.
  apply (cm360_missing_reported accepting plain_repr c tt md
           (mkState c tt
              [Log INFO (Msg "Validating 'marketing' configuration...") []])
           cm360_broken).
  - by_computation.
  - by_computation.
  - by_computation.
  - vm_compute. reflexivity.
  - by_computation.
  - by_computation.
  - by_computation.
  - left. by_computation.
Defined.

Lemma googleads_missing_root_field_witness :
  let md := marketing_with "us-central1" (VBool true) (VBool true)
              googleads_block cm360_block in
  let c := delete "projectIdTarget" (cfg_with "us" md) in
  run_validate accepting plain_repr c tt
  = (Normal VNone,
     mkState c tt
       [Log INFO (Msg "Validating 'marketing' configuration...") [];
        Log INFO (Msg "Validating configuration for GoogleAds...") [];
        Log ERROR (Msg "🛑 GoogleAds config validation failed. 🛑") [];
        Log ERROR (MsgExn (KeyError "projectIdTarget")) []]).
Proof.
  intros md c.
  apply (googleads_missing_root_field accepting plain_repr c tt md
           googleads_map datasets_map "projectIdTarget").
  - by_computation.
  - by_computation.
  - by_computation.
  - by_computation.
  - right. left. split; [reflexivity|]. split.
    + exists (VStr "src-project"). by_computation.
    + by_computation.
Defined.

Lemma cm360_missing_root_field_witness :
  let md := marketing_with "us-central1" (VBool false) (VBool true)
              googleads_block cm360_block in
  let c := delete "projectIdSource" (cfg_with "us" md) in
  run_validate accepting plain_repr c tt
  = (Normal VNone,
     mkState c tt
       [Log INFO (Msg "Validating 'marketing' configuration...") [];
        Log INFO (Msg "Validating Config file for CM360...") [];
        Log ERROR (Msg "🛑 CM360 config validation failed. 🛑") [];
        Log ERROR (MsgExn (KeyError "projectIdSource")) []]).
Proof.
  intros md c.
  apply (cm360_missing_root_field accepting plain_repr c tt md
           (mkState c tt
              [Log INFO (Msg "Validating 'marketing' configuration...") []])
           cm360_map datasets_map "projectIdSource").
  - by_computation.
  - by_computation.
  - by_computation.
  - vm_compute. reflexivity.
  - by_computation.
  - left. by_computation.
Defined.

Lemma googleads_not_a_mapping_witness :
  let md := marketing_with "us-central1" (VBool true) (VBool false)
              (VStr "enabled") cm360_block in
  let c := cfg_with "us" md in
  run_validate accepting plain_repr c tt
  = (Normal VNone,
     mkState c tt
       [Log INFO (Msg "Validating 'marketing' configuration...") [];
        Log INFO (Msg "Validating configuration for GoogleAds...") [];
        Log ERROR (Msg "🛑 GoogleAds config validation failed. 🛑") [];
        Log ERROR (MsgExn (AttributeError "get")) []]).
Proof.
  intros md c.
  apply (googleads_not_a_mapping accepting plain_repr c tt md).
  - by_computation.
  - by_computation.
  - by_computation.
  - by_computation.
  - left. exists (VStr "enabled"). by_computation.
Defined.

Lemma cm360_not_a_mapping_witness :
  let cm := <["datasets" := VStr "cm360_datasets"]> cm360_map in
  let md := marketing_with "us-central1" (VBool false) (VBool true)
              googleads_block (VDict cm) in
  let c := cfg_with "us" md in
  run_validate accepting plain_repr c tt
  = (Normal VNone,
     mkState c tt
       [Log INFO (Msg "Validating 'marketing' configuration...") [];
        Log INFO (Msg "Validating Config file for CM360...") [];
        Log ERROR (Msg "🛑 CM360 config validation failed. 🛑") [];
        Log ERROR (MsgExn (AttributeError "get")) []]).
Proof.
  intros cm md c.
  apply (cm360_not_a_mapping accepting plain_repr c tt md
           (mkState c tt
              [Log INFO (Msg "Validating 'marketing' configuration...") []])).
  - by_computation.
  - by_computation.
  - by_computation.
  - vm_compute. reflexivity.
  - by_computation.
  - right. exists cm, (VStr "cm360_datasets"). by_computation.
Defined.

Lemma cm360_collaborator_throws_witness :
  let md := marketing_with "us-central1" (VBool false) (VBool true)
              googleads_block cm360_block in
  let c := cfg_with "us" md in
  run_validate forbidding plain_repr c tt
  = (Normal VNone,
     mkState c tt
       [Log INFO (Msg "Validating 'marketing' configuration...") [];
        Log INFO (Msg "Validating Config file for CM360...") [];
        Call (expected_buckets (VStr "us") cm360_map)
          (expected_datasets plain_repr (VStr "src-project")
             (VStr "tgt-project") (VStr "us") datasets_map);
        Log ERROR (Msg "🛑 CM360 config validation failed. 🛑") [];
        Log ERROR (MsgExn (OtherException "Forbidden")) []]).
Proof.
  intros md c.
  rewrite (cm360_collaborator_throws forbidding plain_repr c tt md
             (mkState c tt
                [Log INFO (Msg "Validating 'marketing' configuration...") []])
             cm360_map datasets_map (VStr "src-project") (VStr "tgt-project")
             (VStr "us") (OtherException "Forbidden") tt);
    [reflexivity|..]; by_computation.
Defined.

Lemma marketing_not_a_mapping_raises_witness :
  let c := <["marketing" := VStr "GoogleAds"]> (cfg_flags_off "us" "us-central1") in
  run_validate accepting plain_repr c tt
  = (Raised (AttributeError "get"),
     mkState c tt
       [Log INFO (Msg "Validating 'marketing' configuration...") []]).
Proof.
  intros c.
  apply (marketing_not_a_mapping_raises accepting plain_repr c tt
           (VStr "GoogleAds")); by_computation.
Defined.

Lemma region_check_raises_witness :
  let md := <["dataflowRegion" := VInt 1]>
              (marketing_with "us-central1" (VBool true) (VBool false)
                 googleads_block cm360_block) in
  let c := cfg_with "us" md in
  run_validate accepting plain_repr c tt
  = (Raised (AttributeError "lower"),
     mkState c tt
       [Log INFO (Msg "Validating 'marketing' configuration...") [];
        Log INFO (Msg "Validating configuration for GoogleAds...") [];
        Call [] (expected_datasets plain_repr (VStr "src-project")
                   (VStr "tgt-project") (VStr "us") datasets_map);
        Log INFO
          (Msg "✅ Config file validated for GoogleAds and is looking good.")
          []]).
Proof.
  intros md c.
  apply (region_check_raises accepting plain_repr c tt (VDict md) _ md
           (VInt 1)).
  - vm_compute. reflexivity.
  - by_computation.
  - by_computation.
  - left. by_computation.
Defined.

End ValidatorFacts.
